(** * sample04_decoding: the decode driver of the ffmpeg study

    A shallow embedding of [sample04_decoding.c].  The program is a
    sequence of calls into libavformat / libavcodec; the libraries are an
    opaque collaborator, so their answers are taken from a [Library]
    record (one field per library function the program calls) and the
    program is a function from those answers to

    - the trace of library calls and [printf]s it performs, in order;
    - the final value of the global [inputFile];
    - how the run ends (exit status, still looping, or undefined
      behaviour of the C program). *)

From Stdlib Require Import ZArith String List Bool Lia.
Import ListNotations.
Open Scope Z_scope.

(** ** C integers *)

Definition INT_MAX : Z := 2147483647.
Definition UINT_MAX : Z := 4294967295.

(** Conversion of a value to [unsigned int] (reduction modulo 2^32), as
    in the comparison [index == inputFile.v_index]. *)
Definition to_uint (z : Z) : Z := z mod 2 ^ 32.

(** Conversion of a value to [int] (two's complement wrap-around), as in
    the assignment [inputFile.v_index = index]. *)
Definition to_int (z : Z) : Z :=
  let m := z mod 2 ^ 32 in if m <? 2 ^ 31 then m else m - 2 ^ 32.

(** [AVERROR_EOF] is [FFERRTAG('E','O','F',' ')], that is
    [-(0x45 | 0x4F << 8 | 0x46 << 16 | 0x20 << 24)]. *)
Definition AVERROR_EOF : Z :=
  - (Z.lor (Z.lor (Z.lor 69 (Z.shiftl 79 8)) (Z.shiftl 70 16)) (Z.shiftl 32 24)).

(** [AV_LOG_DEBUG] of libavutil/log.h. *)
Definition AV_LOG_DEBUG : Z := 48.

(** ** Library data, as far as the program reads it *)

Inductive AVMediaType : Type :=
| AVMEDIA_TYPE_VIDEO
| AVMEDIA_TYPE_AUDIO
| AVMEDIA_TYPE_OTHER.

Definition AVMediaType_eqb (a b : AVMediaType) : bool :=
  match a, b with
  | AVMEDIA_TYPE_VIDEO, AVMEDIA_TYPE_VIDEO
  | AVMEDIA_TYPE_AUDIO, AVMEDIA_TYPE_AUDIO
  | AVMEDIA_TYPE_OTHER, AVMEDIA_TYPE_OTHER => true
  | _, _ => false
  end.

Record AVRational : Type := { num : Z; den : Z }.

Record AVCodec : Type := { id : Z }.

Record AVCodecContext : Type := {
  codec_type : AVMediaType;
  codec_id : Z;
  codec_time_base : AVRational
}.

Record AVStream : Type := {
  codec : AVCodecContext;
  time_base : AVRational
}.

(** [nb_streams] is the number of elements of [streams]. *)
Record AVFormatContext : Type := { streams : list AVStream }.

Definition nb_streams (c : AVFormatContext) : Z :=
  Z.of_nat (length (streams c)).

Record AVPacket : Type := { stream_index : Z; pkt_pts : Z; pkt_dts : Z }.

Record AVFrame : Type := {
  width : Z;
  height : Z;
  sample_aspect_ratio : AVRational;
  nb_samples : Z;
  channels : Z;
  pts : Z;
  best_effort_timestamp : Z
}.

Definition set_pts (f : AVFrame) (t : Z) : AVFrame :=
  {| width := width f; height := height f;
     sample_aspect_ratio := sample_aspect_ratio f;
     nb_samples := nb_samples f; channels := channels f;
     pts := t; best_effort_timestamp := best_effort_timestamp f |}.

(** What [avcodec_decode_video2] / [avcodec_decode_audio4] leave behind:
    the returned size, the value stored in [*got_frame] and the frame. *)
Record Decoded : Type := {
  decoded_size : Z;
  got : Z;
  picture : AVFrame
}.

(** ** The library as an oracle

    One field per library function whose answer the program looks at.
    - [avformat_open_input]: [None] is a negative return code (the
      handle stays [NULL]); [Some c] is success with [*ps = c].
    - [avformat_find_stream_info]: return code and the context as the
      call leaves it.
    - [av_frame_alloc]: [None] is [NULL].
    - [av_read_frame n]: return code and packet of the [n]-th call.
    - the two decode functions: the answer to the decode call made for
      the packet of the [n]-th read (decoders are stateful, so the
      answer depends on the position in the run). *)
Record Library : Type := {
  avformat_open_input : option string -> option AVFormatContext;
  avformat_find_stream_info : AVFormatContext -> Z * AVFormatContext;
  avcodec_find_decoder : Z -> option AVCodec;
  avcodec_open2 : AVCodecContext -> AVCodec -> Z;
  av_frame_alloc : option AVFrame;
  av_read_frame : nat -> Z * AVPacket;
  av_packet_rescale_ts : AVPacket -> AVRational -> AVRational -> AVPacket;
  avcodec_decode_video2 :
    nat -> AVCodecContext -> AVFrame -> AVPacket -> Decoded;
  avcodec_decode_audio4 :
    nat -> AVCodecContext -> AVFrame -> AVPacket -> Decoded;
  av_frame_unref : AVFrame -> AVFrame
}.

(** ** Observable actions *)

Inductive printf_arg : Type :=
| PStr (s : option string)
| PInt (z : Z).

(** One constructor per library call site of the program; [Printf]
    carries the format string as it is written in the source (escape
    sequences unexpanded) and its arguments; [Enter_release] marks an
    invocation of [release()]. *)
Inductive event : Type :=
| Call_av_register_all
| Call_av_log_set_level (level : Z)
| Printf (fmt : string) (args : list printf_arg)
| Call_avformat_open_input (filename : option string)
| Call_avformat_find_stream_info
| Call_avcodec_find_decoder (cid : Z)
| Call_avcodec_open2 (codec_ctx : AVCodecContext)
| Call_avcodec_close (codec_ctx : AVCodecContext)
| Call_avformat_close_input
| Call_av_frame_alloc
| Call_av_read_frame
| Call_av_free_packet
| Call_av_packet_rescale_ts (pkt : AVPacket) (src dst : AVRational)
| Call_avcodec_decode_video2 (codec_ctx : AVCodecContext) (pkt : AVPacket)
| Call_avcodec_decode_audio4 (codec_ctx : AVCodecContext) (pkt : AVPacket)
| Call_av_frame_unref
| Call_av_frame_free
| Enter_release.

Definition trace : Type := list event.

(** ** The global [inputFile] *)

Record FileContext : Type := {
  fmt_ctx : option AVFormatContext;
  v_index : Z;
  a_index : Z
}.

(** Static storage is zero-initialised. *)
Definition inputFile_init : FileContext :=
  {| fmt_ctx := None; v_index := 0; a_index := 0 |}.

Definition set_fmt_ctx (f : FileContext) (c : option AVFormatContext) :=
  {| fmt_ctx := c; v_index := v_index f; a_index := a_index f |}.
Definition set_v_index (f : FileContext) (i : Z) :=
  {| fmt_ctx := fmt_ctx f; v_index := i; a_index := a_index f |}.
Definition set_a_index (f : FileContext) (i : Z) :=
  {| fmt_ctx := fmt_ctx f; v_index := v_index f; a_index := i |}.

(** [c->streams[i]] for an [int] or [unsigned] [i]; [None] outside the
    array, where the C program has no defined behaviour. *)
Definition stream_at (c : AVFormatContext) (i : Z) : option AVStream :=
  if i <? 0 then None else nth_error (streams c) (Z.to_nat i).

(** How the [while(1)] loop stands after the iterations it was given. *)
Inductive progress : Type :=
| Finished      (* left through [break] *)
| Looping       (* still inside the loop *)
| Faulted.      (* the C program left defined behaviour *)

(** How a run of [main] stands. *)
Inductive outcome : Type :=
| Exit (status : Z)     (* [main] returned [status] *)
| Running               (* the decode loop has not met end of stream yet *)
| Undefined.            (* the C program left defined behaviour *)

Section Driver.

Variable lib : Library.

(** [open_decoder], lines 16-33. *)
Definition open_decoder (codec_ctx : AVCodecContext) : Z * trace :=
  match avcodec_find_decoder lib (codec_id codec_ctx) with
  | None => (-1, [Call_avcodec_find_decoder (codec_id codec_ctx)])
  | Some decoder =>
      if avcodec_open2 lib codec_ctx decoder <? 0
      then (-2, [Call_avcodec_find_decoder (codec_id codec_ctx);
                 Call_avcodec_open2 codec_ctx])
      else (0, [Call_avcodec_find_decoder (codec_id codec_ctx);
                Call_avcodec_open2 codec_ctx])
  end.

(** The [for] loop of [open_input], lines 72-95.  [rest] holds
    [streams[index], ..., streams[nb_streams - 1]]; a [break] returns
    the state reached so far.  [index] stays below [nb_streams], an
    [unsigned], so [index++] does not wrap. *)
Fixpoint select_streams (index : Z) (rest : list AVStream)
    (inputFile : FileContext) : FileContext * trace :=
  match rest with
  | [] => (inputFile, [])
  | s :: rest' =>
      let codec_ctx := codec s in
      if AVMediaType_eqb (codec_type codec_ctx) AVMEDIA_TYPE_VIDEO
         && (v_index inputFile <? 0)
      then
        let (r, t) := open_decoder codec_ctx in
        if r <? 0 then (inputFile, t)
        else
          let (f, t') := select_streams (index + 1) rest'
                           (set_v_index inputFile (to_int index)) in
          (f, t ++ t')
      else if AVMediaType_eqb (codec_type codec_ctx) AVMEDIA_TYPE_AUDIO
              && (a_index inputFile <? 0)
      then
        let (r, t) := open_decoder codec_ctx in
        if r <? 0 then (inputFile, t)
        else
          let (f, t') := select_streams (index + 1) rest'
                           (set_a_index inputFile (to_int index)) in
          (f, t ++ t')
      else select_streams (index + 1) rest' inputFile
  end.

(** [open_input], lines 37-104: return value, [inputFile] afterwards,
    and the actions performed. *)
Definition open_input (filename : option string) (inputFile : FileContext)
    : Z * FileContext * trace :=
  let inputFile := set_fmt_ctx inputFile None in
  let inputFile := set_v_index (set_a_index inputFile (-1)) (-1) in
  match avformat_open_input lib filename with
  | None =>
      (-1, inputFile,
       [Call_avformat_open_input filename;
        Printf "Could not open input file %s\n" [PStr filename]])
  | Some c =>
      let (r, c) := avformat_find_stream_info lib c in
      let inputFile := set_fmt_ctx inputFile (Some c) in
      if r <? 0 then
        (-2, inputFile,
         [Call_avformat_open_input filename; Call_avformat_find_stream_info;
          Printf "Failed to retrieve input stream information\n" []])
      else
        let (inputFile, t) := select_streams 0 (streams c) inputFile in
        if (a_index inputFile <? 0) && (a_index inputFile <? 0) then
          (-3, inputFile,
           [Call_avformat_open_input filename; Call_avformat_find_stream_info]
           ++ t ++
           [Printf "Failed to retrieve input stream information\n" []])
        else
          (0, inputFile,
           [Call_avformat_open_input filename; Call_avformat_find_stream_info]
           ++ t)
  end.

(** The [for] loop of [release], lines 111-118; [rest] as in
    [select_streams].  [index] is [unsigned], so the [int] indices are
    converted before the comparison. *)
Fixpoint close_decoders (index : Z) (rest : list AVStream)
    (inputFile : FileContext) : trace :=
  match rest with
  | [] => []
  | s :: rest' =>
      let codec_ctx := codec s in
      (if (index =? to_uint (v_index inputFile))
          || (index =? to_uint (a_index inputFile))
       then [Call_avcodec_close codec_ctx] else [])
      ++ close_decoders (index + 1) rest' inputFile
  end.

(** [release], lines 106-122; [avformat_close_input] resets the handle
    to [NULL]. *)
Definition release (inputFile : FileContext) : FileContext * trace :=
  match fmt_ctx inputFile with
  | Some c =>
      (set_fmt_ctx inputFile None,
       close_decoders 0 (streams c) inputFile ++ [Call_avformat_close_input])
  | None => (inputFile, [])
  end.

(** [decode_packet], lines 124-149, for the packet of the [n]-th read:
    return value, [*got_frame], [**frame] and the call made. *)
Definition decode_packet (n : nat) (codec_ctx : AVCodecContext)
    (pkt : AVPacket) (frame : AVFrame) : Z * Z * AVFrame * trace :=
  let (d, call) :=
    if AVMediaType_eqb (codec_type codec_ctx) AVMEDIA_TYPE_VIDEO
    then (avcodec_decode_video2 lib n codec_ctx frame pkt,
          Call_avcodec_decode_video2 codec_ctx pkt)
    else (avcodec_decode_audio4 lib n codec_ctx frame pkt,
          Call_avcodec_decode_audio4 codec_ctx pkt) in
  let frame :=
    if got d =? 0 then picture d
    else set_pts (picture d) (best_effort_timestamp (picture d)) in
  (decoded_size d, got d, frame, [call]).

(** The report of lines 221-237. *)
Definition report (codec_ctx : AVCodecContext) (decoded_frame : AVFrame)
    : trace :=
  Printf "-----------------------\n" []
  :: (if AVMediaType_eqb (codec_type codec_ctx) AVMEDIA_TYPE_VIDEO
      then
        [Printf "Video : frame->width, height : %dx%d\n"
           [PInt (width decoded_frame); PInt (height decoded_frame)];
         Printf "Video : frame->sample_aspect_ratio : %d/%d\n"
           [PInt (num (sample_aspect_ratio decoded_frame));
            PInt (den (sample_aspect_ratio decoded_frame))]]
      else
        [Printf "Audio : frame->nb_samples : %d\n"
           [PInt (nb_samples decoded_frame)];
         Printf "Audio : frame->channels : %d\n"
           [PInt (channels decoded_frame)]])
  ++ [Call_av_frame_unref].

(** One iteration of the [while(1)] loop of [main], lines 192-240, on
    the [n]-th read: the actions performed, and whether the loop is
    left ([Break]), goes on with the frame buffer as the iteration
    leaves it ([Continue], by [continue] or by reaching the end of the
    body), or the program dereferences [streams] outside the array. *)
Inductive step : Type :=
| Break
| Continue (decoded_frame : AVFrame)
| Fault.

Definition loop_body (n : nat) (inputFile : FileContext)
    (decoded_frame : AVFrame) : trace * step :=
  let (ret, pkt) := av_read_frame lib n in
  if ret =? AVERROR_EOF then
    ([Call_av_read_frame; Printf "End of frame\n" []], Break)
  else if negb (stream_index pkt =? v_index inputFile)
          && negb (stream_index pkt =? a_index inputFile)
  then ([Call_av_read_frame; Call_av_free_packet], Continue decoded_frame)
  else
    match fmt_ctx inputFile with
    | None => ([Call_av_read_frame], Fault)
    | Some c =>
        match stream_at c (stream_index pkt) with
        | None => ([Call_av_read_frame], Fault)
        | Some avStream =>
            let codec_ctx := codec avStream in
            let pkt' := av_packet_rescale_ts lib pkt (time_base avStream)
                          (codec_time_base codec_ctx) in
            let '(ret, got_frame, decoded_frame, t1) :=
              decode_packet n codec_ctx pkt' decoded_frame in
            let (t2, decoded_frame) :=
              if (ret >=? 0) && negb (got_frame =? 0)
              then (report codec_ctx decoded_frame,
                    av_frame_unref lib decoded_frame)
              else ([], decoded_frame) in
            (Call_av_read_frame
             :: Call_av_packet_rescale_ts pkt (time_base avStream)
                  (codec_time_base codec_ctx)
             :: t1 ++ t2 ++ [Call_av_free_packet],
             Continue decoded_frame)
        end
    end.

(** The [while(1)] loop, run for at most [fuel] iterations starting
    with the [n]-th read.  The trace is that of the iterations
    performed, whatever the [progress]. *)
Fixpoint decode_loop (fuel : nat) (n : nat) (inputFile : FileContext)
    (decoded_frame : AVFrame) : trace * progress :=
  match fuel with
  | O => ([], Looping)
  | S fuel' =>
      match loop_body n inputFile decoded_frame with
      | (t, Break) => (t, Finished)
      | (t, Fault) => (t, Faulted)
      | (t, Continue decoded_frame) =>
          let (t', p) := decode_loop fuel' (S n) inputFile decoded_frame in
          (t ++ t', p)
      end
  end.

(** The label [main_end], lines 245-248. *)
Definition main_end (inputFile : FileContext) (t : trace)
    : trace * FileContext * outcome :=
  let (inputFile, t') := release inputFile in
  (t ++ Enter_release :: t', inputFile, Exit 0).

(** [main], lines 151-249, with [argc] the length of [argv] and the
    decode loop given [fuel] iterations. *)
Definition main (fuel : nat) (argv : list string)
    : trace * FileContext * outcome :=
  let argc := Z.of_nat (length argv) in
  let t0 := [Call_av_register_all; Call_av_log_set_level AV_LOG_DEBUG] in
  if argc <? 2 then
    (t0 ++ [Printf "usage : %s <input>\n" [PStr (nth_error argv 0)]],
     inputFile_init, Exit 0)
  else
    let '(r, inputFile, t1) := open_input (nth_error argv 1) inputFile_init in
    if r <? 0 then main_end inputFile (t0 ++ t1)
    else
      match av_frame_alloc lib with
      | None => main_end inputFile (t0 ++ t1 ++ [Call_av_frame_alloc])
      | Some decoded_frame =>
          let (t2, p) := decode_loop fuel 0 inputFile decoded_frame in
          let t := t0 ++ t1 ++ Call_av_frame_alloc :: t2 in
          match p with
          | Finished => main_end inputFile (t ++ [Call_av_frame_free])
          | Looping => (t, inputFile, Running)
          | Faulted => (t, inputFile, Undefined)
          end
      end.

End Driver.

Arguments open_decoder lib codec_ctx : assert.
Arguments main lib fuel argv : assert.

(** ** Reading traces *)

(** Recognisers of the actions the statements count. *)
Definition is_release (e : event) : bool :=
  match e with Enter_release => true | _ => false end.

Definition is_printf (e : event) : bool :=
  match e with Printf _ _ => true | _ => false end.

Definition is_decode (e : event) : bool :=
  match e with
  | Call_avcodec_decode_video2 _ _ | Call_avcodec_decode_audio4 _ _ => true
  | _ => false
  end.

Definition is_rescale (e : event) : bool :=
  match e with Call_av_packet_rescale_ts _ _ _ => true | _ => false end.

Definition is_free_packet (e : event) : bool :=
  match e with Call_av_free_packet => true | _ => false end.

Definition is_open2 (k : AVMediaType) (e : event) : bool :=
  match e with
  | Call_avcodec_open2 c => AVMediaType_eqb (codec_type c) k
  | _ => false
  end.

Definition prints (fmt : string) (e : event) : bool :=
  match e with Printf f _ => String.eqb f fmt | _ => false end.

(** Number of actions of [t] that satisfy [p]. *)
Definition count (p : event -> bool) (t : trace) : nat :=
  length (filter p t).

(** A "Video :" report block is the separator and the two lines that
    follow it; there are as many blocks as first lines. *)
Definition video_blocks (t : trace) : nat :=
  count (prints "Video : frame->width, height : %dx%d\n") t.

Definition audio_blocks (t : trace) : nat :=
  count (prints "Audio : frame->nb_samples : %d\n") t.

Definition end_of_frame_lines (t : trace) : nat :=
  count (prints "End of frame\n") t.

Definition is_close (e : event) : bool :=
  match e with Call_avcodec_close _ => true | _ => false end.

(** ** Classes of actions *)

(** The actions of [open_input], of the decode loop and of [release]. *)
Definition setup_event (e : event) : bool :=
  match e with
  | Call_avformat_open_input _ | Call_avformat_find_stream_info
  | Call_avcodec_find_decoder _ | Call_avcodec_open2 _ | Printf _ _ => true
  | _ => false
  end.

Definition loop_event (e : event) : bool :=
  match e with
  | Call_av_read_frame | Call_av_free_packet | Call_av_packet_rescale_ts _ _ _
  | Call_avcodec_decode_video2 _ _ | Call_avcodec_decode_audio4 _ _
  | Printf _ _ | Call_av_frame_unref => true
  | _ => false
  end.

Definition teardown_event (e : event) : bool :=
  match e with
  | Call_avcodec_close _ | Call_avformat_close_input => true
  | _ => false
  end.

(** Every action of [t] is in the class [q]. *)
Definition all_of (q : event -> bool) (t : trace) : Prop :=
  Forall (fun e => q e = true) t.

(** ** Notions used in the statements *)

(** [s] is a candidate in state [f]: the loop body would try to open a
    decoder for it. *)
Definition candidate (f : FileContext) (s : AVStream) : Prop :=
  (codec_type (codec s) = AVMEDIA_TYPE_VIDEO /\ v_index f < 0) \/
  (codec_type (codec s) = AVMEDIA_TYPE_AUDIO /\ a_index f < 0).

(** [inputFile] with handle [c] and no stream selected. *)
Definition unselected (c : option AVFormatContext) : FileContext :=
  {| fmt_ctx := c; v_index := -1; a_index := -1 |}.

Section Notions.

Variable lib : Library.

(** [i] is the position in [ss] of the first stream of kind [k], and
    the decoder of that stream opens. *)
Definition first_of_kind (k : AVMediaType) (ss : list AVStream) (i : Z)
    : Prop :=
  0 <= i /\
  exists s, nth_error ss (Z.to_nat i) = Some s /\
            codec_type (codec s) = k /\
            fst (open_decoder lib (codec s)) = 0 /\
            forall j s', (j < Z.to_nat i)%nat -> nth_error ss j = Some s' ->
                         codec_type (codec s') <> k.

(** A selected index as the program keeps it: -1, or the first stream
    of its kind. *)
Definition selected_ok (k : AVMediaType) (ss : list AVStream) (i : Z) : Prop :=
  i = -1 \/ first_of_kind k ss i.

(** The same while the scan has gone through the prefix [pre] without
    a [break]: -1 now means that [pre] holds no stream of kind [k]. *)
Definition scanned (k : AVMediaType) (pre : list AVStream) (i : Z) : Prop :=
  (i = -1 /\ forall s, In s pre -> codec_type (codec s) <> k) \/
  first_of_kind k pre i.

(** The container opened for [filename] holds at most [INT_MAX]
    streams, so that every position fits the [int] indices
    (libavformat refuses to create more streams than that). *)
Definition few_streams (filename : option string) : Prop :=
  forall c0, avformat_open_input lib filename = Some c0 ->
             nb_streams (snd (avformat_find_stream_info lib c0)) <= INT_MAX.

(** The paths of a run that was given its argument. *)
Inductive path_of_run (fuel : nat) (argv : list string) : Prop :=
| Setup_failed r f1 t1 :
    open_input lib (nth_error argv 1) inputFile_init = (r, f1, t1) ->
    r < 0 ->
    main lib fuel argv
    = main_end f1 ([Call_av_register_all; Call_av_log_set_level AV_LOG_DEBUG]
                   ++ t1) ->
    path_of_run fuel argv
| Frame_alloc_failed r f1 t1 :
    open_input lib (nth_error argv 1) inputFile_init = (r, f1, t1) ->
    0 <= r -> av_frame_alloc lib = None ->
    main lib fuel argv
    = main_end f1 ([Call_av_register_all; Call_av_log_set_level AV_LOG_DEBUG]
                   ++ t1 ++ [Call_av_frame_alloc]) ->
    path_of_run fuel argv
| End_of_stream r f1 t1 frame t2 :
    open_input lib (nth_error argv 1) inputFile_init = (r, f1, t1) ->
    0 <= r -> av_frame_alloc lib = Some frame ->
    decode_loop lib fuel 0 f1 frame = (t2, Finished) ->
    main lib fuel argv
    = main_end f1 (([Call_av_register_all; Call_av_log_set_level AV_LOG_DEBUG]
                    ++ t1 ++ Call_av_frame_alloc :: t2)
                   ++ [Call_av_frame_free]) ->
    path_of_run fuel argv
| Still_decoding r f1 t1 frame t2 p o :
    open_input lib (nth_error argv 1) inputFile_init = (r, f1, t1) ->
    0 <= r -> av_frame_alloc lib = Some frame ->
    decode_loop lib fuel 0 f1 frame = (t2, p) ->
    (p = Looping /\ o = Running) \/ (p = Faulted /\ o = Undefined) ->
    main lib fuel argv
    = ([Call_av_register_all; Call_av_log_set_level AV_LOG_DEBUG]
       ++ t1 ++ Call_av_frame_alloc :: t2, f1, o) ->
    path_of_run fuel argv.

End Notions.

(** The streams behind the handle of [f]; none when it is [NULL]. *)
Definition streams_of (f : FileContext) : list AVStream :=
  match fmt_ctx f with Some c => streams c | None => [] end.

(** The [n]-th read signals the end of the stream. *)
Definition end_of_stream (lib : Library) (n : nat) : bool :=
  fst (av_read_frame lib n) =? AVERROR_EOF.

(** The packet of the [n]-th read carries one of the two indices kept
    in [f]. *)
Definition selected_packet (lib : Library) (n : nat) (f : FileContext) : bool :=
  (stream_index (snd (av_read_frame lib n)) =? v_index f)
  || (stream_index (snd (av_read_frame lib n)) =? a_index f).

(** Number of packets on the two indices kept in [f] among the reads
    [n], [n + 1], ... made in [fuel] iterations, up to the end of the
    stream. *)
Fixpoint selected_packets (lib : Library) (fuel n : nat) (f : FileContext)
    : nat :=
  match fuel with
  | O => 0
  | S fuel' =>
      if end_of_stream lib n then 0
      else ((if selected_packet lib n f then 1 else 0)
            + selected_packets lib fuel' (S n) f)%nat
  end.

(** The library [lib] with the return code of the [n]-th read replaced
    by [codes n]; packets and everything else are kept. *)
Definition with_read_codes (lib : Library) (codes : nat -> Z) : Library :=
  {| avformat_open_input := avformat_open_input lib;
     avformat_find_stream_info := avformat_find_stream_info lib;
     avcodec_find_decoder := avcodec_find_decoder lib;
     avcodec_open2 := avcodec_open2 lib;
     av_frame_alloc := av_frame_alloc lib;
     av_read_frame := fun n => (codes n, snd (av_read_frame lib n));
     av_packet_rescale_ts := av_packet_rescale_ts lib;
     avcodec_decode_video2 := avcodec_decode_video2 lib;
     avcodec_decode_audio4 := avcodec_decode_audio4 lib;
     av_frame_unref := av_frame_unref lib |}.

(** The index [inputFile] keeps for streams of kind [k]; streams of
    other kinds are never selected. *)
Definition kind_index (k : AVMediaType) (f : FileContext) : Z :=
  match k with
  | AVMEDIA_TYPE_VIDEO => v_index f
  | AVMEDIA_TYPE_AUDIO => a_index f
  | AVMEDIA_TYPE_OTHER => 0
  end.

(** The decoder close performed for index [i] of the container [c]:
    none when [i] is not a position of [c], as for -1. *)
Definition closes (c : AVFormatContext) (i : Z) : trace :=
  match stream_at c i with
  | Some s => [Call_avcodec_close (codec s)]
  | None => []
  end.

(** The same, for the part [rest] of the array that starts at position
    [index]. *)
Definition closes_from (index : Z) (rest : list AVStream) (i : Z) : trace :=
  if i <? index then []
  else match nth_error rest (Z.to_nat (i - index)) with
       | Some s => [Call_avcodec_close (codec s)]
       | None => []
       end.

(** ** Sample containers *)

Definition tb (n d : Z) : AVRational := {| num := n; den := d |}.

Definition video_stream : AVStream :=
  {| codec := {| codec_type := AVMEDIA_TYPE_VIDEO; codec_id := 27;
                 codec_time_base := tb 1 25 |};
     time_base := tb 1 12800 |}.

Definition audio_stream : AVStream :=
  {| codec := {| codec_type := AVMEDIA_TYPE_AUDIO; codec_id := 86018;
                 codec_time_base := tb 1 44100 |};
     time_base := tb 1 44100 |}.

Definition subtitle_stream : AVStream :=
  {| codec := {| codec_type := AVMEDIA_TYPE_OTHER; codec_id := 94213;
                 codec_time_base := tb 0 1 |};
     time_base := tb 1 1000 |}.

Definition blank_frame : AVFrame :=
  {| width := 0; height := 0; sample_aspect_ratio := tb 0 1;
     nb_samples := 0; channels := 0; pts := 0; best_effort_timestamp := 0 |}.

Definition a_picture (n : nat) : AVFrame :=
  {| width := 640; height := 480; sample_aspect_ratio := tb 1 1;
     nb_samples := 1024; channels := 2; pts := 0;
     best_effort_timestamp := Z.of_nat n |}.

(** A library that opens every file as a container holding [ss], finds
    and opens a decoder for every codec id but those in [broken],
    delivers [npkt] packets (the [n]-th on stream [route n]) and then
    end of stream, and decodes one frame out of every packet. *)
Definition sample_lib (ss : list AVStream) (broken : list Z)
    (frame_ok : bool) (npkt : nat) (route : nat -> Z) : Library :=
  {| avformat_open_input := fun _ => Some {| streams := ss |};
     avformat_find_stream_info := fun c => (0, c);
     avcodec_find_decoder := fun i =>
       if existsb (Z.eqb i) broken then None else Some {| id := i |};
     avcodec_open2 := fun _ _ => 0;
     av_frame_alloc := if frame_ok then Some blank_frame else None;
     av_read_frame := fun n =>
       if (n <? npkt)%nat
       then (0, {| stream_index := route n; pkt_pts := Z.of_nat n;
                   pkt_dts := Z.of_nat n |})
       else (AVERROR_EOF, {| stream_index := 0; pkt_pts := 0; pkt_dts := 0 |});
     av_packet_rescale_ts := fun p _ _ => p;
     avcodec_decode_video2 := fun n _ _ _ =>
       {| decoded_size := 1; got := 1; picture := a_picture n |};
     avcodec_decode_audio4 := fun n _ _ _ =>
       {| decoded_size := 1; got := 1; picture := a_picture n |};
     av_frame_unref := fun _ => blank_frame |}.

(** Two seconds of video at 25 frames per second, no audio. *)
Definition video_only_lib : Library :=
  sample_lib [video_stream] [] true 50 (fun _ => 0).

(** The same video with an audio stream that carries no packet. *)
Definition video_with_audio_lib : Library :=
  sample_lib [video_stream; audio_stream] [] true 50 (fun _ => 0).

(** One audio and one video stream, packets alternating, with a
    subtitle packet every third read. *)
Definition audio_video_lib : Library :=
  sample_lib [audio_stream; video_stream; subtitle_stream] [] true 6
    (fun n => Z.of_nat (n mod 3)).

Definition sample_argv : list string := ["sample04_decoding"; "input.mp4"]%string.

(** A library whose decoder for codec id 27 is missing, and a second
    video stream with another codec. *)
Definition mpeg2_stream : AVStream :=
  {| codec := {| codec_type := AVMEDIA_TYPE_VIDEO; codec_id := 2;
                 codec_time_base := tb 1 30 |};
     time_base := tb 1 90000 |}.

Definition no_h264_lib : Library :=
  sample_lib [audio_stream; video_stream; mpeg2_stream] [27] true 4
    (fun _ => 0).




(** A library whose frame allocation fails. *)
Definition no_frame_lib : Library :=
  sample_lib [audio_stream; video_stream] [] false 6
    (fun n => Z.of_nat (n mod 2)).

(** A library that cannot open the file. *)
Definition no_file_lib : Library :=
  {| avformat_open_input := fun _ => None;
     avformat_find_stream_info := avformat_find_stream_info audio_video_lib;
     avcodec_find_decoder := avcodec_find_decoder audio_video_lib;
     avcodec_open2 := avcodec_open2 audio_video_lib;
     av_frame_alloc := av_frame_alloc audio_video_lib;
     av_read_frame := av_read_frame audio_video_lib;
     av_packet_rescale_ts := av_packet_rescale_ts audio_video_lib;
     avcodec_decode_video2 := avcodec_decode_video2 audio_video_lib;
     avcodec_decode_audio4 := avcodec_decode_audio4 audio_video_lib;
     av_frame_unref := av_frame_unref audio_video_lib |}.

(** The state [open_input] reaches on the container of
    [audio_video_lib]. *)
Definition audio_video_file : FileContext :=
  {| fmt_ctx := Some {| streams := [audio_stream; video_stream; subtitle_stream] |};
     v_index := 1; a_index := 0 |}.

(** [AVERROR_INVALIDDATA] is [FFERRTAG('I','N','D','A')]. *)
Definition AVERROR_INVALIDDATA : Z := -1094995529.

(** [audio_video_lib] with decoders that reject every packet. *)
Definition corrupt_lib : Library :=
  {| avformat_open_input := avformat_open_input audio_video_lib;
     avformat_find_stream_info := avformat_find_stream_info audio_video_lib;
     avcodec_find_decoder := avcodec_find_decoder audio_video_lib;
     avcodec_open2 := avcodec_open2 audio_video_lib;
     av_frame_alloc := av_frame_alloc audio_video_lib;
     av_read_frame := av_read_frame audio_video_lib;
     av_packet_rescale_ts := av_packet_rescale_ts audio_video_lib;
     avcodec_decode_video2 := fun _ _ f _ =>
       {| decoded_size := AVERROR_INVALIDDATA; got := 0; picture := f |};
     avcodec_decode_audio4 := fun _ _ f _ =>
       {| decoded_size := AVERROR_INVALIDDATA; got := 0; picture := f |};
     av_frame_unref := av_frame_unref audio_video_lib |}.

(** Return codes of reads that fail with [AVERROR(EIO)] until the end
    of the stream of [audio_video_lib]. *)
Definition io_errors (n : nat) : Z :=
  if (n <? 6)%nat then -5 else AVERROR_EOF.

(** ** More recognisers and counts, for the resource properties *)

Definition is_read (e : event) : bool :=
  match e with Call_av_read_frame => true | _ => false end.

Definition is_unref (e : event) : bool :=
  match e with Call_av_frame_unref => true | _ => false end.

Definition is_frame_alloc (e : event) : bool :=
  match e with Call_av_frame_alloc => true | _ => false end.

Definition is_frame_free (e : event) : bool :=
  match e with Call_av_frame_free => true | _ => false end.

Definition is_open_input (e : event) : bool :=
  match e with Call_avformat_open_input _ => true | _ => false end.

Definition is_find_stream_info (e : event) : bool :=
  match e with Call_avformat_find_stream_info => true | _ => false end.

Definition is_close_input (e : event) : bool :=
  match e with Call_avformat_close_input => true | _ => false end.

Definition is_find_decoder (e : event) : bool :=
  match e with Call_avcodec_find_decoder _ => true | _ => false end.

Definition is_avcodec_open2 (e : event) : bool :=
  match e with Call_avcodec_open2 _ => true | _ => false end.

Definition is_video_decode (e : event) : bool :=
  match e with Call_avcodec_decode_video2 _ _ => true | _ => false end.

Definition is_audio_decode (e : event) : bool :=
  match e with Call_avcodec_decode_audio4 _ _ => true | _ => false end.

(** The actions of the scan: decoder lookups and decoder opens. *)
Definition scan_event (e : event) : bool :=
  match e with
  | Call_avcodec_find_decoder _ | Call_avcodec_open2 _ => true
  | _ => false
  end.

(** An [avcodec_open2] call that [open_decoder] reports as a success. *)
Definition opened (lib : Library) (e : event) : bool :=
  match e with
  | Call_avcodec_open2 c => fst (open_decoder lib c) =? 0
  | _ => false
  end.

(** An [avcodec_open2] call on a context whose codec id has no
    registered decoder. *)
Definition unregistered (lib : Library) (e : event) : bool :=
  match e with
  | Call_avcodec_open2 c =>
      match avcodec_find_decoder lib (codec_id c) with
      | None => true
      | Some _ => false
      end
  | _ => false
  end.

(** Number of report blocks, of either kind. *)
Definition report_blocks (t : trace) : nat :=
  (video_blocks t + audio_blocks t)%nat.

(** Number of separator lines. *)
Definition separators (t : trace) : nat :=
  count (prints "-----------------------\n") t.

(** 1 for an index that names a stream, 0 for a negative one. *)
Definition filled (i : Z) : nat := if i <? 0 then 0%nat else 1%nat.

(** Number of packets with stream index [i] among the reads [n],
    [n + 1], ... made in [fuel] iterations, up to the end of the
    stream. *)
Fixpoint packets_on (lib : Library) (fuel n : nat) (i : Z) : nat :=
  match fuel with
  | O => 0
  | S fuel' =>
      if end_of_stream lib n then 0
      else ((if Z.eqb (stream_index (snd (av_read_frame lib n))) i
             then 1 else 0)
            + packets_on lib fuel' (S n) i)%nat
  end.

(** A library as [audio_video_lib] whose second read leaves a packet
    with stream index -1 behind. *)
Definition stray_packet_lib : Library :=
  sample_lib [audio_stream; subtitle_stream] [] true 6
    (fun n => if (n =? 1)%nat then -1 else 0).

(** The state [open_input] reaches on the container of
    [stray_packet_lib]: audio only. *)
Definition audio_only_file : FileContext :=
  {| fmt_ctx := Some {| streams := [audio_stream; subtitle_stream] |};
     v_index := -1; a_index := 0 |}.

(** ** The order of the actions of a report *)

(** The lines of a report block, recognised by their format. *)
Definition is_separator : event -> bool :=
  prints "-----------------------\n".

Definition video_line1 : event -> bool :=
  prints "Video : frame->width, height : %dx%d\n".

Definition video_line2 : event -> bool :=
  prints "Video : frame->sample_aspect_ratio : %d/%d\n".

Definition audio_line1 : event -> bool :=
  prints "Audio : frame->nb_samples : %d\n".

Definition audio_line2 : event -> bool :=
  prints "Audio : frame->channels : %d\n".

Definition first_line (e : event) : bool := video_line1 e || audio_line1 e.

Definition second_line (e : event) : bool := video_line2 e || audio_line2 e.

(** In [t] every action that satisfies [p] is immediately followed by
    an action that satisfies [q]. *)
Fixpoint followed_by (p q : event -> bool) (t : trace) : bool :=
  match t with
  | [] => true
  | e :: rest =>
      (if p e then match rest with e' :: _ => q e' | [] => false end
       else true)
      && followed_by p q rest
  end.

(** In [t] every action that satisfies [q] comes immediately after an
    action that satisfies [p]; [prev] tells whether the action before
    [t] satisfies [p]. *)
Fixpoint preceded_from (prev : bool) (p q : event -> bool) (t : trace)
    : bool :=
  match t with
  | [] => true
  | e :: rest =>
      (if q e then prev else true) && preceded_from (p e) p q rest
  end.

Definition preceded_by (p q : event -> bool) (t : trace) : bool :=
  preceded_from false p q t.

(** The order inside and around the report blocks of [t], all at once:
    separator, first line, second line of the same kind,
    [av_frame_unref], [av_free_packet], each immediately after the
    other, and no [av_frame_unref] elsewhere. *)
Definition report_order (prev : bool) (t : trace) : bool :=
  followed_by is_separator first_line t
  && followed_by video_line1 video_line2 t
  && followed_by audio_line1 audio_line2 t
  && followed_by second_line is_unref t
  && followed_by is_unref is_free_packet t
  && preceded_from prev second_line is_unref t
  && preceded_from prev is_separator first_line t.

(** * Properties *)

(** ** Counting in traces *)

Lemma count_app p (t u : trace) : count p (t ++ u) = (count p t + count p u)%nat.
Proof. unfold count. now rewrite filter_app, length_app. Qed.

Lemma count_cons p e (t : trace) :
  count p (e :: t) = ((if p e then 1 else 0) + count p t)%nat.
Proof. unfold count. simpl. now destruct (p e). Qed.

Ltac break_if :=
  match goal with
  | |- context [if ?c then _ else _] => destruct c eqn:?
  end.

Ltac break_match :=
  match goal with
  | |- context [match ?x with _ => _ end] => destruct x eqn:?
  end.

(** ** Selection and the no-stream test (C1, C2) *)

(** What the test of line 97 looks at: [open_input] returns -3 exactly
    when the container was opened and probed and [a_index] is negative
    after the scan, whatever [v_index] is. *)
Lemma open_input_no_stream_test lib filename f0 :
  let '(r, f, _) := open_input lib filename f0 in
  r = -3 <->
  exists c, avformat_open_input lib filename = Some c /\
            0 <= fst (avformat_find_stream_info lib c) /\
            a_index f < 0.
Proof.
  unfold open_input.
  destruct (avformat_open_input lib filename) as [c|].
  - destruct (avformat_find_stream_info lib c) as [r c'] eqn:Ei.
    destruct (r <? 0) eqn:Er.
    + split; [discriminate|]. intros (c1 & E & H & _).
      injection E as <-. rewrite Ei in H. apply Z.ltb_lt in Er. simpl in H. lia.
    + destruct (select_streams lib 0 (streams c') _) as [f t].
      apply Z.ltb_ge in Er.
      destruct (a_index f <? 0) eqn:Ea; cbn [andb].
      * apply Z.ltb_lt in Ea. split; [|reflexivity]. intros _.
        exists c. rewrite Ei. auto.
      * apply Z.ltb_ge in Ea. split; [discriminate|].
        intros (_ & _ & _ & H). lia.
  - split; [discriminate|]. intros (c & E & _). discriminate E.
Qed.

(** C1 (code defect): [open_input] tests [a_index] twice at line 97,
    so for the container with one video stream and no audio stream it
    returns -3 and prints the failure message although the video stream
    was selected ([v_index = 0]). *)
Theorem open_input_video_only_reports_no_stream :
  let '(r, f, t) := open_input video_only_lib (Some "input.mp4"%string)
                      inputFile_init in
  r = -3 /\ v_index f = 0 /\ a_index f = -1 /\
  count (prints "Failed to retrieve input stream information\n") t = 1%nat.
Proof. vm_compute. repeat split. Qed.

(** C2 (code defect): on the container with one video stream of 50
    decodable packets and no audio stream, the run never enters the
    decode loop, whatever the number of iterations allowed: it prints
    no "Video :" block and no "End of frame" line, performs no read, and
    exits through the teardown. *)
Theorem main_video_only_prints_no_block :
  forall fuel,
    let '(t, _, o) := main video_only_lib fuel sample_argv in
    o = Exit 0 /\ video_blocks t = 0%nat /\ audio_blocks t = 0%nat /\
    end_of_frame_lines t = 0%nat /\
    count (fun e => match e with Call_av_read_frame => true | _ => false end) t
    = 0%nat.
Proof. intros fuel. vm_compute. repeat split. Qed.

(** The same 50 video packets are decoded and reported once the
    container also holds an audio stream: the no-stream test then
    passes. *)
Example main_video_with_audio_prints_blocks :
  let '(t, _, o) := main video_with_audio_lib 51 sample_argv in
  o = Exit 0 /\ video_blocks t = 50%nat /\ audio_blocks t = 0%nat /\
  end_of_frame_lines t = 1%nat /\ count is_release t = 1%nat.
Proof. vm_compute. repeat split. Qed.

(** A run on the container with one audio and one video stream: two
    reports of each kind out of six packets, two of them on the
    subtitle stream. *)
Example main_audio_video_run :
  let '(t, f, o) := main audio_video_lib 10 sample_argv in
  o = Exit 0 /\ v_index f = 1 /\ a_index f = 0 /\
  video_blocks t = 2%nat /\ audio_blocks t = 2%nat /\
  count is_decode t = 4%nat /\ count is_free_packet t = 6%nat /\
  end_of_frame_lines t = 1%nat.
Proof. vm_compute. repeat split. Qed.

(** ** The scan over the stream descriptors (C4) *)

Lemma AVMediaType_eqb_eq a b : AVMediaType_eqb a b = true <-> a = b.
Proof. destruct a, b; simpl; split; congruence. Qed.

Lemma let_pair_app (p : FileContext * trace) (t : trace) :
  (let (f, t') := p in (f, t ++ t')) = (fst p, t ++ snd p).
Proof. now destruct p. Qed.

(** One iteration on a candidate whose decoder does not open: [break]. *)
Lemma select_streams_break lib index s post f :
  candidate f s ->
  fst (open_decoder lib (codec s)) < 0 ->
  select_streams lib index (s :: post) f = (f, snd (open_decoder lib (codec s))).
Proof.
  intros Hc Hr. simpl.
  destruct (open_decoder lib (codec s)) as [r t]; simpl in *.
  apply Z.ltb_lt in Hr.
  destruct Hc as [[Ht Hi] | [Ht Hi]]; apply Z.ltb_lt in Hi;
    rewrite Ht, Hi, Hr; reflexivity.
Qed.

(** C4: when the decoder of a candidate stream [s] fails to open, the
    scan stops there: whatever streams [post] follow [s] in the
    container, the result (selected indices and actions performed) is
    the one obtained with no stream after [s], and the selection is the
    one reached before [s]. *)
Theorem select_streams_stops_at_failed_decoder :
  forall lib pre s post index f0,
    candidate (fst (select_streams lib index pre f0)) s ->
    fst (open_decoder lib (codec s)) < 0 ->
    select_streams lib index (pre ++ s :: post) f0
    = select_streams lib index (pre ++ [s]) f0
    /\ fst (select_streams lib index (pre ++ s :: post) f0)
       = fst (select_streams lib index pre f0).
Proof.
  intros lib pre s post.
  induction pre as [|x pre IH]; intros index f0 Hc Hr.
  - simpl app. simpl in Hc.
    rewrite !select_streams_break by assumption. split; reflexivity.
  - simpl app. simpl in Hc |- *.
    destruct (AVMediaType_eqb (codec_type (codec x)) AVMEDIA_TYPE_VIDEO
              && (v_index f0 <? 0)).
    { destruct (open_decoder lib (codec x)) as [r t].
      destruct (r <? 0); [split; reflexivity|].
      rewrite !let_pair_app in *. simpl in Hc |- *.
      destruct (IH (index + 1) _ Hc Hr) as [E1 E2].
      split; [now rewrite E1 | exact E2]. }
    destruct (AVMediaType_eqb (codec_type (codec x)) AVMEDIA_TYPE_AUDIO
              && (a_index f0 <? 0)).
    { destruct (open_decoder lib (codec x)) as [r t].
      destruct (r <? 0); [split; reflexivity|].
      rewrite !let_pair_app in *. simpl in Hc |- *.
      destruct (IH (index + 1) _ Hc Hr) as [E1 E2].
      split; [now rewrite E1 | exact E2]. }
    apply IH; assumption.
Qed.

(** The scan of [audio; h264 video; mpeg2 video] without an h264 decoder
    stops at the h264 stream: the mpeg2 stream is not looked at. *)
Lemma select_streams_stops_at_failed_decoder_witness :
  select_streams no_h264_lib 0 ([audio_stream] ++ video_stream :: [mpeg2_stream])
    (unselected None)
  = select_streams no_h264_lib 0 ([audio_stream] ++ [video_stream])
      (unselected None)
  /\ fst (select_streams no_h264_lib 0
            ([audio_stream] ++ video_stream :: [mpeg2_stream]) (unselected None))
     = fst (select_streams no_h264_lib 0 [audio_stream] (unselected None)).
Proof.
  apply (select_streams_stops_at_failed_decoder no_h264_lib [audio_stream]
           video_stream [mpeg2_stream] 0 (unselected None)).
  - left. split; [reflexivity | vm_compute; reflexivity].
  - vm_compute; reflexivity.
Defined.

(** ** Integer conversions *)

Lemma to_int_small z : 0 <= z <= INT_MAX -> to_int z = z.
Proof.
  unfold to_int, INT_MAX. intros H.
  rewrite Z.mod_small by lia.
  destruct (z <? 2 ^ 31) eqn:E; [reflexivity|].
  apply Z.ltb_ge in E. lia.
Qed.

Lemma to_uint_small z : 0 <= z <= UINT_MAX -> to_uint z = z.
Proof. unfold to_uint, UINT_MAX. intros H. apply Z.mod_small. lia. Qed.

Lemma to_uint_minus_one : to_uint (-1) = UINT_MAX.
Proof. reflexivity. Qed.

(** The comparison of [release]: under the bounds of the program the
    conversion to [unsigned] changes nothing, and [-1] matches no
    position of the array. *)
Lemma index_eq_to_uint index i :
  0 <= index < UINT_MAX -> -1 <= i <= INT_MAX ->
  (index =? to_uint i) = (index =? i).
Proof.
  intros Hi Hv. destruct (Z.eq_dec i (-1)) as [->|N].
  - rewrite to_uint_minus_one.
    destruct (index =? UINT_MAX) eqn:E1; destruct (index =? -1) eqn:E2;
      try reflexivity;
      try (apply Z.eqb_eq in E1); try (apply Z.eqb_eq in E2); lia.
  - rewrite to_uint_small; [reflexivity | unfold UINT_MAX, INT_MAX in *; lia].
Qed.

(** ** What the scan selects (C8, C10) *)

Section Selection.

Variable lib : Library.

Lemma first_of_kind_app k pre rest i :
  first_of_kind lib k pre i -> first_of_kind lib k (pre ++ rest) i.
Proof.
  intros (H0 & s & Hn & Hk & Ho & Hf).
  assert (L : (Z.to_nat i < length pre)%nat)
    by (apply nth_error_Some; congruence).
  split; [assumption|]. exists s. repeat split; try assumption.
  - rewrite nth_error_app1; assumption.
  - intros j s' Hj Hs'. apply (Hf j s' Hj).
    rewrite nth_error_app1 in Hs' by lia. assumption.
Qed.

Lemma scanned_selected_ok k pre rest i :
  scanned lib k pre i -> selected_ok lib k (pre ++ rest) i.
Proof.
  intros [[H _]|H]; [left; assumption | right; now apply first_of_kind_app].
Qed.

Lemma scanned_skip k pre x i :
  scanned lib k pre i -> (i < 0 -> codec_type (codec x) <> k) ->
  scanned lib k (pre ++ [x]) i.
Proof.
  intros [[H Hn]|H] Hx.
  - left. split; [assumption|]. intros s Hs.
    apply in_app_or in Hs. destruct Hs as [Hs|[<-|[]]]; [auto | apply Hx; lia].
  - right. now apply first_of_kind_app.
Qed.

Lemma scanned_select k pre x i :
  scanned lib k pre i -> i < 0 -> codec_type (codec x) = k ->
  fst (open_decoder lib (codec x)) = 0 ->
  scanned lib k (pre ++ [x]) (Z.of_nat (length pre)).
Proof.
  intros [[H Hn]|[H _]] Hi Hk Ho; [|lia].
  right. split; [lia|]. exists x. rewrite Nat2Z.id.
  repeat split; try assumption.
  - rewrite nth_error_app2, Nat.sub_diag by lia. reflexivity.
  - intros j s' Hj Hs'. rewrite nth_error_app1 in Hs' by assumption.
    apply Hn. eapply nth_error_In; eassumption.
Qed.

(** [open_decoder] returns -1, -2 or 0. *)
Lemma open_decoder_nonneg codec_ctx :
  (fst (open_decoder lib codec_ctx) <? 0) = false ->
  fst (open_decoder lib codec_ctx) = 0.
Proof.
  unfold open_decoder.
  destruct (avcodec_find_decoder lib (codec_id codec_ctx)); simpl;
    [destruct (avcodec_open2 lib codec_ctx _ <? 0); simpl|];
    intros H; try reflexivity; discriminate.
Qed.

(** Invariant of the scan: started after the prefix [pre] in a state
    that describes [pre], it ends in a state that describes the whole
    container, and leaves the handle alone. *)
Lemma select_streams_scanned rest :
  forall pre f,
    Z.of_nat (length (pre ++ rest)) <= INT_MAX ->
    scanned lib AVMEDIA_TYPE_VIDEO pre (v_index f) ->
    scanned lib AVMEDIA_TYPE_AUDIO pre (a_index f) ->
    let f' := fst (select_streams lib (Z.of_nat (length pre)) rest f) in
    selected_ok lib AVMEDIA_TYPE_VIDEO (pre ++ rest) (v_index f') /\
    selected_ok lib AVMEDIA_TYPE_AUDIO (pre ++ rest) (a_index f') /\
    fmt_ctx f' = fmt_ctx f.
Proof.
  induction rest as [|x rest IH]; intros pre f Hlen Hv Ha.
  - simpl. repeat split; now apply scanned_selected_ok.
  - assert (Hnext : Z.of_nat (length pre) + 1 = Z.of_nat (length (pre ++ [x])))
      by (rewrite length_app; simpl; lia).
    assert (Happ : pre ++ x :: rest = (pre ++ [x]) ++ rest)
      by (rewrite <- app_assoc; reflexivity).
    assert (Hidx : to_int (Z.of_nat (length pre)) = Z.of_nat (length pre)).
    { apply to_int_small. rewrite length_app in Hlen. simpl in Hlen. lia. }
    cbn [select_streams]. cbv zeta.
    destruct (AVMediaType_eqb (codec_type (codec x)) AVMEDIA_TYPE_VIDEO
              && (v_index f <? 0)) eqn:Ev.
    { apply andb_true_iff in Ev. destruct Ev as [Ek Ei].
      apply AVMediaType_eqb_eq in Ek. apply Z.ltb_lt in Ei.
      pose proof (open_decoder_nonneg (codec x)) as Hopen.
      destruct (open_decoder lib (codec x)) as [r t] eqn:Eo. simpl in Hopen.
      destruct (r <? 0).
      - simpl. repeat split; now apply scanned_selected_ok.
      - rewrite let_pair_app. cbn [fst]. rewrite Hnext, Hidx, Happ.
        refine (IH (pre ++ [x]) _ _ _ _).
        + rewrite <- Happ. assumption.
        + simpl. apply scanned_select with (i := v_index f); auto.
          rewrite Eo. auto.
        + simpl. apply scanned_skip; [assumption|]. intros _. rewrite Ek.
          discriminate. }
    destruct (AVMediaType_eqb (codec_type (codec x)) AVMEDIA_TYPE_AUDIO
              && (a_index f <? 0)) eqn:Ea.
    { apply andb_true_iff in Ea. destruct Ea as [Ek Ei].
      apply AVMediaType_eqb_eq in Ek. apply Z.ltb_lt in Ei.
      pose proof (open_decoder_nonneg (codec x)) as Hopen.
      destruct (open_decoder lib (codec x)) as [r t] eqn:Eo. simpl in Hopen.
      destruct (r <? 0).
      - simpl. repeat split; now apply scanned_selected_ok.
      - rewrite let_pair_app. cbn [fst]. rewrite Hnext, Hidx, Happ.
        refine (IH (pre ++ [x]) _ _ _ _).
        + rewrite <- Happ. assumption.
        + simpl. apply scanned_skip; [assumption|]. intros _. rewrite Ek.
          discriminate.
        + simpl. apply scanned_select with (i := a_index f); auto.
          rewrite Eo. auto. }
    rewrite Hnext, Happ. apply IH.
    + rewrite <- Happ. assumption.
    + apply scanned_skip; [assumption|]. intros Hi Hk.
      apply Z.ltb_lt in Hi. apply AVMediaType_eqb_eq in Hk.
      rewrite Hi, Hk in Ev. discriminate.
    + apply scanned_skip; [assumption|]. intros Hi Hk.
      apply Z.ltb_lt in Hi. apply AVMediaType_eqb_eq in Hk.
      rewrite Hi, Hk in Ea. discriminate.
Qed.

End Selection.

(** ** The decode loop (C5, C6, C9) *)

Section Loop.

Variable lib : Library.

Lemma decode_packet_trace n codec_ctx pkt frame :
  let t := snd (decode_packet lib n codec_ctx pkt frame) in
  count is_decode t = 1%nat /\ count is_rescale t = 0%nat /\
  count is_printf t = 0%nat /\ count is_free_packet t = 0%nat.
Proof.
  unfold decode_packet.
  destruct (AVMediaType_eqb (codec_type codec_ctx) AVMEDIA_TYPE_VIDEO);
    simpl; repeat split.
Qed.

Lemma report_trace codec_ctx frame :
  let t := report codec_ctx frame in
  count is_decode t = 0%nat /\ count is_rescale t = 0%nat /\
  count is_free_packet t = 0%nat.
Proof.
  unfold report.
  destruct (AVMediaType_eqb (codec_type codec_ctx) AVMEDIA_TYPE_VIDEO);
    simpl; repeat split.
Qed.

(** The loop is left exactly on the end-of-stream code. *)
Lemma loop_body_break n f frame :
  snd (loop_body lib n f frame) = Break <-> end_of_stream lib n = true.
Proof.
  unfold loop_body, end_of_stream.
  destruct (av_read_frame lib n) as [ret pkt]. cbn [fst].
  destruct (ret =? AVERROR_EOF); [simpl; tauto|].
  split; [|discriminate].
  repeat break_match; simpl; discriminate.
Qed.

(** A packet on neither index is released at once. *)
Lemma loop_body_skip n f frame :
  end_of_stream lib n = false -> selected_packet lib n f = false ->
  loop_body lib n f frame
  = ([Call_av_read_frame; Call_av_free_packet], Continue frame).
Proof.
  unfold loop_body, end_of_stream, selected_packet.
  destruct (av_read_frame lib n) as [ret pkt]. cbn [fst snd].
  intros -> H. apply orb_false_iff in H. destruct H as [-> ->]. reflexivity.
Qed.

(** A packet on one of the two indices, on a stream of the container,
    is rescaled, decoded once, reported if the decoder says so, and
    released. *)
Lemma loop_body_routed n f frame c avStream :
  end_of_stream lib n = false -> selected_packet lib n f = true ->
  fmt_ctx f = Some c ->
  stream_at c (stream_index (snd (av_read_frame lib n))) = Some avStream ->
  let pkt := snd (av_read_frame lib n) in
  let codec_ctx := codec avStream in
  let pkt' := av_packet_rescale_ts lib pkt (time_base avStream)
                (codec_time_base codec_ctx) in
  let '(r, got_frame, frame', t1) := decode_packet lib n codec_ctx pkt' frame in
  loop_body lib n f frame
  = (Call_av_read_frame
     :: Call_av_packet_rescale_ts pkt (time_base avStream)
          (codec_time_base codec_ctx)
     :: t1
     ++ (if (r >=? 0) && negb (got_frame =? 0)
         then report codec_ctx frame' else [])
     ++ [Call_av_free_packet],
     Continue (if (r >=? 0) && negb (got_frame =? 0)
               then av_frame_unref lib frame' else frame')).
Proof.
  unfold loop_body, end_of_stream, selected_packet.
  destruct (av_read_frame lib n) as [ret pkt]. cbn [fst snd].
  intros -> Hsel -> ->. cbv zeta.
  apply orb_true_iff in Hsel.
  assert (E : negb (stream_index pkt =? v_index f)
              && negb (stream_index pkt =? a_index f) = false).
  { destruct Hsel as [-> | ->]; simpl; [reflexivity | apply andb_false_r]. }
  rewrite E.
  destruct (decode_packet lib n (codec avStream) _ frame)
    as [[[r got_frame] frame'] t1].
  destruct ((r >=? 0) && negb (got_frame =? 0)); reflexivity.
Qed.

(** Decode and rescale calls of one iteration. *)
Lemma loop_body_counts n f frame :
  snd (loop_body lib n f frame) <> Fault ->
  let t := fst (loop_body lib n f frame) in
  let k := if end_of_stream lib n then 0%nat
           else if selected_packet lib n f then 1%nat else 0%nat in
  count is_decode t = k /\ count is_rescale t = k.
Proof.
  intros Hf. cbv zeta.
  destruct (end_of_stream lib n) eqn:Ee.
  - revert Hf. unfold loop_body. unfold end_of_stream in Ee.
    destruct (av_read_frame lib n) as [ret pkt]. cbn [fst] in Ee.
    rewrite Ee. intros _. split; reflexivity.
  - destruct (selected_packet lib n f) eqn:Es.
    + destruct (fmt_ctx f) as [c|] eqn:Ec.
      * destruct (stream_at c (stream_index (snd (av_read_frame lib n))))
          as [avStream|] eqn:Ea.
        -- pose proof (loop_body_routed n f frame c avStream Ee Es Ec Ea) as H.
           cbv zeta in H.
           match type of H with
           | context [decode_packet lib n ?cc ?p frame] =>
               pose proof (decode_packet_trace n cc p frame) as Ht;
               destruct (decode_packet lib n cc p frame)
                 as [[[r got_frame] frame'] t1]
           end.
           cbv zeta in Ht. cbn [snd] in Ht. destruct Ht as (D & R & _ & _).
           rewrite H. cbn [fst].
           pose proof (report_trace (codec avStream) frame') as (D' & R' & _).
           rewrite !count_cons, !count_app. cbn [is_decode is_rescale].
           destruct ((r >=? 0) && negb (got_frame =? 0));
             rewrite ?D, ?R, ?D', ?R'; split; reflexivity.
        -- exfalso. apply Hf. unfold loop_body.
           unfold end_of_stream in Ee. unfold selected_packet in Es.
           destruct (av_read_frame lib n) as [ret pkt]. cbn [fst snd] in *.
           rewrite Ee, Ec, Ea.
           apply orb_true_iff in Es.
           destruct Es as [-> | ->]; simpl; rewrite ?andb_false_r; reflexivity.
      * exfalso. apply Hf. unfold loop_body.
        unfold end_of_stream in Ee. unfold selected_packet in Es.
        destruct (av_read_frame lib n) as [ret pkt]. cbn [fst snd] in *.
        rewrite Ee, Ec.
        apply orb_true_iff in Es.
        destruct Es as [-> | ->]; simpl; rewrite ?andb_false_r; reflexivity.
    + rewrite loop_body_skip by assumption. split; reflexivity.
Qed.

Lemma decode_loop_S fuel n f frame :
  decode_loop lib (S fuel) n f frame
  = match loop_body lib n f frame with
    | (t, Break) => (t, Finished)
    | (t, Fault) => (t, Faulted)
    | (t, Continue frame') =>
        let (t', p) := decode_loop lib fuel (S n) f frame' in (t ++ t', p)
    end.
Proof. reflexivity. Qed.

Lemma decode_loop_counts f fuel :
  forall n frame,
    snd (decode_loop lib fuel n f frame) <> Faulted ->
    count is_decode (fst (decode_loop lib fuel n f frame))
    = selected_packets lib fuel n f /\
    count is_rescale (fst (decode_loop lib fuel n f frame))
    = selected_packets lib fuel n f.
Proof.
  induction fuel as [|fuel IH]; intros n frame Hf.
  - split; reflexivity.
  - rewrite decode_loop_S in *. cbn [selected_packets].
    pose proof (loop_body_counts n f frame) as Hb.
    pose proof (loop_body_break n f frame) as Hbr.
    destruct (loop_body lib n f frame) as [t [ | frame' | ]];
      cbn [fst snd] in *.
    + rewrite (proj1 Hbr eq_refl) in *. apply Hb. discriminate.
    + destruct (end_of_stream lib n);
        [destruct Hbr as [_ Hbr]; discriminate (Hbr eq_refl)|].
      specialize (IH (S n) frame').
      destruct (decode_loop lib fuel (S n) f frame') as [t' p].
      cbn [fst snd] in *.
      destruct (IH Hf) as [D R]. destruct Hb as [D' R']; [discriminate|].
      rewrite !count_app, D, R, D', R'. split; reflexivity.
    + contradiction Hf. reflexivity.
Qed.

(** The loop finishes only on a read that returns the end-of-stream
    code, and not before it. *)
Lemma decode_loop_finished f fuel :
  forall n frame,
    snd (decode_loop lib fuel n f frame) = Finished ->
    exists k, (n <= k < n + fuel)%nat /\ end_of_stream lib k = true /\
              forall j, (n <= j < k)%nat -> end_of_stream lib j = false.
Proof.
  induction fuel as [|fuel IH]; intros n frame Hf.
  - discriminate.
  - rewrite decode_loop_S in Hf.
    pose proof (loop_body_break n f frame) as Hbr.
    destruct (loop_body lib n f frame) as [t [ | frame' | ]];
      cbn [fst snd] in *.
    + exists n. repeat split; [lia | lia | now apply Hbr | intros j Hj; lia].
    + specialize (IH (S n) frame').
      destruct (decode_loop lib fuel (S n) f frame') as [t' p].
      destruct (IH Hf) as (k & Hk & He & Hb).
      exists k. repeat split; [lia | lia | assumption |].
      intros j Hj. destruct (Nat.eq_dec j n) as [->|N]; [|apply Hb; lia].
      destruct (end_of_stream lib n); [|reflexivity].
      destruct Hbr as [_ Hbr]. discriminate (Hbr eq_refl).
    + discriminate.
Qed.

(** If a read within the iterations allowed returns the end-of-stream
    code, the loop is not left running. *)
Lemma decode_loop_reaches_eof f fuel :
  forall n frame k,
    (n <= k < n + fuel)%nat -> end_of_stream lib k = true ->
    snd (decode_loop lib fuel n f frame) <> Looping.
Proof.
  induction fuel as [|fuel IH]; intros n frame k Hk He.
  - lia.
  - rewrite decode_loop_S.
    pose proof (loop_body_break n f frame) as Hbr.
    destruct (loop_body lib n f frame) as [t [ | frame' | ]];
      cbn [fst snd] in *; try discriminate.
    specialize (IH (S n) frame' k).
    destruct (decode_loop lib fuel (S n) f frame') as [t' p].
    cbn [snd] in *. apply IH; [|assumption].
    destruct (Nat.eq_dec k n) as [->|N]; [|lia].
    destruct Hbr as [_ Hbr]. discriminate (Hbr He).
Qed.

(** No iteration faults when the handle is open, the indices kept are
    -1 or positions of the container, and packets carry nonnegative
    stream indices. *)
Lemma decode_loop_no_fault f c fuel :
  fmt_ctx f = Some c ->
  (0 <= v_index f -> v_index f < nb_streams c) ->
  (0 <= a_index f -> a_index f < nb_streams c) ->
  (forall j, 0 <= stream_index (snd (av_read_frame lib j))) ->
  forall n frame, snd (decode_loop lib fuel n f frame) <> Faulted.
Proof.
  intros Hc Hv Ha Hp.
  induction fuel as [|fuel IH]; intros n frame.
  - discriminate.
  - rewrite decode_loop_S.
    destruct (loop_body lib n f frame) as [t [ | frame' | ]] eqn:E;
      try discriminate.
    + specialize (IH (S n) frame').
      destruct (decode_loop lib fuel (S n) f frame') as [t' p]. exact IH.
    + exfalso. revert E. unfold loop_body. specialize (Hp n).
      destruct (av_read_frame lib n) as [ret pkt]. cbn [snd] in Hp.
      rewrite Hc.
      destruct (ret =? AVERROR_EOF); [discriminate|].
      destruct (stream_index pkt =? v_index f) eqn:E1;
        destruct (stream_index pkt =? a_index f) eqn:E2;
        cbn [negb andb]; try discriminate;
        (assert (Hs : stream_at c (stream_index pkt) <> None);
         [ unfold stream_at, nb_streams in *;
           destruct (stream_index pkt <? 0) eqn:E0;
           [ apply Z.ltb_lt in E0; lia
           | apply nth_error_Some;
             try (apply Z.eqb_eq in E1); try (apply Z.eqb_eq in E2); lia ]
         | destruct (stream_at c (stream_index pkt)); [|congruence];
           repeat break_match; discriminate ]).
Qed.

(** The return code of a read is looked at only to recognise the end of
    the stream. *)
Lemma loop_body_read_codes codes n f frame :
  (forall k, codes k = AVERROR_EOF <-> fst (av_read_frame lib k) = AVERROR_EOF) ->
  loop_body (with_read_codes lib codes) n f frame = loop_body lib n f frame.
Proof.
  intros H. unfold loop_body, decode_packet. cbn [with_read_codes av_read_frame
    av_packet_rescale_ts avcodec_decode_video2 avcodec_decode_audio4
    av_frame_unref].
  specialize (H n).
  destruct (av_read_frame lib n) as [ret pkt]. cbn [fst snd] in *.
  assert (E : (codes n =? AVERROR_EOF) = (ret =? AVERROR_EOF)).
  { destruct (ret =? AVERROR_EOF) eqn:E1.
    - apply Z.eqb_eq. apply H. now apply Z.eqb_eq.
    - apply Z.eqb_neq. intros E2. apply Z.eqb_neq in E1. apply E1, H, E2. }
  rewrite E. reflexivity.
Qed.

Lemma decode_loop_read_codes codes f fuel :
  (forall k, codes k = AVERROR_EOF <-> fst (av_read_frame lib k) = AVERROR_EOF) ->
  forall n frame,
    decode_loop (with_read_codes lib codes) fuel n f frame
    = decode_loop lib fuel n f frame.
Proof.
  intros H. induction fuel as [|fuel IH]; intros n frame.
  - reflexivity.
  - cbn [decode_loop]. rewrite loop_body_read_codes by assumption.
    destruct (loop_body lib n f frame) as [t [ | frame' | ]]; try reflexivity.
    rewrite IH. reflexivity.
Qed.

End Loop.

(** ** Which actions each part of the program performs *)

Lemma all_of_app q t u : all_of q t -> all_of q u -> all_of q (t ++ u).
Proof. intros; apply Forall_app; split; assumption. Qed.

Lemma all_of_count_zero q p t :
  all_of q t -> (forall e, q e = true -> p e = false) -> count p t = 0%nat.
Proof.
  intros Ht Hq. induction Ht as [|e t He _ IH]; [reflexivity|].
  rewrite count_cons, (Hq e He), IH. reflexivity.
Qed.

Lemma all_of_cons q e t : q e = true -> all_of q t -> all_of q (e :: t).
Proof. intros; apply Forall_cons; assumption. Qed.

Lemma all_of_nil q : all_of q [].
Proof. apply Forall_nil. Qed.

Create HintDb traces.
#[local] Hint Resolve all_of_app all_of_nil : traces.
#[local] Hint Extern 1 (all_of _ (_ :: _)) =>
  (apply all_of_cons; [reflexivity|]) : traces.

Section Actions.

Variable lib : Library.

Lemma open_decoder_actions codec_ctx :
  all_of setup_event (snd (open_decoder lib codec_ctx)).
Proof.
  unfold open_decoder. repeat break_match; simpl; auto with traces.
Qed.

Lemma select_streams_actions rest :
  forall index f, all_of setup_event (snd (select_streams lib index rest f)).
Proof.
  induction rest as [|x rest IH]; intros index f; simpl; auto with traces.
  pose proof (open_decoder_actions (codec x)) as Ho.
  destruct (open_decoder lib (codec x)) as [r t]. simpl in Ho.
  repeat break_if; rewrite ?let_pair_app; simpl; auto with traces.
Qed.

Lemma open_input_actions filename f0 :
  all_of setup_event (snd (open_input lib filename f0)).
Proof.
  unfold open_input.
  destruct (avformat_open_input lib filename) as [c|]; simpl;
    [|auto with traces].
  destruct (avformat_find_stream_info lib c) as [r c'].
  destruct (r <? 0); simpl; [auto with traces|].
  pose proof (select_streams_actions (streams c') 0
                (set_fmt_ctx
                   (set_v_index (set_a_index (set_fmt_ctx f0 None) (-1)) (-1))
                   (Some c'))) as Hs.
  destruct (select_streams lib 0 (streams c') _) as [f t]. simpl in Hs.
  break_if; simpl; auto 6 with traces.
Qed.

Lemma decode_packet_actions n codec_ctx pkt frame :
  all_of loop_event (snd (decode_packet lib n codec_ctx pkt frame)).
Proof.
  unfold decode_packet. break_if; simpl; auto with traces.
Qed.

Lemma report_actions codec_ctx frame :
  all_of loop_event (report codec_ctx frame).
Proof.
  unfold report. break_if; simpl; auto 6 with traces.
Qed.

Lemma loop_body_actions n f frame :
  all_of loop_event (fst (loop_body lib n f frame)).
Proof.
  unfold loop_body.
  destruct (av_read_frame lib n) as [ret pkt].
  destruct (ret =? AVERROR_EOF); [simpl; auto with traces|].
  destruct (negb _ && negb _); [simpl; auto with traces|].
  destruct (fmt_ctx f) as [c|]; [|simpl; auto with traces].
  destruct (stream_at c (stream_index pkt)) as [s|];
    [|simpl; auto with traces].
  cbv zeta.
  match goal with
  | |- context [decode_packet lib n ?cc ?p frame] =>
      pose proof (decode_packet_actions n cc p frame) as Ht;
      destruct (decode_packet lib n cc p frame) as [[[r got_frame] frame'] t1]
  end.
  pose proof (report_actions (codec s) frame') as Hr.
  simpl in Ht. break_if; cbn [fst]; auto 8 with traces.
Qed.

Lemma decode_loop_actions f fuel :
  forall n frame, all_of loop_event (fst (decode_loop lib fuel n f frame)).
Proof.
  induction fuel as [|fuel IH]; intros n frame; [apply Forall_nil|].
  rewrite decode_loop_S.
  pose proof (loop_body_actions n f frame) as Hb.
  destruct (loop_body lib n f frame) as [t [ | frame' | ]]; simpl in *;
    try assumption.
  specialize (IH (S n) frame').
  destruct (decode_loop lib fuel (S n) f frame') as [t' p]. simpl in *.
  auto with traces.
Qed.

Lemma close_decoders_actions rest :
  forall index f, all_of teardown_event (close_decoders index rest f).
Proof.
  induction rest as [|x rest IH]; intros index f; simpl; auto with traces.
  break_if; simpl; auto with traces.
Qed.

Lemma release_actions f : all_of teardown_event (snd (release f)).
Proof.
  unfold release. destruct (fmt_ctx f); simpl; auto with traces.
  apply all_of_app; [apply close_decoders_actions | auto with traces].
Qed.

(** [release] only resets the handle. *)
Lemma release_indices f :
  v_index (fst (release f)) = v_index f /\
  a_index (fst (release f)) = a_index f /\
  fmt_ctx (fst (release f)) = None.
Proof.
  unfold release. destruct (fmt_ctx f) eqn:E; simpl; auto.
Qed.

(** [release] on a handle that is [NULL] does nothing. *)
Lemma release_null f : fmt_ctx f = None -> release f = (f, []).
Proof. unfold release. intros ->. reflexivity. Qed.

(** The scan leaves the handle alone. *)
Lemma select_streams_handle rest :
  forall index f, fmt_ctx (fst (select_streams lib index rest f)) = fmt_ctx f.
Proof.
  induction rest as [|x rest IH]; intros index f; simpl; [reflexivity|].
  destruct (open_decoder lib (codec x)) as [r t].
  repeat break_if; rewrite ?let_pair_app; simpl; rewrite ?IH; reflexivity.
Qed.

(** The handle is [NULL] after a failed open, and set otherwise. *)
Lemma open_input_handle filename f0 :
  fmt_ctx (snd (fst (open_input lib filename f0))) = None
  <-> avformat_open_input lib filename = None.
Proof.
  unfold open_input.
  destruct (avformat_open_input lib filename) as [c|]; simpl; [|tauto].
  destruct (avformat_find_stream_info lib c) as [r c'].
  destruct (r <? 0); simpl; [split; discriminate|].
  match goal with
  | |- context [select_streams lib 0 ?ss ?g] =>
      pose proof (select_streams_handle ss 0 g) as Hs;
      destruct (select_streams lib 0 ss g) as [f t]
  end.
  simpl in Hs. break_if; simpl; rewrite Hs; split; discriminate.
Qed.

End Actions.

(** ** Whole runs (C3) *)

Lemma setup_not_release e : setup_event e = true -> is_release e = false.
Proof. destruct e; simpl; congruence. Qed.

Lemma loop_not_release e : loop_event e = true -> is_release e = false.
Proof. destruct e; simpl; congruence. Qed.

Lemma teardown_not_release e : teardown_event e = true -> is_release e = false.
Proof. destruct e; simpl; congruence. Qed.

Section Runs.

Variable lib : Library.

Lemma main_usage fuel argv :
  (length argv < 2)%nat ->
  main lib fuel argv
  = ([Call_av_register_all; Call_av_log_set_level AV_LOG_DEBUG;
      Printf "usage : %s <input>\n" [PStr (nth_error argv 0)]],
     inputFile_init, Exit 0).
Proof.
  intros H. unfold main.
  replace (Z.of_nat (length argv) <? 2) with true
    by (symmetry; apply Z.ltb_lt; lia).
  reflexivity.
Qed.

Lemma main_run fuel argv :
  (2 <= length argv)%nat ->
  main lib fuel argv
  = let t0 := [Call_av_register_all; Call_av_log_set_level AV_LOG_DEBUG] in
    let '(r, inputFile, t1) :=
      open_input lib (nth_error argv 1) inputFile_init in
    if r <? 0 then main_end inputFile (t0 ++ t1)
    else
      match av_frame_alloc lib with
      | None => main_end inputFile (t0 ++ t1 ++ [Call_av_frame_alloc])
      | Some decoded_frame =>
          let (t2, p) := decode_loop lib fuel 0 inputFile decoded_frame in
          let t := t0 ++ t1 ++ Call_av_frame_alloc :: t2 in
          match p with
          | Finished => main_end inputFile (t ++ [Call_av_frame_free])
          | Looping => (t, inputFile, Running)
          | Faulted => (t, inputFile, Undefined)
          end
      end.
Proof.
  intros H. unfold main.
  replace (Z.of_nat (length argv) <? 2) with false
    by (symmetry; apply Z.ltb_ge; lia).
  reflexivity.
Qed.

Lemma main_end_eq f t :
  main_end f t
  = (t ++ Enter_release :: snd (release f), fst (release f), Exit 0).
Proof. unfold main_end. destruct (release f); reflexivity. Qed.

Lemma main_end_releases f t :
  count is_release (t ++ Enter_release :: snd (release f))
  = S (count is_release t).
Proof.
  rewrite count_app, count_cons. simpl.
  rewrite (all_of_count_zero teardown_event is_release (snd (release f)))
    by (auto using release_actions, teardown_not_release).
  lia.
Qed.

Lemma open_input_releases filename f0 :
  count is_release (snd (open_input lib filename f0)) = 0%nat.
Proof.
  apply (all_of_count_zero setup_event);
    auto using open_input_actions, setup_not_release.
Qed.

Lemma decode_loop_releases fuel n f frame :
  count is_release (fst (decode_loop lib fuel n f frame)) = 0%nat.
Proof.
  apply (all_of_count_zero loop_event);
    auto using decode_loop_actions, loop_not_release.
Qed.


Lemma open_input_open_failure filename f0 :
  avformat_open_input lib filename = None ->
  open_input lib filename f0
  = (-1, unselected None,
     [Call_avformat_open_input filename;
      Printf "Could not open input file %s\n" [PStr filename]]).
Proof. unfold open_input. intros ->. reflexivity. Qed.

Lemma main_paths fuel argv :
  (2 <= length argv)%nat -> path_of_run lib fuel argv.
Proof.
  intros H. pose proof (main_run fuel argv H) as E. cbv zeta in E.
  destruct (open_input lib (nth_error argv 1) inputFile_init)
    as [[r f1] t1] eqn:Eo.
  destruct (r <? 0) eqn:Er.
  - apply Z.ltb_lt in Er. eapply Setup_failed; eassumption.
  - apply Z.ltb_ge in Er.
    destruct (av_frame_alloc lib) as [frame|] eqn:Ef.
    + destruct (decode_loop lib fuel 0 f1 frame) as [t2 p] eqn:El.
      destruct p.
      * eapply End_of_stream; eassumption.
      * eapply Still_decoding; try eassumption. left; split; reflexivity.
      * eapply Still_decoding; try eassumption. right; split; reflexivity.
    + eapply Frame_alloc_failed; eassumption.
Qed.

(** A run that exits through [main_end] has invoked [release] once. *)
Lemma release_called_once_paths fuel argv :
  (2 <= length argv)%nat ->
  forall s, snd (main lib fuel argv) = Exit s ->
            count is_release (fst (fst (main lib fuel argv))) = 1%nat.
Proof.
  intros H s.
  pose proof (open_input_releases (nth_error argv 1) inputFile_init) as Hr.
  destruct (main_paths fuel argv H)
    as [r f1 t1 Eo Hneg Em | r f1 t1 Eo Hpos Ef Em
        | r f1 t1 frame t2 Eo Hpos Ef El Em
        | r f1 t1 frame t2 p o Eo Hpos Ef El Hp Em];
    rewrite Em, ?main_end_eq; rewrite Eo in Hr; cbn [fst snd] in *;
    intros E.
  - rewrite main_end_releases, count_app, Hr. reflexivity.
  - rewrite main_end_releases, !count_app, Hr. reflexivity.
  - pose proof (decode_loop_releases fuel 0 f1 frame) as Hl.
    rewrite El in Hl. cbn [fst] in Hl.
    rewrite main_end_releases, !count_app, !count_cons, Hr, Hl. reflexivity.
  - destruct Hp as [[_ ->]|[_ ->]]; discriminate E.
Qed.

End Runs.

(** C3, the claim as stated fails: without an input argument [main]
    returns at line 172, before the label [main_end]; the run exits
    with status 0 and [release] has not been invoked at all. *)
Lemma release_not_called_without_argument :
  let '(t, _, o) := main audio_video_lib 10 ["sample04_decoding"%string] in
  o = Exit 0 /\ count is_release t = 0%nat /\ count is_release t <> 1%nat.
Proof. vm_compute. repeat split. discriminate. Qed.

(** C3, amended: a run that was given its input argument and exits has
    invoked [release] exactly once; it does exit, with one invocation,
    on every early error path ([open_input] returned a negative value:
    open, probe or no-stream failure; or the frame allocation failed)
    and when the decode loop has met the end of the stream; after a
    failed open the handle is [NULL] and the invocation performs no
    action (the trace ends with the entry into [release]), as [release]
    does on every [NULL] handle.  Without the argument the run exits
    without invoking [release]. *)
Theorem release_called_once_when_given_input :
  forall lib fuel argv,
    let '(t, _, o) := main lib fuel argv in
    ((length argv < 2)%nat -> o = Exit 0 /\ count is_release t = 0%nat)
    /\ ((2 <= length argv)%nat ->
        let '(r, f1, _) := open_input lib (nth_error argv 1) inputFile_init in
        (forall s, o = Exit s -> count is_release t = 1%nat)
        /\ (r < 0 \/ av_frame_alloc lib = None ->
            o = Exit 0 /\ count is_release t = 1%nat)
        /\ (forall frame,
              0 <= r -> av_frame_alloc lib = Some frame ->
              snd (decode_loop lib fuel 0 f1 frame) = Finished ->
              o = Exit 0 /\ count is_release t = 1%nat)
        /\ (avformat_open_input lib (nth_error argv 1) = None ->
            fmt_ctx f1 = None /\ exists t', t = t' ++ [Enter_release]))
    /\ (forall g, fmt_ctx g = None -> release g = (g, [])).
Proof.
  intros lib fuel argv.
  destruct (le_lt_dec 2 (length argv)) as [H|H].
  - pose proof (open_input_releases lib (nth_error argv 1) inputFile_init) as Hr.
    pose proof (open_input_open_failure lib (nth_error argv 1) inputFile_init)
      as Hnull.
    destruct (main_paths lib fuel argv H)
      as [r f1 t1 Eo Hneg Em | r f1 t1 Eo Hpos Ef Em
          | r f1 t1 frame t2 Eo Hpos Ef El Em
          | r f1 t1 frame t2 p o Eo Hpos Ef El Hp Em];
      rewrite Em, Eo in *; cbn [snd] in Hr;
      rewrite ?main_end_eq;
      (split; [lia|]); (split; [|apply release_null]); intros _.
    + assert (C : count is_release
                    (([Call_av_register_all; Call_av_log_set_level AV_LOG_DEBUG]
                      ++ t1) ++ Enter_release :: snd (release f1)) = 1%nat)
        by (rewrite main_end_releases, count_app, Hr; reflexivity).
      split; [intros s _; exact C|].
      split; [intros _; split; [reflexivity | exact C]|].
      split; [intros frame _ _ _; split; [reflexivity | exact C]|].
      intros E. specialize (Hnull E). injection Hnull as -> -> ->.
      split; [reflexivity | eexists; reflexivity].
    + assert (C : count is_release
                    (([Call_av_register_all; Call_av_log_set_level AV_LOG_DEBUG]
                      ++ t1 ++ [Call_av_frame_alloc])
                     ++ Enter_release :: snd (release f1)) = 1%nat)
        by (rewrite main_end_releases, !count_app, Hr; reflexivity).
      split; [intros s _; exact C|].
      split; [intros _; split; [reflexivity | exact C]|].
      split; [intros frame _ _ _; split; [reflexivity | exact C]|].
      intros E. specialize (Hnull E). injection Hnull as -> _ _. lia.
    + pose proof (decode_loop_releases lib fuel 0 f1 frame) as Hl.
      rewrite El in Hl. cbn [fst] in Hl.
      assert (C : count is_release
                    ((([Call_av_register_all; Call_av_log_set_level AV_LOG_DEBUG]
                       ++ t1 ++ Call_av_frame_alloc :: t2)
                      ++ [Call_av_frame_free])
                     ++ Enter_release :: snd (release f1)) = 1%nat).
      { rewrite main_end_releases, !count_app, !count_cons, Hr, Hl.
        reflexivity. }
      split; [intros s _; exact C|].
      split; [intros _; split; [reflexivity | exact C]|].
      split; [intros fr _ _ _; split; [reflexivity | exact C]|].
      intros E. specialize (Hnull E). injection Hnull as -> _ _. lia.
    + split; [intros s E; destruct Hp as [[_ ->]|[_ ->]]; discriminate E|].
      split; [intros [E|E]; [lia | congruence]|].
      split.
      { intros fr _ E1 E2. rewrite E1 in Ef. injection Ef as ->.
        rewrite El in E2. destruct Hp as [[-> _]|[-> _]]; discriminate E2. }
      intros E. specialize (Hnull E). injection Hnull as -> _ _. lia.
  - rewrite (main_usage lib fuel argv H).
    split; [intros _; split; reflexivity|]. split; [lia|apply release_null].
Qed.

(** A run to the end of the stream of the audio and video container. *)
Lemma release_called_once_witness :
  (2 <= length sample_argv)%nat /\
  let '(t, _, o) := main audio_video_lib 10 sample_argv in
  o = Exit 0 /\ count is_release t = 1%nat.
Proof.
  split; [simpl; lia|].
  pose proof (release_called_once_when_given_input audio_video_lib 10
                sample_argv) as H.
  destruct (main audio_video_lib 10 sample_argv) as [[t f] o] eqn:Em.
  destruct H as (_ & H & _). specialize (H (le_n 2)).
  destruct (open_input audio_video_lib (nth_error sample_argv 1) inputFile_init)
    as [[r f1] t1] eqn:Eo.
  destruct H as (_ & _ & H & _).
  vm_compute in Eo. injection Eo as <- <- _.
  apply (H blank_frame); [discriminate | reflexivity | vm_compute; reflexivity].
Defined.

(** ** Iterations of the decode loop: the claims (C5, C6, C9) *)

(** C5: a packet whose stream index is neither [v_index] nor [a_index]
    is released right after the read, and the iteration does nothing
    else; over the iterations performed, the decode calls (and the
    rescale calls) are as many as the packets read on the two indices. *)
Theorem unselected_packets_never_decoded :
  forall lib fuel n f frame,
    snd (decode_loop lib fuel n f frame) <> Faulted ->
    (forall k frame',
        end_of_stream lib k = false -> selected_packet lib k f = false ->
        loop_body lib k f frame'
        = ([Call_av_read_frame; Call_av_free_packet], Continue frame'))
    /\ count is_decode (fst (decode_loop lib fuel n f frame))
       = selected_packets lib fuel n f
    /\ count is_rescale (fst (decode_loop lib fuel n f frame))
       = selected_packets lib fuel n f.
Proof.
  intros lib fuel n f frame Hf. split.
  - intros k frame'. apply loop_body_skip.
  - apply decode_loop_counts. assumption.
Qed.

(** Six packets read, two of them on the subtitle stream: four decode
    calls. *)
Lemma unselected_packets_never_decoded_witness :
  snd (decode_loop audio_video_lib 10 0 audio_video_file blank_frame) <> Faulted
  /\ count is_decode
       (fst (decode_loop audio_video_lib 10 0 audio_video_file blank_frame))
     = 4%nat
  /\ selected_packets audio_video_lib 10 0 audio_video_file = 4%nat.
Proof.
  assert (H : snd (decode_loop audio_video_lib 10 0 audio_video_file blank_frame)
              <> Faulted) by (vm_compute; discriminate).
  split; [exact H|].
  destruct (unselected_packets_never_decoded audio_video_lib 10 0
              audio_video_file blank_frame H) as (_ & -> & _).
  split; vm_compute; reflexivity.
Defined.

(** C6: for a packet fed to a decoder (a packet on one of the two
    indices, on a stream of the container), the iteration makes one
    decode call; when that call returns a negative value the iteration
    prints nothing, releases the packet and the loop goes on with the
    next read; the packet is released as well when the call succeeds
    without a frame and when it succeeds with a frame (after the
    report). *)
Theorem decode_error_skips_report :
  forall lib fuel n f frame c avStream,
    end_of_stream lib n = false -> selected_packet lib n f = true ->
    fmt_ctx f = Some c ->
    stream_at c (stream_index (snd (av_read_frame lib n))) = Some avStream ->
    let pkt := snd (av_read_frame lib n) in
    let codec_ctx := codec avStream in
    let pkt' := av_packet_rescale_ts lib pkt (time_base avStream)
                  (codec_time_base codec_ctx) in
    let '(r, got_frame, frame', t1) := decode_packet lib n codec_ctx pkt' frame in
    let head := [Call_av_read_frame;
                 Call_av_packet_rescale_ts pkt (time_base avStream)
                   (codec_time_base codec_ctx)] in
    (count is_decode t1 = 1%nat /\ count is_printf t1 = 0%nat /\
     count is_free_packet t1 = 0%nat)
    /\ (r < 0 ->
        loop_body lib n f frame
        = (head ++ t1 ++ [Call_av_free_packet], Continue frame')
        /\ decode_loop lib (S fuel) n f frame
           = (let (t, p) := decode_loop lib fuel (S n) f frame' in
              ((head ++ t1 ++ [Call_av_free_packet]) ++ t, p)))
    /\ (0 <= r -> got_frame = 0 ->
        loop_body lib n f frame
        = (head ++ t1 ++ [Call_av_free_packet], Continue frame'))
    /\ (0 <= r -> got_frame <> 0 ->
        loop_body lib n f frame
        = (head ++ t1 ++ report codec_ctx frame' ++ [Call_av_free_packet],
           Continue (av_frame_unref lib frame'))).
Proof.
  intros lib fuel n f frame c avStream He Hs Hc Ha.
  pose proof (loop_body_routed lib n f frame c avStream He Hs Hc Ha) as H.
  cbv zeta in H |- *.
  match type of H with
  | context [decode_packet lib n ?cc ?p frame] =>
      pose proof (decode_packet_trace lib n cc p frame) as Ht;
      destruct (decode_packet lib n cc p frame) as [[[r got_frame] frame'] t1]
  end.
  cbv zeta in Ht. cbn [snd] in Ht. destruct Ht as (D & _ & P & F).
  split; [auto|]. split; [|split].
  - intros Hr.
    replace (r >=? 0) with false in H
      by (rewrite Z.geb_leb; symmetry; apply Z.leb_gt; lia).
    cbn [andb] in H. split; [exact H|].
    rewrite decode_loop_S, H. reflexivity.
  - intros Hr ->.
    rewrite Z.eqb_refl, andb_false_r in H. exact H.
  - intros Hr Hg.
    replace (r >=? 0) with true in H
      by (rewrite Z.geb_leb; symmetry; apply Z.leb_le; lia).
    replace (got_frame =? 0) with false in H by (symmetry; now apply Z.eqb_neq).
    exact H.
Qed.

(** A rejected audio packet: read, rescale, decode, release, and on to
    the next read. *)
Lemma decode_error_skips_report_witness :
  decode_loop corrupt_lib 2 0 audio_video_file blank_frame
  = ([Call_av_read_frame;
      Call_av_packet_rescale_ts (snd (av_read_frame corrupt_lib 0))
        (time_base audio_stream) (codec_time_base (codec audio_stream));
      Call_avcodec_decode_audio4 (codec audio_stream)
        (snd (av_read_frame corrupt_lib 0));
      Call_av_free_packet]
     ++ fst (decode_loop corrupt_lib 1 1 audio_video_file blank_frame),
     Looping).
Proof.
  pose proof (decode_error_skips_report corrupt_lib 1 0 audio_video_file
                blank_frame
                {| streams := [audio_stream; video_stream; subtitle_stream] |}
                audio_stream eq_refl eq_refl eq_refl eq_refl) as H.
  cbv zeta in H.
  change (decode_packet corrupt_lib 0 (codec audio_stream)
            (av_packet_rescale_ts corrupt_lib (snd (av_read_frame corrupt_lib 0))
               (time_base audio_stream) (codec_time_base (codec audio_stream)))
            blank_frame)
    with (AVERROR_INVALIDDATA, 0, blank_frame,
          [Call_avcodec_decode_audio4 (codec audio_stream)
             (snd (av_read_frame corrupt_lib 0))]) in H.
  cbv iota beta in H.
  destruct H as (_ & H & _).
  destruct (H ltac:(vm_compute; reflexivity)) as [_ ->].
  vm_compute. reflexivity.
Defined.

(** C9: the loop is left only by an iteration whose read returned
    [AVERROR_EOF] (so a finished loop has met such a read, and a read
    that returns it within the iterations allowed stops the loop); any
    other return code, negative or not, is not looked at: replacing the
    codes of the reads by any others that signal the end of the stream
    at the same reads leaves routing, rescaling, decoding and reports of
    the whole loop unchanged. *)
Theorem loop_ends_only_at_end_of_stream :
  forall lib fuel n f frame,
    (snd (decode_loop lib fuel n f frame) = Finished ->
     exists k, (n <= k < n + fuel)%nat /\
               fst (av_read_frame lib k) = AVERROR_EOF)
    /\ (forall k, (n <= k < n + fuel)%nat ->
                  fst (av_read_frame lib k) = AVERROR_EOF ->
                  snd (decode_loop lib fuel n f frame) <> Looping)
    /\ (forall k fr, snd (loop_body lib k f fr) = Break
                     <-> fst (av_read_frame lib k) = AVERROR_EOF)
    /\ (forall codes,
          (forall k, codes k = AVERROR_EOF
                     <-> fst (av_read_frame lib k) = AVERROR_EOF) ->
          decode_loop (with_read_codes lib codes) fuel n f frame
          = decode_loop lib fuel n f frame).
Proof.
  intros lib fuel n f frame. repeat split.
  - intros H. destruct (decode_loop_finished lib f fuel n frame H)
      as (k & Hk & He & _).
    exists k. split; [assumption|]. now apply Z.eqb_eq.
  - intros k Hk He. apply (decode_loop_reaches_eof lib f fuel n frame k Hk).
    now apply Z.eqb_eq.
  - intros H. apply loop_body_break in H. now apply Z.eqb_eq.
  - intros H. apply loop_body_break. now apply Z.eqb_eq.
  - intros codes H. now apply decode_loop_read_codes.
Qed.

(** Every read of the audio and video container fails with an I/O
    error code: the packets are decoded as in the run without
    errors. *)
Lemma loop_ends_only_at_end_of_stream_witness :
  (forall k, io_errors k = AVERROR_EOF
             <-> fst (av_read_frame audio_video_lib k) = AVERROR_EOF)
  /\ decode_loop (with_read_codes audio_video_lib io_errors) 10 0
       audio_video_file blank_frame
     = decode_loop audio_video_lib 10 0 audio_video_file blank_frame
  /\ count is_decode
       (fst (decode_loop (with_read_codes audio_video_lib io_errors) 10 0
               audio_video_file blank_frame)) = 4%nat.
Proof.
  assert (H : forall k, io_errors k = AVERROR_EOF
                        <-> fst (av_read_frame audio_video_lib k) = AVERROR_EOF).
  { intros k. unfold io_errors. simpl.
    destruct (k <? 6)%nat; simpl; split; intros E;
      try reflexivity; discriminate E. }
  split; [exact H|].
  destruct (loop_ends_only_at_end_of_stream audio_video_lib 10 0
              audio_video_file blank_frame) as (_ & _ & _ & E).
  rewrite (E io_errors H). split; vm_compute; reflexivity.
Defined.

(** ** Selected indices over a run (C8) *)

Lemma loop_not_open2 k e : loop_event e = true -> is_open2 k e = false.
Proof. destruct e; simpl; congruence. Qed.

Lemma teardown_not_open2 k e : teardown_event e = true -> is_open2 k e = false.
Proof. destruct e; simpl; congruence. Qed.

Section Kinds.

Variable lib : Library.

Lemma open_decoder_open2 k codec_ctx :
  (count (is_open2 k) (snd (open_decoder lib codec_ctx)) <= 1)%nat /\
  (codec_type codec_ctx <> k ->
   count (is_open2 k) (snd (open_decoder lib codec_ctx)) = 0%nat).
Proof.
  unfold open_decoder.
  destruct (avcodec_find_decoder lib (codec_id codec_ctx)) as [decoder|];
    cbn [snd]; [|unfold count; simpl; split; [lia | reflexivity]].
  assert (H : (count (is_open2 k)
                 [Call_avcodec_find_decoder (codec_id codec_ctx);
                  Call_avcodec_open2 codec_ctx] <= 1)%nat /\
              (codec_type codec_ctx <> k ->
               count (is_open2 k)
                 [Call_avcodec_find_decoder (codec_id codec_ctx);
                  Call_avcodec_open2 codec_ctx] = 0%nat)).
  { unfold count. simpl.
    destruct (AVMediaType_eqb (codec_type codec_ctx) k) eqn:E; simpl.
    - split; [lia|]. apply AVMediaType_eqb_eq in E. congruence.
    - split; [lia | reflexivity]. }
  destruct (avcodec_open2 lib codec_ctx decoder <? 0); exact H.
Qed.

(** Streams of a kind whose index is already nonnegative are passed
    over: the index stays and no decoder of that kind is opened. *)
Lemma select_streams_filled k rest :
  forall index f,
    0 <= kind_index k f ->
    kind_index k (fst (select_streams lib index rest f)) = kind_index k f /\
    count (is_open2 k) (snd (select_streams lib index rest f)) = 0%nat.
Proof.
  induction rest as [|x rest IH]; intros index f Hk; [split; reflexivity|].
  cbn [select_streams]. cbv zeta.
  pose proof (open_decoder_open2 k (codec x)) as [_ Ho].
  destruct (AVMediaType_eqb (codec_type (codec x)) AVMEDIA_TYPE_VIDEO
            && (v_index f <? 0)) eqn:Ev.
  { apply andb_true_iff in Ev. destruct Ev as [Et Ei].
    apply AVMediaType_eqb_eq in Et. apply Z.ltb_lt in Ei.
    assert (Hne : codec_type (codec x) <> k)
      by (destruct k; simpl in Hk; [lia | congruence | congruence]).
    specialize (Ho Hne).
    destruct (open_decoder lib (codec x)) as [r t]. cbn [snd] in Ho.
    destruct (r <? 0); [split; [reflexivity | exact Ho]|].
    rewrite let_pair_app. cbn [fst snd]. rewrite count_app, Ho.
    destruct (IH (index + 1) (set_v_index f (to_int index))) as [E1 E2].
    - destruct k; simpl in *; lia.
    - rewrite E1, E2. split; [destruct k; reflexivity || (simpl in *; lia)
                             | reflexivity]. }
  destruct (AVMediaType_eqb (codec_type (codec x)) AVMEDIA_TYPE_AUDIO
            && (a_index f <? 0)) eqn:Ea.
  { apply andb_true_iff in Ea. destruct Ea as [Et Ei].
    apply AVMediaType_eqb_eq in Et. apply Z.ltb_lt in Ei.
    assert (Hne : codec_type (codec x) <> k)
      by (destruct k; simpl in Hk; [congruence | lia | congruence]).
    specialize (Ho Hne).
    destruct (open_decoder lib (codec x)) as [r t]. cbn [snd] in Ho.
    destruct (r <? 0); [split; [reflexivity | exact Ho]|].
    rewrite let_pair_app. cbn [fst snd]. rewrite count_app, Ho.
    destruct (IH (index + 1) (set_a_index f (to_int index))) as [E1 E2].
    - destruct k; simpl in *; lia.
    - rewrite E1, E2. split; [destruct k; reflexivity || (simpl in *; lia)
                             | reflexivity]. }
  apply IH. assumption.
Qed.

(** At most one decoder of each kind is opened by a scan. *)
Lemma select_streams_opens_once k rest :
  forall index f,
    0 <= index -> index + Z.of_nat (length rest) <= INT_MAX ->
    (count (is_open2 k) (snd (select_streams lib index rest f)) <= 1)%nat.
Proof.
  induction rest as [|x rest IH]; intros index f H0 Hn;
    [unfold count; simpl; lia|].
  cbn [select_streams]. cbv zeta.
  assert (Hn' : index + 1 + Z.of_nat (length rest) <= INT_MAX)
    by (simpl length in Hn; lia).
  assert (Hi : to_int index = index)
    by (apply to_int_small; simpl length in Hn; lia).
  pose proof (open_decoder_open2 k (codec x)) as [Ho1 Ho0].
  destruct (AVMediaType_eqb (codec_type (codec x)) AVMEDIA_TYPE_VIDEO
            && (v_index f <? 0)) eqn:Ev.
  { apply andb_true_iff in Ev. destruct Ev as [Et _].
    apply AVMediaType_eqb_eq in Et.
    destruct (open_decoder lib (codec x)) as [r t]. cbn [snd] in Ho1, Ho0.
    destruct (r <? 0); [exact Ho1|].
    rewrite let_pair_app. cbn [snd]. rewrite count_app, Hi.
    destruct k.
    - destruct (select_streams_filled AVMEDIA_TYPE_VIDEO rest (index + 1)
                  (set_v_index f index)) as [_ ->]; [exact H0 | lia].
    - rewrite Ho0 by congruence. apply IH; lia.
    - rewrite Ho0 by congruence. apply IH; lia. }
  destruct (AVMediaType_eqb (codec_type (codec x)) AVMEDIA_TYPE_AUDIO
            && (a_index f <? 0)) eqn:Ea.
  { apply andb_true_iff in Ea. destruct Ea as [Et _].
    apply AVMediaType_eqb_eq in Et.
    destruct (open_decoder lib (codec x)) as [r t]. cbn [snd] in Ho1, Ho0.
    destruct (r <? 0); [exact Ho1|].
    rewrite let_pair_app. cbn [snd]. rewrite count_app, Hi.
    destruct k.
    - rewrite Ho0 by congruence. apply IH; lia.
    - destruct (select_streams_filled AVMEDIA_TYPE_AUDIO rest (index + 1)
                  (set_a_index f index)) as [_ ->]; [exact H0 | lia].
    - rewrite Ho0 by congruence. apply IH; lia. }
  apply IH; lia.
Qed.

Lemma open_input_selected filename f0 :
  few_streams lib filename ->
  let f1 := snd (fst (open_input lib filename f0)) in
  let t1 := snd (open_input lib filename f0) in
  selected_ok lib AVMEDIA_TYPE_VIDEO (streams_of f1) (v_index f1) /\
  selected_ok lib AVMEDIA_TYPE_AUDIO (streams_of f1) (a_index f1) /\
  (forall k, (count (is_open2 k) t1 <= 1)%nat).
Proof.
  intros Hfew. unfold open_input. unfold few_streams in Hfew.
  destruct (avformat_open_input lib filename) as [c|];
    [|simpl; repeat split; try (left; reflexivity); intros;
      unfold count; simpl; lia].
  specialize (Hfew c eq_refl).
  destruct (avformat_find_stream_info lib c) as [r c']. cbn [snd] in Hfew.
  destruct (r <? 0);
    [simpl; repeat split; try (left; reflexivity); intros;
     unfold count; simpl; lia|].
  match goal with
  | |- context [select_streams lib 0 ?ss ?g] =>
      pose proof (select_streams_scanned lib ss [] g) as Hs;
      pose proof (fun k => select_streams_opens_once k ss 0 g) as Hc;
      cbn [length app Z.of_nat] in Hs;
      destruct (select_streams lib 0 ss g) as [f t]
  end.
  cbn [fst snd] in Hs, Hc. unfold nb_streams in Hfew.
  destruct Hs as (Hv & Ha & Hh);
    [ assumption | left; split; [reflexivity | intros s []]
    | left; split; [reflexivity | intros s []] | ].
  cbn [fmt_ctx set_fmt_ctx] in Hh.
  assert (Hss : streams_of f = streams c') by (unfold streams_of; now rewrite Hh).
  assert (Hk : forall k, (count (is_open2 k) t <= 1)%nat)
    by (intros k; apply Hc; [reflexivity | lia]).
  break_if; cbn [fst snd]; rewrite Hss;
    (split; [assumption|]); (split; [assumption|]); intros k;
    specialize (Hk k); rewrite ?count_app; unfold count in *; simpl; lia.
Qed.

End Kinds.

Section RunSelection.

Variable lib : Library.

Lemma selected_ok_none k ss i :
  selected_ok lib k ss i ->
  (forall s, In s ss -> codec_type (codec s) = k ->
             fst (open_decoder lib (codec s)) <> 0) ->
  i = -1.
Proof.
  intros [H|(_ & s & Hn & Hk & Ho & _)] Hnone; [assumption|].
  exfalso. apply (Hnone s); [eapply nth_error_In; eassumption | | ]; assumption.
Qed.

(** Decoders are opened by [open_input] only. *)
Lemma main_open2 fuel argv k :
  (2 <= length argv)%nat ->
  count (is_open2 k) (fst (fst (main lib fuel argv)))
  = count (is_open2 k) (snd (open_input lib (nth_error argv 1) inputFile_init)).
Proof.
  intros H.
  assert (Hrel : forall f, count (is_open2 k) (snd (release f)) = 0%nat).
  { intros f. apply (all_of_count_zero teardown_event);
      auto using release_actions, teardown_not_open2. }
  assert (Hloop : forall n f frame,
             count (is_open2 k) (fst (decode_loop lib fuel n f frame)) = 0%nat).
  { intros n f frame. apply (all_of_count_zero loop_event);
      auto using decode_loop_actions, loop_not_open2. }
  destruct (main_paths lib fuel argv H)
    as [r f1 t1 Eo Hneg Em | r f1 t1 Eo Hpos Ef Em
        | r f1 t1 frame t2 Eo Hpos Ef El Em
        | r f1 t1 frame t2 p o Eo Hpos Ef El Hp Em];
    rewrite Em, Eo, ?main_end_eq; cbn [fst snd];
    try (specialize (Hloop 0%nat f1 frame); rewrite El in Hloop;
         cbn [fst] in Hloop);
    rewrite ?count_app, ?count_cons, ?Hrel, ?count_app, ?count_cons, ?Hloop;
    unfold count; simpl; lia.
Qed.

(** After [open_input] nothing assigns the two indices. *)
Lemma main_indices fuel argv :
  (2 <= length argv)%nat ->
  let f1 := snd (fst (open_input lib (nth_error argv 1) inputFile_init)) in
  let f := snd (fst (main lib fuel argv)) in
  v_index f = v_index f1 /\ a_index f = a_index f1.
Proof.
  intros H.
  destruct (main_paths lib fuel argv H)
    as [r f1 t1 Eo Hneg Em | r f1 t1 Eo Hpos Ef Em
        | r f1 t1 frame t2 Eo Hpos Ef El Em
        | r f1 t1 frame t2 p o Eo Hpos Ef El Hp Em];
    rewrite Em, Eo, ?main_end_eq; cbn [fst snd];
    try (split; reflexivity);
    destruct (release_indices f1) as (E1 & E2 & _); split; assumption.
Qed.

End RunSelection.

(** C8: in a run, each of the two indices kept by [open_input] is -1
    or the position of the first stream of its kind in the container,
    a stream whose decoder opened; it is -1 when the container holds no
    stream of the kind with a decoder that opens; at most one decoder
    of each kind is opened in the whole run; the indices the run ends
    with are those [open_input] chose; and the scan passes over the
    streams of a kind whose index is already nonnegative, leaving the
    index as it is and opening no decoder of that kind. *)
Theorem selection_first_of_each_kind :
  forall lib fuel argv,
    (2 <= length argv)%nat -> few_streams lib (nth_error argv 1) ->
    let '(_, f1, _) := open_input lib (nth_error argv 1) inputFile_init in
    let '(t, f, _) := main lib fuel argv in
    (selected_ok lib AVMEDIA_TYPE_VIDEO (streams_of f1) (v_index f1) /\
     selected_ok lib AVMEDIA_TYPE_AUDIO (streams_of f1) (a_index f1))
    /\ ((forall s, In s (streams_of f1) ->
                   codec_type (codec s) = AVMEDIA_TYPE_VIDEO ->
                   fst (open_decoder lib (codec s)) <> 0) ->
        v_index f1 = -1)
    /\ ((forall s, In s (streams_of f1) ->
                   codec_type (codec s) = AVMEDIA_TYPE_AUDIO ->
                   fst (open_decoder lib (codec s)) <> 0) ->
        a_index f1 = -1)
    /\ ((count (is_open2 AVMEDIA_TYPE_VIDEO) t <= 1)%nat /\
        (count (is_open2 AVMEDIA_TYPE_AUDIO) t <= 1)%nat)
    /\ (v_index f = v_index f1 /\ a_index f = a_index f1)
    /\ (forall index rest g,
          0 <= v_index g ->
          v_index (fst (select_streams lib index rest g)) = v_index g /\
          count (is_open2 AVMEDIA_TYPE_VIDEO)
            (snd (select_streams lib index rest g)) = 0%nat)
    /\ (forall index rest g,
          0 <= a_index g ->
          a_index (fst (select_streams lib index rest g)) = a_index g /\
          count (is_open2 AVMEDIA_TYPE_AUDIO)
            (snd (select_streams lib index rest g)) = 0%nat).
Proof.
  intros lib fuel argv H Hfew.
  pose proof (open_input_selected lib (nth_error argv 1) inputFile_init Hfew)
    as Hsel.
  pose proof (fun k => main_open2 lib fuel argv k H) as Hopen.
  pose proof (main_indices lib fuel argv H) as Hidx.
  cbv zeta in Hsel, Hidx.
  destruct (open_input lib (nth_error argv 1) inputFile_init) as [[r f1] t1].
  destruct (main lib fuel argv) as [[t f] o].
  cbn [fst snd] in *. destruct Hsel as (Hv & Ha & Hc).
  split; [split; assumption|].
  split; [now apply selected_ok_none|].
  split; [now apply selected_ok_none|].
  split; [rewrite !Hopen; split; apply Hc|].
  split; [assumption|].
  split; intros index rest g Hg.
  - apply (select_streams_filled lib AVMEDIA_TYPE_VIDEO rest index g Hg).
  - apply (select_streams_filled lib AVMEDIA_TYPE_AUDIO rest index g Hg).
Qed.

Lemma few_streams_sample ss broken frame_ok npkt route filename :
  Z.of_nat (length ss) <= INT_MAX ->
  few_streams (sample_lib ss broken frame_ok npkt route) filename.
Proof. intros H c0 E. injection E as <-. exact H. Qed.

(** The run on [audio; video; subtitle] ends with the indices 1 and 0. *)
Lemma selection_first_of_each_kind_witness :
  (2 <= length sample_argv)%nat /\
  few_streams audio_video_lib (nth_error sample_argv 1) /\
  let '(t, f, _) := main audio_video_lib 10 sample_argv in
  v_index f = 1 /\ a_index f = 0 /\
  (count (is_open2 AVMEDIA_TYPE_VIDEO) t <= 1)%nat.
Proof.
  assert (H2 : (2 <= length sample_argv)%nat) by (simpl; lia).
  assert (Hf : few_streams audio_video_lib (nth_error sample_argv 1))
    by (apply few_streams_sample; vm_compute; discriminate).
  split; [exact H2|]. split; [exact Hf|].
  pose proof (selection_first_of_each_kind audio_video_lib 10 sample_argv H2 Hf)
    as H.
  destruct (open_input audio_video_lib (nth_error sample_argv 1) inputFile_init)
    as [[r f1] t1] eqn:Eo.
  destruct (main audio_video_lib 10 sample_argv) as [[t f] o] eqn:Em.
  destruct H as (_ & _ & _ & [Hc _] & [Hv Ha] & _).
  vm_compute in Eo. injection Eo as _ <- _.
  repeat split; assumption.
Defined.

(** ** What the teardown closes (C10) *)

Lemma closes_from_before index rest i :
  i < index -> closes_from index rest i = [].
Proof.
  intros H. unfold closes_from.
  replace (i <? index) with true by (symmetry; now apply Z.ltb_lt).
  reflexivity.
Qed.

Lemma closes_from_cons index s rest i :
  closes_from index (s :: rest) i
  = (if i =? index then [Call_avcodec_close (codec s)] else [])
    ++ closes_from (index + 1) rest i.
Proof.
  unfold closes_from.
  destruct (Z.lt_trichotomy i index) as [H|[H|H]].
  - replace (i <? index) with true by (symmetry; apply Z.ltb_lt; lia).
    replace (i =? index) with false by (symmetry; apply Z.eqb_neq; lia).
    replace (i <? index + 1) with true by (symmetry; apply Z.ltb_lt; lia).
    reflexivity.
  - subst i. rewrite Z.ltb_irrefl, Z.eqb_refl, Z.sub_diag.
    replace (index <? index + 1) with true by (symmetry; apply Z.ltb_lt; lia).
    reflexivity.
  - replace (i <? index) with false by (symmetry; apply Z.ltb_ge; lia).
    replace (i =? index) with false by (symmetry; apply Z.eqb_neq; lia).
    replace (i <? index + 1) with false by (symmetry; apply Z.ltb_ge; lia).
    replace (Z.to_nat (i - index)) with (S (Z.to_nat (i - (index + 1))))
      by lia.
    reflexivity.
Qed.

Lemma closes_from_zero c i : closes_from 0 (streams c) i = closes c i.
Proof.
  unfold closes_from, closes, stream_at. rewrite Z.sub_0_r.
  destruct (i <? 0); reflexivity.
Qed.

(** The loop of [release] closes the decoders at the two indices, in
    the order of the container, and no other. *)
Lemma close_decoders_closes rest :
  forall index f,
    0 <= index -> index + Z.of_nat (length rest) <= UINT_MAX ->
    -1 <= v_index f <= INT_MAX -> -1 <= a_index f <= INT_MAX ->
    (v_index f = a_index f -> v_index f < index) ->
    close_decoders index rest f
    = if v_index f <? a_index f
      then closes_from index rest (v_index f)
           ++ closes_from index rest (a_index f)
      else closes_from index rest (a_index f)
           ++ closes_from index rest (v_index f).
Proof.
  induction rest as [|s rest IH]; intros index f H0 Hn Hv Ha Hne.
  - unfold closes_from. simpl.
    destruct (v_index f <? index), (a_index f <? index);
      repeat (rewrite ?nth_error_nil; simpl); destruct (v_index f <? a_index f);
      reflexivity.
  - cbn [close_decoders]. cbv zeta. simpl length in Hn.
    rewrite !index_eq_to_uint by (unfold UINT_MAX, INT_MAX in *; lia).
    rewrite IH by lia. rewrite !closes_from_cons.
    set (cv := closes_from (index + 1) rest (v_index f)).
    set (ca := closes_from (index + 1) rest (a_index f)).
    assert (Hcv : v_index f <= index -> cv = [])
      by (intros; apply closes_from_before; lia).
    assert (Hca : a_index f <= index -> ca = [])
      by (intros; apply closes_from_before; lia).
    destruct (Z.eqb_spec index (v_index f)), (Z.eqb_spec index (a_index f)),
      (Z.eqb_spec (v_index f) index), (Z.eqb_spec (a_index f) index),
      (Z.ltb_spec (v_index f) (a_index f));
      try lia; cbn [orb app]; rewrite ?Hcv, ?Hca by lia; reflexivity.
Qed.

Lemma setup_not_close e : setup_event e = true -> is_close e = false.
Proof. destruct e; simpl; congruence. Qed.

Lemma loop_not_close e : loop_event e = true -> is_close e = false.
Proof. destruct e; simpl; congruence. Qed.

Section Teardown.

Variable lib : Library.

Lemma selected_ok_bounds k ss i :
  selected_ok lib k ss i -> -1 <= i < Z.of_nat (length ss).
Proof.
  intros [->|(H0 & s & Hn & _)]; [lia|].
  assert (Z.to_nat i < length ss)%nat by (apply nth_error_Some; congruence).
  lia.
Qed.

Lemma selected_ok_stream k c i :
  selected_ok lib k (streams c) i -> 0 <= i ->
  exists s, stream_at c i = Some s /\ codec_type (codec s) = k /\
            fst (open_decoder lib (codec s)) = 0.
Proof.
  intros [->|(H0 & s & Hn & Hk & Ho & _)] Hi; [lia|].
  exists s. unfold stream_at.
  replace (i <? 0) with false by (symmetry; apply Z.ltb_ge; lia). auto.
Qed.

(** The two indices never name the same stream. *)
Lemma selected_ok_distinct ss v a :
  selected_ok lib AVMEDIA_TYPE_VIDEO ss v ->
  selected_ok lib AVMEDIA_TYPE_AUDIO ss a ->
  v = a -> v < 0.
Proof.
  intros [->|(_ & s & Hn & Hk & _)] [->|(_ & s' & Hn' & Hk' & _)] E;
    try lia.
  subst a. rewrite Hn in Hn'. injection Hn' as <-. congruence.
Qed.

Lemma open_input_few filename f0 c :
  few_streams lib filename ->
  fmt_ctx (snd (fst (open_input lib filename f0))) = Some c ->
  nb_streams c <= INT_MAX.
Proof.
  intros Hfew. unfold few_streams in Hfew. unfold open_input.
  destruct (avformat_open_input lib filename) as [c0|]; [|discriminate].
  specialize (Hfew c0 eq_refl).
  destruct (avformat_find_stream_info lib c0) as [r c']. cbn [snd] in Hfew.
  destruct (r <? 0); [simpl; congruence|].
  match goal with
  | |- context [select_streams lib 0 ?ss ?g] =>
      pose proof (select_streams_handle lib ss 0 g) as Hs;
      destruct (select_streams lib 0 ss g) as [f t]
  end.
  cbn [fst fmt_ctx set_fmt_ctx] in Hs.
  break_if; cbn [fst snd]; congruence.
Qed.

(** [release] on an open handle whose indices are as the scan leaves
    them. *)
Lemma release_closes f c :
  fmt_ctx f = Some c -> nb_streams c <= INT_MAX ->
  selected_ok lib AVMEDIA_TYPE_VIDEO (streams c) (v_index f) ->
  selected_ok lib AVMEDIA_TYPE_AUDIO (streams c) (a_index f) ->
  snd (release f)
  = (if v_index f <? a_index f
     then closes c (v_index f) ++ closes c (a_index f)
     else closes c (a_index f) ++ closes c (v_index f))
    ++ [Call_avformat_close_input].
Proof.
  intros Hc Hn Hv Ha. unfold release. rewrite Hc. cbn [snd].
  pose proof (selected_ok_bounds _ _ _ Hv) as Bv.
  pose proof (selected_ok_bounds _ _ _ Ha) as Ba.
  unfold nb_streams in Hn.
  rewrite close_decoders_closes;
    [ | lia | unfold UINT_MAX, INT_MAX in *; lia | lia | lia
      | apply (selected_ok_distinct _ _ _ Hv Ha) ].
  rewrite !closes_from_zero. reflexivity.
Qed.

End Teardown.

(** C10: in a run, the state [open_input] leaves is such that a
    nonnegative [v_index] is the position of a video stream whose
    decoder opened, and a nonnegative [a_index] that of an audio stream
    whose decoder opened (nothing assigns the indices or the streams
    afterwards: the loop only reads them, and [release] works on that
    same state); [release] then closes the decoders at the two indices,
    in the order of the container, then the container, and nothing
    else; an index of -1 stands for no position and closes nothing; and
    no decoder is closed before the teardown. *)
Theorem release_closes_selected_decoders :
  forall lib fuel argv,
    (2 <= length argv)%nat -> few_streams lib (nth_error argv 1) ->
    let '(_, f1, _) := open_input lib (nth_error argv 1) inputFile_init in
    let '(t, _, o) := main lib fuel argv in
    (forall c,
        fmt_ctx f1 = Some c ->
        (0 <= v_index f1 ->
         exists s, stream_at c (v_index f1) = Some s /\
                   codec_type (codec s) = AVMEDIA_TYPE_VIDEO /\
                   fst (open_decoder lib (codec s)) = 0)
        /\ (0 <= a_index f1 ->
            exists s, stream_at c (a_index f1) = Some s /\
                      codec_type (codec s) = AVMEDIA_TYPE_AUDIO /\
                      fst (open_decoder lib (codec s)) = 0)
        /\ snd (release f1)
           = (if v_index f1 <? a_index f1
              then closes c (v_index f1) ++ closes c (a_index f1)
              else closes c (a_index f1) ++ closes c (v_index f1))
             ++ [Call_avformat_close_input]
        /\ closes c (-1) = [])
    /\ (fmt_ctx f1 = None -> snd (release f1) = [])
    /\ (forall s, o = Exit s ->
          exists pre, t = pre ++ Enter_release :: snd (release f1) /\
                      count is_close pre = 0%nat).
Proof.
  intros lib fuel argv H Hfew.
  pose proof (open_input_selected lib (nth_error argv 1) inputFile_init Hfew)
    as Hsel.
  pose proof (open_input_few lib (nth_error argv 1) inputFile_init) as Hn.
  pose proof (open_input_actions lib (nth_error argv 1) inputFile_init) as Hact.
  cbv zeta in Hsel.
  assert (Hpre : forall t1, all_of setup_event t1 -> count is_close t1 = 0%nat)
    by (intros t1 Ht; apply (all_of_count_zero setup_event);
        auto using setup_not_close).
  assert (Hloop : forall n f frame,
             count is_close (fst (decode_loop lib fuel n f frame)) = 0%nat)
    by (intros n f frame; apply (all_of_count_zero loop_event);
        auto using decode_loop_actions, loop_not_close).
  destruct (main_paths lib fuel argv H)
    as [r f1 t1 Eo Hneg Em | r f1 t1 Eo Hpos Ef Em
        | r f1 t1 frame t2 Eo Hpos Ef El Em
        | r f1 t1 frame t2 p o Eo Hpos Ef El Hp Em];
    rewrite Em, Eo in *; cbn [fst snd] in Hsel, Hn, Hact;
    rewrite ?main_end_eq; destruct Hsel as (Hv & Ha & _);
    (split;
     [ intros c Hc; specialize (Hn c Hfew Hc);
       unfold streams_of in Hv, Ha; rewrite Hc in Hv, Ha;
       split; [now apply selected_ok_stream|];
       split; [now apply selected_ok_stream|];
       split; [now apply (release_closes lib) | reflexivity]
     | split; [intros Hc; now rewrite release_null|] ]).
  - intros s _. eexists; split; [reflexivity|].
    rewrite count_app, (Hpre t1 Hact). reflexivity.
  - intros s _. eexists; split; [reflexivity|].
    rewrite !count_app, (Hpre t1 Hact). reflexivity.
  - intros s _. eexists; split; [reflexivity|].
    specialize (Hloop 0%nat f1 frame). rewrite El in Hloop. cbn [fst] in Hloop.
    rewrite !count_app, !count_cons, (Hpre t1 Hact), Hloop. reflexivity.
  - intros s E. destruct Hp as [[_ ->]|[_ ->]]; discriminate E.
Qed.

(** The teardown of the audio and video container closes the audio
    decoder, the video decoder and the container. *)
Lemma release_closes_selected_decoders_witness :
  (2 <= length sample_argv)%nat /\
  few_streams audio_video_lib (nth_error sample_argv 1) /\
  snd (release audio_video_file)
  = [Call_avcodec_close (codec audio_stream);
     Call_avcodec_close (codec video_stream); Call_avformat_close_input].
Proof.
  assert (H2 : (2 <= length sample_argv)%nat) by (simpl; lia).
  assert (Hf : few_streams audio_video_lib (nth_error sample_argv 1))
    by (apply few_streams_sample; vm_compute; discriminate).
  split; [exact H2|]. split; [exact Hf|].
  pose proof (release_closes_selected_decoders audio_video_lib 10 sample_argv
                H2 Hf) as H.
  change (open_input audio_video_lib (nth_error sample_argv 1) inputFile_init)
    with (0, audio_video_file,
          snd (open_input audio_video_lib (nth_error sample_argv 1)
                 inputFile_init)) in H.
  cbv iota beta in H.
  destruct (main audio_video_lib 10 sample_argv) as [[t f] o].
  destruct H as (H & _).
  destruct (H _ eq_refl) as (_ & _ & -> & _). reflexivity.
Defined.

(** ** Runs that reach the end of the stream *)

(** With packets that carry nonnegative stream indices, a run given
    more iterations than the position of a read that returns
    [AVERROR_EOF] exits with status 0, after one invocation of
    [release]. *)
Lemma main_exits_with_enough_fuel lib fuel argv k :
  (2 <= length argv)%nat -> few_streams lib (nth_error argv 1) ->
  (forall j, 0 <= stream_index (snd (av_read_frame lib j))) ->
  (k < fuel)%nat -> fst (av_read_frame lib k) = AVERROR_EOF ->
  snd (main lib fuel argv) = Exit 0 /\
  count is_release (fst (fst (main lib fuel argv))) = 1%nat.
Proof.
  intros H Hfew Hpkt Hk He.
  pose proof (release_called_once_paths lib fuel argv H) as Hrel.
  pose proof (open_input_selected lib (nth_error argv 1) inputFile_init Hfew)
    as Hsel.
  pose proof (open_input_handle lib (nth_error argv 1) inputFile_init) as Hh.
  pose proof (open_input_open_failure lib (nth_error argv 1) inputFile_init)
    as Hnull.
  cbv zeta in Hsel.
  destruct (main_paths lib fuel argv H)
    as [r f1 t1 Eo Hneg Em | r f1 t1 Eo Hpos Ef Em
        | r f1 t1 frame t2 Eo Hpos Ef El Em
        | r f1 t1 frame t2 p o Eo Hpos Ef El Hp Em];
    rewrite Em, ?main_end_eq in *; cbn [fst snd] in *;
    try (split; [reflexivity | exact (Hrel 0 eq_refl)]).
  exfalso. rewrite Eo in *. cbn [fst snd] in *.
  destruct Hsel as (Hv & Ha & _).
  destruct (fmt_ctx f1) as [c|] eqn:Ec.
  - unfold streams_of in Hv, Ha. rewrite Ec in Hv, Ha.
    apply selected_ok_bounds in Hv, Ha.
    destruct Hp as [[-> _]|[-> _]].
    + apply (decode_loop_reaches_eof lib f1 fuel 0 frame k);
        [lia | now apply Z.eqb_eq | now rewrite El].
    + apply (decode_loop_no_fault lib f1 c fuel Ec) with (n := 0%nat)
                                                         (frame := frame);
        [unfold nb_streams; lia | unfold nb_streams; lia | assumption
        | now rewrite El].
  - specialize (Hnull (proj1 Hh eq_refl)). injection Hnull as -> _ _. lia.
Qed.

(** * Further properties of the program *)

Ltac conj := repeat match goal with |- _ /\ _ => split end.

(** ** Error behaviour of [open_input] *)

Lemma open_decoder_scan_actions lib codec_ctx :
  all_of scan_event (snd (open_decoder lib codec_ctx)).
Proof.
  unfold open_decoder. repeat break_match; simpl; auto with traces.
Qed.

Lemma select_streams_scan_actions lib rest :
  forall index f, all_of scan_event (snd (select_streams lib index rest f)).
Proof.
  induction rest as [|x rest IH]; intros index f; simpl; auto with traces.
  pose proof (open_decoder_scan_actions lib (codec x)) as Ho.
  destruct (open_decoder lib (codec x)) as [r t]. simpl in Ho.
  repeat break_if; rewrite ?let_pair_app; simpl; auto with traces.
Qed.

Lemma scan_not_printf e : scan_event e = true -> is_printf e = false.
Proof. destruct e; simpl; congruence. Qed.

(** [open_input] returns 0, -1, -2 or -3: -1 exactly when the container
    cannot be opened, -2 exactly when it opens and the probe fails.  A
    return of 0 means that an audio stream was selected and the handle
    is set.  It prints one line when it fails and nothing when it
    succeeds.  After a failed open or probe both indices are -1 and no
    decoder was looked up or opened; after a failed open the handle is
    [NULL] and the probe was not attempted. *)
Theorem open_input_return_codes :
  forall lib filename f0,
    let '(r, f, t) := open_input lib filename f0 in
    (r = 0 \/ r = -1 \/ r = -2 \/ r = -3)
    /\ (r = -1 <-> avformat_open_input lib filename = None)
    /\ (r = -2 <->
        exists c, avformat_open_input lib filename = Some c /\
                  fst (avformat_find_stream_info lib c) < 0)
    /\ (r = 0 -> 0 <= a_index f /\ fmt_ctx f <> None)
    /\ count is_printf t = (if r <? 0 then 1%nat else 0%nat)
    /\ (r = -1 \/ r = -2 ->
        v_index f = -1 /\ a_index f = -1 /\ count scan_event t = 0%nat)
    /\ (r = -1 ->
        fmt_ctx f = None /\ count is_find_stream_info t = 0%nat).
Proof.
  intros lib filename f0. unfold open_input.
  destruct (avformat_open_input lib filename) as [c|].
  - destruct (avformat_find_stream_info lib c) as [r c'] eqn:Ei.
    assert (Hprobe : (exists c0, Some c = Some c0 /\
                        fst (avformat_find_stream_info lib c0) < 0)
                     <-> r < 0).
    { split.
      - intros (c0 & E & H). injection E as <-. now rewrite Ei in H.
      - intros H. exists c. rewrite Ei. auto. }
    destruct (r <? 0) eqn:Er.
    + apply Z.ltb_lt in Er. conj.
      * auto.
      * split; discriminate.
      * split; [intros _; now apply Hprobe | reflexivity].
      * discriminate.
      * reflexivity.
      * intros _. conj; reflexivity.
      * discriminate.
    + apply Z.ltb_ge in Er.
      match goal with
      | |- context [select_streams lib 0 ?ss ?g] =>
          pose proof (select_streams_handle lib ss 0 g) as Hh;
          pose proof (select_streams_scan_actions lib ss 0 g) as Hs;
          destruct (select_streams lib 0 ss g) as [f t]
      end.
      cbn [fst snd fmt_ctx set_fmt_ctx] in Hh, Hs.
      assert (Hp : count is_printf t = 0%nat)
        by (apply (all_of_count_zero scan_event); auto using scan_not_printf).
      destruct (a_index f <? 0) eqn:Ea; cbn [andb]; conj.
      * auto.
      * split; discriminate.
      * split; [discriminate | intros H; apply Hprobe in H; lia].
      * discriminate.
      * cbn [app]. rewrite ?count_cons, ?count_app, Hp. reflexivity.
      * intros [H|H]; discriminate H.
      * discriminate.
      * auto.
      * split; discriminate.
      * split; [discriminate | intros H; apply Hprobe in H; lia].
      * intros _. apply Z.ltb_ge in Ea. split; [exact Ea|].
        rewrite Hh. discriminate.
      * cbn [app]. rewrite ?count_cons, ?count_app, Hp. reflexivity.
      * intros [H|H]; discriminate H.
      * discriminate.
  - conj.
    + auto.
    + split; reflexivity.
    + split; [discriminate | intros (c & E & _); discriminate E].
    + discriminate.
    + reflexivity.
    + intros _. conj; reflexivity.
    + intros _. split; reflexivity.
Qed.

(** At the container of [audio_video_lib] the call succeeds with the
    audio stream selected. *)
Lemma open_input_return_codes_witness :
  let '(r, f, t) := open_input audio_video_lib (Some "input.mp4"%string)
                      inputFile_init in
  r = 0 /\ 0 <= a_index f /\ fmt_ctx f <> None /\ count is_printf t = 0%nat.
Proof.
  pose proof (open_input_return_codes audio_video_lib (Some "input.mp4"%string)
                inputFile_init) as H.
  destruct (open_input audio_video_lib (Some "input.mp4"%string) inputFile_init)
    as [[r f] t] eqn:E.
  destruct H as (_ & _ & _ & H & Hp & _).
  assert (Hr : r = 0) by (vm_compute in E; injection E as <- _ _; reflexivity).
  destruct (H Hr) as [Ha Hf]. rewrite Hr in Hp.
  repeat split; assumption.
Defined.

(** ** Counting the actions of the scan over a run *)

Lemma loop_not_scan e : loop_event e = true -> scan_event e = false.
Proof. destruct e; simpl; congruence. Qed.

Lemma teardown_not_scan e : teardown_event e = true -> scan_event e = false.
Proof. destruct e; simpl; congruence. Qed.

Section ScanCounts.

Variable lib : Library.
Variable p : event -> bool.
Hypothesis p_scan : forall e, scan_event e = false -> p e = false.

(** Actions of the scan occur in [open_input] only, and there only in
    the scan. *)
Lemma open_input_scan_count filename f0 :
  count p (snd (open_input lib filename f0))
  = match avformat_open_input lib filename with
    | None => 0%nat
    | Some c =>
        let (r, c') := avformat_find_stream_info lib c in
        if r <? 0 then 0%nat
        else count p (snd (select_streams lib 0 (streams c')
                             (unselected (Some c'))))
    end.
Proof.
  unfold open_input.
  destruct (avformat_open_input lib filename) as [c|].
  - destruct (avformat_find_stream_info lib c) as [r c'].
    destruct (r <? 0).
    + cbn [snd]. rewrite !count_cons, !p_scan by reflexivity. reflexivity.
    + change (set_fmt_ctx
                (set_v_index (set_a_index (set_fmt_ctx f0 None) (-1)) (-1))
                (Some c')) with (unselected (Some c')).
      destruct (select_streams lib 0 (streams c') (unselected (Some c')))
        as [f t].
      break_if; cbn [snd app];
        rewrite ?count_cons, ?count_app, ?count_cons, !p_scan by reflexivity;
        unfold count; simpl; lia.
  - cbn [snd]. rewrite !count_cons, !p_scan by reflexivity. reflexivity.
Qed.

Lemma main_scan_count fuel argv :
  (2 <= length argv)%nat ->
  count p (fst (fst (main lib fuel argv)))
  = count p (snd (open_input lib (nth_error argv 1) inputFile_init)).
Proof.
  intros H.
  assert (Hrel : forall f, count p (snd (release f)) = 0%nat).
  { intros f. apply (all_of_count_zero teardown_event);
      [apply release_actions | auto using teardown_not_scan]. }
  assert (Hloop : forall n f frame,
             count p (fst (decode_loop lib fuel n f frame)) = 0%nat).
  { intros n f frame. apply (all_of_count_zero loop_event);
      [apply decode_loop_actions | auto using loop_not_scan]. }
  destruct (main_paths lib fuel argv H)
    as [r f1 t1 Eo Hneg Em | r f1 t1 Eo Hpos Ef Em
        | r f1 t1 frame t2 Eo Hpos Ef El Em
        | r f1 t1 frame t2 p0 o Eo Hpos Ef El Hp Em];
    rewrite Em, Eo, ?main_end_eq; cbn [fst snd];
    try (specialize (Hloop 0%nat f1 frame); rewrite El in Hloop;
         cbn [fst] in Hloop);
    rewrite ?count_app, ?count_cons, ?Hrel, ?count_app, ?count_cons, ?Hloop,
      !p_scan by reflexivity;
    unfold count; simpl; lia.
Qed.

End ScanCounts.

(** ** Decoder lookups, opens and closes *)

Lemma open_decoder_counts lib codec_ctx :
  let t := snd (open_decoder lib codec_ctx) in
  count is_find_decoder t = 1%nat /\
  (count is_avcodec_open2 t <= 1)%nat /\
  count (unregistered lib) t = 0%nat /\
  count (opened lib) t
  = (if fst (open_decoder lib codec_ctx) <? 0 then 0%nat else 1%nat).
Proof.
  cbv zeta. unfold count, opened, unregistered, open_decoder.
  destruct (avcodec_find_decoder lib (codec_id codec_ctx)) as [d|] eqn:Ef;
    [destruct (avcodec_open2 lib codec_ctx d <? 0) eqn:Eo|];
    simpl; rewrite ?Ef, ?Eo; simpl; repeat split; lia.
Qed.

Lemma filled_neg i : (i <? 0) = true -> filled i = 0%nat.
Proof. unfold filled. now intros ->. Qed.

Lemma filled_nonneg i : 0 <= i -> filled i = 1%nat.
Proof.
  unfold filled. intros H.
  replace (i <? 0) with false by (symmetry; now apply Z.ltb_ge). reflexivity.
Qed.

(** Bookkeeping of a scan: every decoder lookup is for a kind not yet
    filled, every successful open fills one index, and a context is
    passed to [avcodec_open2] only after its decoder was found. *)
Lemma select_streams_counts lib rest :
  forall index f,
    0 <= index -> index + Z.of_nat (length rest) <= INT_MAX ->
    let f' := fst (select_streams lib index rest f) in
    let t := snd (select_streams lib index rest f) in
    (count is_find_decoder t + filled (v_index f) + filled (a_index f) <= 2)%nat
    /\ (count (opened lib) t + filled (v_index f) + filled (a_index f)
        = filled (v_index f') + filled (a_index f'))%nat
    /\ (count is_avcodec_open2 t <= count is_find_decoder t)%nat
    /\ count (unregistered lib) t = 0%nat.
Proof.
  induction rest as [|x rest IH]; intros index f H0 Hn; cbv zeta.
  - unfold count, filled. simpl.
    destruct (v_index f <? 0), (a_index f <? 0); repeat split; lia.
  - assert (Hn' : index + 1 + Z.of_nat (length rest) <= INT_MAX)
      by (simpl length in Hn; lia).
    assert (Hi : to_int index = index)
      by (apply to_int_small; simpl length in Hn; lia).
    assert (Hfi : filled index = 1%nat) by now apply filled_nonneg.
    pose proof (open_decoder_counts lib (codec x)) as (Of & O2 & Ou & Oo).
    cbn [select_streams]. cbv zeta.
    destruct (AVMediaType_eqb (codec_type (codec x)) AVMEDIA_TYPE_VIDEO
              && (v_index f <? 0)) eqn:Ev.
    { apply andb_true_iff in Ev. destruct Ev as [_ Ev].
      apply filled_neg in Ev.
      destruct (open_decoder lib (codec x)) as [r t0]. cbn [fst snd] in *.
      destruct (r <? 0); cbn [fst snd].
      - unfold filled in *. destruct (a_index f <? 0); repeat split; lia.
      - rewrite let_pair_app. cbn [fst snd]. rewrite !count_app, Hi.
        specialize (IH (index + 1) (set_v_index f index)).
        cbv zeta in IH. cbn [v_index a_index set_v_index] in IH.
        destruct IH as (I1 & I2 & I3 & I4); [lia | lia |].
        rewrite Hfi in *. repeat split; lia. }
    destruct (AVMediaType_eqb (codec_type (codec x)) AVMEDIA_TYPE_AUDIO
              && (a_index f <? 0)) eqn:Ea.
    { apply andb_true_iff in Ea. destruct Ea as [_ Ea].
      apply filled_neg in Ea.
      destruct (open_decoder lib (codec x)) as [r t0]. cbn [fst snd] in *.
      destruct (r <? 0); cbn [fst snd].
      - unfold filled in *. destruct (v_index f <? 0); repeat split; lia.
      - rewrite let_pair_app. cbn [fst snd]. rewrite !count_app, Hi.
        specialize (IH (index + 1) (set_a_index f index)).
        cbv zeta in IH. cbn [v_index a_index set_a_index] in IH.
        destruct IH as (I1 & I2 & I3 & I4); [lia | lia |].
        rewrite Hfi in *. repeat split; lia. }
    apply IH; lia.
Qed.

Lemma scan_only_find_decoder e : scan_event e = false -> is_find_decoder e = false.
Proof. destruct e; simpl; congruence. Qed.

Lemma scan_only_open2 e : scan_event e = false -> is_avcodec_open2 e = false.
Proof. destruct e; simpl; congruence. Qed.

Lemma scan_only_unregistered lib e :
  scan_event e = false -> unregistered lib e = false.
Proof. destruct e; simpl; congruence. Qed.

Lemma scan_only_opened lib e : scan_event e = false -> opened lib e = false.
Proof. destruct e; simpl; congruence. Qed.

(** The state [open_input] leaves, by cases on the answers of the
    library. *)
Lemma open_input_state lib filename f0 :
  snd (fst (open_input lib filename f0))
  = match avformat_open_input lib filename with
    | None => unselected None
    | Some c =>
        let (r, c') := avformat_find_stream_info lib c in
        if r <? 0 then unselected (Some c')
        else fst (select_streams lib 0 (streams c') (unselected (Some c')))
    end.
Proof.
  unfold open_input.
  destruct (avformat_open_input lib filename) as [c|]; [|reflexivity].
  destruct (avformat_find_stream_info lib c) as [r c'].
  destruct (r <? 0); [reflexivity|].
  change (set_fmt_ctx
            (set_v_index (set_a_index (set_fmt_ctx f0 None) (-1)) (-1))
            (Some c')) with (unselected (Some c')).
  destruct (select_streams lib 0 (streams c') (unselected (Some c')))
    as [f t].
  break_if; reflexivity.
Qed.

(** Over a whole run at most two decoders are looked up, whatever the
    number of streams; [avcodec_open2] is called at most as often as
    [avcodec_find_decoder], and never on a codec context whose codec id
    has no registered decoder. *)
Theorem decoder_lookups_bounded :
  forall lib fuel argv,
    (2 <= length argv)%nat -> few_streams lib (nth_error argv 1) ->
    let t := fst (fst (main lib fuel argv)) in
    (count is_find_decoder t <= 2)%nat /\
    (count is_avcodec_open2 t <= count is_find_decoder t)%nat /\
    count (unregistered lib) t = 0%nat.
Proof.
  intros lib fuel argv H Hfew. cbv zeta.
  rewrite (main_scan_count lib is_find_decoder scan_only_find_decoder),
    (main_scan_count lib is_avcodec_open2 scan_only_open2),
    (main_scan_count lib (unregistered lib) (scan_only_unregistered lib))
    by assumption.
  rewrite (open_input_scan_count lib is_find_decoder scan_only_find_decoder),
    (open_input_scan_count lib is_avcodec_open2 scan_only_open2),
    (open_input_scan_count lib (unregistered lib) (scan_only_unregistered lib)).
  unfold few_streams in Hfew.
  destruct (avformat_open_input lib (nth_error argv 1)) as [c|];
    [|repeat split; lia].
  specialize (Hfew c eq_refl).
  destruct (avformat_find_stream_info lib c) as [r c']. cbn [snd] in Hfew.
  destruct (r <? 0); [repeat split; lia|].
  destruct (select_streams_counts lib (streams c') 0 (unselected (Some c')))
    as (I1 & _ & I3 & I4); [lia | unfold nb_streams in Hfew; lia |].
  cbn [unselected v_index a_index filled] in I1. simpl in I1.
  repeat split; [lia | assumption | assumption].
Qed.

(** On a container of three streams whose first video decoder is
    missing, the run makes two lookups and one open. *)
Lemma decoder_lookups_bounded_witness :
  (2 <= length sample_argv)%nat /\
  few_streams no_h264_lib (nth_error sample_argv 1) /\
  let t := fst (fst (main no_h264_lib 10 sample_argv)) in
  (count is_find_decoder t <= 2)%nat /\
  (count is_avcodec_open2 t <= count is_find_decoder t)%nat /\
  count (unregistered no_h264_lib) t = 0%nat.
Proof.
  assert (H2 : (2 <= length sample_argv)%nat) by (simpl; lia).
  assert (Hf : few_streams no_h264_lib (nth_error sample_argv 1))
    by (apply few_streams_sample; vm_compute; discriminate).
  split; [exact H2|]. split; [exact Hf|].
  exact (decoder_lookups_bounded no_h264_lib 10 sample_argv H2 Hf).
Defined.

(** ** Resources over a run *)

(** The outcome of a run that was given its argument, and the number
    of its actions of any kind, by parts. *)
Lemma main_outcome lib fuel argv :
  (2 <= length argv)%nat ->
  let '(r, f1, _) := open_input lib (nth_error argv 1) inputFile_init in
  snd (main lib fuel argv)
  = if r <? 0 then Exit 0
    else match av_frame_alloc lib with
         | None => Exit 0
         | Some frame =>
             match snd (decode_loop lib fuel 0 f1 frame) with
             | Finished => Exit 0
             | Looping => Running
             | Faulted => Undefined
             end
         end.
Proof.
  intros H. rewrite (main_run lib fuel argv H). cbv zeta.
  destruct (open_input lib (nth_error argv 1) inputFile_init) as [[r f1] t1].
  destruct (r <? 0); [now rewrite main_end_eq|].
  destruct (av_frame_alloc lib) as [frame|]; [|now rewrite main_end_eq].
  destruct (decode_loop lib fuel 0 f1 frame) as [t2 []];
    rewrite ?main_end_eq; reflexivity.
Qed.

Lemma main_count p lib fuel argv :
  (2 <= length argv)%nat ->
  let '(r, f1, t1) := open_input lib (nth_error argv 1) inputFile_init in
  let teardown := count p (Enter_release :: snd (release f1)) in
  count p (fst (fst (main lib fuel argv)))
  = (count p [Call_av_register_all; Call_av_log_set_level AV_LOG_DEBUG]
     + count p t1
     + (if Z.ltb r 0 then teardown
        else
          count p [Call_av_frame_alloc]
          + match av_frame_alloc lib with
            | None => teardown
            | Some frame =>
                count p (fst (decode_loop lib fuel 0 f1 frame))
                + match snd (decode_loop lib fuel 0 f1 frame) with
                  | Finished => count p [Call_av_frame_free] + teardown
                  | _ => 0
                  end
            end))%nat.
Proof.
  intros H. rewrite (main_run lib fuel argv H). cbv zeta.
  destruct (open_input lib (nth_error argv 1) inputFile_init) as [[r f1] t1].
  cbv zeta.
  destruct (r <? 0);
    [rewrite main_end_eq; cbn [fst]; cbv iota; rewrite !count_app; lia|].
  destruct (av_frame_alloc lib) as [frame|];
    [|rewrite main_end_eq; cbn [fst]; cbv iota; rewrite !count_app; lia].
  destruct (decode_loop lib fuel 0 f1 frame) as [t2 []];
    rewrite ?main_end_eq; cbn [fst snd]; cbv iota;
    rewrite !count_app, (count_cons p Call_av_frame_alloc), ?count_app;
    rewrite (count_cons p Call_av_frame_alloc []);
    change (count p []) with 0%nat; lia.
Qed.

Ltac class_zero cls acts :=
  apply (all_of_count_zero cls); [apply acts | intros []; simpl; congruence].

Lemma close_decoders_only_closes rest :
  forall index f, all_of is_close (close_decoders index rest f).
Proof.
  induction rest as [|x rest IH]; intros index f; simpl; auto with traces.
  break_if; simpl; auto with traces.
Qed.

Lemma release_close_input f :
  count is_close_input (snd (release f))
  = match fmt_ctx f with Some _ => 1%nat | None => 0%nat end.
Proof.
  unfold release. destruct (fmt_ctx f) as [c|]; [|reflexivity].
  cbn [snd]. rewrite count_app.
  rewrite (all_of_count_zero is_close is_close_input)
    by (try apply close_decoders_only_closes; intros []; simpl; congruence).
  reflexivity.
Qed.

Lemma open_input_opens_once lib filename f0 :
  count is_open_input (snd (open_input lib filename f0)) = 1%nat.
Proof.
  unfold open_input.
  destruct (avformat_open_input lib filename) as [c|]; [|reflexivity].
  destruct (avformat_find_stream_info lib c) as [r c'].
  destruct (r <? 0); [reflexivity|].
  match goal with
  | |- context [select_streams lib 0 ?ss ?g] =>
      pose proof (select_streams_scan_actions lib ss 0 g) as Hs;
      destruct (select_streams lib 0 ss g) as [f t]
  end.
  cbn [snd] in Hs.
  assert (Hz : count is_open_input t = 0%nat)
    by (apply (all_of_count_zero scan_event);
        [assumption | intros []; simpl; congruence]).
  break_if; cbn [snd app]; rewrite ?count_cons, ?count_app, Hz; reflexivity.
Qed.

(** A run that was given its argument calls [avformat_open_input]
    once.  When it exits, it has called [avformat_close_input] once if
    the container was opened and not at all otherwise, and the handle
    is [NULL] again; while it is still decoding (or has left defined
    behaviour) the container has not been closed. *)
Theorem container_closed_iff_opened :
  forall lib fuel argv,
    (2 <= length argv)%nat ->
    let '(t, f, o) := main lib fuel argv in
    count is_open_input t = 1%nat
    /\ count is_close_input t
       = match o, avformat_open_input lib (nth_error argv 1) with
         | Exit _, Some _ => 1%nat
         | _, _ => 0%nat
         end
    /\ match o with Exit _ => fmt_ctx f = None | _ => fmt_ctx f <> None end.
Proof.
  intros lib fuel argv H.
  pose proof (main_count is_open_input lib fuel argv H) as Ho.
  pose proof (main_count is_close_input lib fuel argv H) as Hc.
  pose proof (main_outcome lib fuel argv H) as Hout.
  pose proof (open_input_opens_once lib (nth_error argv 1) inputFile_init) as H1.
  pose proof (open_input_handle lib (nth_error argv 1) inputFile_init) as Hh.
  pose proof (open_input_open_failure lib (nth_error argv 1) inputFile_init)
    as Hnull.
  assert (Hs : count is_close_input
                 (snd (open_input lib (nth_error argv 1) inputFile_init))
               = 0%nat) by class_zero setup_event open_input_actions.
  assert (Hlo : forall f frame,
             count is_open_input (fst (decode_loop lib fuel 0 f frame)) = 0%nat)
    by (intros; class_zero loop_event decode_loop_actions).
  assert (Hlc : forall f frame,
             count is_close_input (fst (decode_loop lib fuel 0 f frame)) = 0%nat)
    by (intros; class_zero loop_event decode_loop_actions).
  assert (Hro : forall f, count is_open_input (snd (release f)) = 0%nat)
    by (intros; class_zero teardown_event release_actions).
  pose proof (main_paths lib fuel argv H) as Hpath.
  destruct (open_input lib (nth_error argv 1) inputFile_init)
    as [[r f1] t1] eqn:Eo.
  cbn [fst snd] in *. cbv zeta in Ho, Hc.
  destruct (main lib fuel argv) as [[t f] o] eqn:Em. cbn [fst snd] in *.
  rewrite !count_cons, ?Hro, ?Hlo, ?Hlc, ?release_close_input, H1 in Ho.
  rewrite !count_cons, ?Hro, ?Hlo, ?Hlc, ?release_close_input, Hs in Hc.
  cbn [is_open_input is_close_input] in Ho, Hc.
  change (count is_open_input []) with 0%nat in Ho.
  change (count is_close_input []) with 0%nat in Hc.
  assert (Hf1 : fmt_ctx f1 = None <-> avformat_open_input lib (nth_error argv 1)
                                      = None) by exact Hh.
  assert (Hstate : match o with
                   | Exit _ => f = fst (release f1)
                   | _ => f = f1 /\ 0 <= r
                   end).
  { destruct Hpath
      as [r' f' t' Eo' Hneg Em' | r' f' t' Eo' Hpos Ef Em'
          | r' f' t' frame t2 Eo' Hpos Ef El Em'
          | r' f' t' frame t2 p o' Eo' Hpos Ef El Hp Em'];
      rewrite Eo in Eo'; injection Eo' as <- <- <-;
      rewrite Em, ?main_end_eq in Em'; injection Em' as -> -> ->;
      try reflexivity.
    destruct Hp as [[_ ->]|[_ ->]]; split; auto. }
  split.
  - rewrite Ho. destruct (r <? 0); [lia|].
    destruct (av_frame_alloc lib) as [frame|]; [|lia].
    rewrite Hlo. destruct (snd (decode_loop lib fuel 0 f1 frame)); lia.
  - split.
    + rewrite Hc.
      assert (Hx : match fmt_ctx f1 with Some _ => 1%nat | None => 0%nat end
                   = match avformat_open_input lib (nth_error argv 1) with
                     | Some _ => 1%nat | None => 0%nat end).
      { destruct (fmt_ctx f1), (avformat_open_input lib (nth_error argv 1));
          try reflexivity.
        - destruct Hf1 as [_ Hf1]. discriminate (Hf1 eq_refl).
        - destruct Hf1 as [Hf1 _]. discriminate (Hf1 eq_refl). }
      rewrite Hout.
      destruct (r <? 0); [simpl; rewrite Hx;
                          now destruct (avformat_open_input lib _)|].
      destruct (av_frame_alloc lib) as [frame|];
        [|simpl; rewrite Hx; now destruct (avformat_open_input lib _)].
      rewrite Hlc.
      destruct (snd (decode_loop lib fuel 0 f1 frame)); simpl;
        rewrite ?Hx; now destruct (avformat_open_input lib _).
    + destruct o; [subst f; apply release_indices| |];
        destruct Hstate as [-> Hr]; intros E; apply Hf1 in E;
        specialize (Hnull E); injection Hnull as -> _ _; lia.
Qed.

(** A run to the end of the stream opens and closes the container of
    [audio_video_lib] once. *)
Lemma container_closed_iff_opened_witness :
  (2 <= length sample_argv)%nat /\
  let '(t, f, _) := main audio_video_lib 10 sample_argv in
  count is_open_input t = 1%nat /\ count is_close_input t = 1%nat /\
  fmt_ctx f = None.
Proof.
  assert (H2 : (2 <= length sample_argv)%nat) by (simpl; lia).
  split; [exact H2|].
  pose proof (container_closed_iff_opened audio_video_lib 10 sample_argv H2)
    as H.
  destruct (main audio_video_lib 10 sample_argv) as [[t f] o] eqn:Em.
  assert (Ho : o = Exit 0)
    by (vm_compute in Em; injection Em as _ _ <-; reflexivity).
  subst o. exact H.
Defined.

(** The frame buffer: [av_frame_alloc] is called once if [open_input]
    succeeded and not at all otherwise; [av_frame_free] is called once
    in a run that exits after a successful allocation, and never
    otherwise (not after a failed allocation, not after a failed
    [open_input], not while the loop runs). *)
Theorem frame_buffer_balance :
  forall lib fuel argv,
    (2 <= length argv)%nat ->
    let '(r, _, _) := open_input lib (nth_error argv 1) inputFile_init in
    let '(t, _, o) := main lib fuel argv in
    count is_frame_alloc t = (if r <? 0 then 0%nat else 1%nat)
    /\ count is_frame_free t
       = match o, av_frame_alloc lib with
         | Exit _, Some _ => if r <? 0 then 0%nat else 1%nat
         | _, _ => 0%nat
         end.
Proof.
  intros lib fuel argv H.
  pose proof (main_count is_frame_alloc lib fuel argv H) as Ha.
  pose proof (main_count is_frame_free lib fuel argv H) as Hf.
  pose proof (main_outcome lib fuel argv H) as Hout.
  assert (Hsa : count is_frame_alloc
                  (snd (open_input lib (nth_error argv 1) inputFile_init))
                = 0%nat) by class_zero setup_event open_input_actions.
  assert (Hsf : count is_frame_free
                  (snd (open_input lib (nth_error argv 1) inputFile_init))
                = 0%nat) by class_zero setup_event open_input_actions.
  assert (Hla : forall f frame,
             count is_frame_alloc (fst (decode_loop lib fuel 0 f frame)) = 0%nat)
    by (intros; class_zero loop_event decode_loop_actions).
  assert (Hlf : forall f frame,
             count is_frame_free (fst (decode_loop lib fuel 0 f frame)) = 0%nat)
    by (intros; class_zero loop_event decode_loop_actions).
  assert (Hra : forall f, count is_frame_alloc (snd (release f)) = 0%nat)
    by (intros; class_zero teardown_event release_actions).
  assert (Hrf : forall f, count is_frame_free (snd (release f)) = 0%nat)
    by (intros; class_zero teardown_event release_actions).
  destruct (open_input lib (nth_error argv 1) inputFile_init)
    as [[r f1] t1] eqn:Eo.
  cbn [fst snd] in *. cbv zeta in Ha, Hf.
  destruct (main lib fuel argv) as [[t f] o] eqn:Em. cbn [fst snd] in *.
  rewrite !count_cons, ?Hra, ?Hrf, ?Hla, ?Hlf, Hsa in Ha.
  rewrite !count_cons, ?Hra, ?Hrf, ?Hla, ?Hlf, Hsf in Hf.
  cbn [is_frame_alloc is_frame_free] in Ha, Hf.
  change (count is_frame_alloc []) with 0%nat in Ha.
  change (count is_frame_free []) with 0%nat in Hf.
  rewrite Ha, Hf, Hout. clear Ha Hf Hout.
  destruct (r <? 0); [destruct (av_frame_alloc lib); split; reflexivity|].
  destruct (av_frame_alloc lib) as [frame|]; [|split; reflexivity].
  rewrite Hla, Hlf.
  destruct (snd (decode_loop lib fuel 0 f1 frame)); split; reflexivity.
Qed.

(** When the allocation fails the run exits without freeing a frame. *)
Lemma frame_buffer_balance_witness :
  (2 <= length sample_argv)%nat /\
  let '(t, _, _) := main no_frame_lib 10 sample_argv in
  count is_frame_alloc t = 1%nat /\ count is_frame_free t = 0%nat.
Proof.
  assert (H2 : (2 <= length sample_argv)%nat) by (simpl; lia).
  split; [exact H2|].
  pose proof (frame_buffer_balance no_frame_lib 10 sample_argv H2) as H.
  destruct (open_input no_frame_lib (nth_error sample_argv 1) inputFile_init)
    as [[r f1] t1] eqn:Eo.
  destruct (main no_frame_lib 10 sample_argv) as [[t f] o].
  assert (Hr : r = 0)
    by (vm_compute in Eo; injection Eo as <- _ _; reflexivity).
  subst r. destruct H as [Ha Hf]. split; [exact Ha|].
  rewrite Hf. destruct o; reflexivity.
Defined.

Lemma closes_count lib k c i :
  selected_ok lib k (streams c) i -> count is_close (closes c i) = filled i.
Proof.
  intros H. destruct (Z.eq_dec i (-1)) as [->|N]; [reflexivity|].
  assert (H0 : 0 <= i) by (destruct H as [H|[H _]]; [contradiction | exact H]).
  destruct (selected_ok_stream lib k c i H H0) as (s & Hs & _).
  unfold closes. rewrite Hs, filled_nonneg by assumption. reflexivity.
Qed.

(** [release] closes as many decoders as indices are filled. *)
Lemma release_close_count lib f c :
  fmt_ctx f = Some c -> nb_streams c <= INT_MAX ->
  selected_ok lib AVMEDIA_TYPE_VIDEO (streams c) (v_index f) ->
  selected_ok lib AVMEDIA_TYPE_AUDIO (streams c) (a_index f) ->
  count is_close (snd (release f))
  = (filled (v_index f) + filled (a_index f))%nat.
Proof.
  intros Hc Hn Hv Ha.
  rewrite (release_closes lib f c Hc Hn Hv Ha).
  pose proof (closes_count lib _ c _ Hv) as Cv.
  pose proof (closes_count lib _ c _ Ha) as Ca.
  destruct (v_index f <? a_index f); rewrite !count_app, Cv, Ca;
    unfold count; simpl; lia.
Qed.

(** Every decoder that [open_decoder] opened is closed when the run
    exits, and only those: the successful opens of a run are as many as
    the indices [open_input] filled, and a run that exits has closed as
    many decoders as it opened; a run still decoding has closed none.
    This holds on the failure paths of [open_input] as well. *)
Theorem decoders_closed_iff_opened :
  forall lib fuel argv,
    (2 <= length argv)%nat -> few_streams lib (nth_error argv 1) ->
    let '(_, f1, _) := open_input lib (nth_error argv 1) inputFile_init in
    let '(t, _, o) := main lib fuel argv in
    count (opened lib) t = (filled (v_index f1) + filled (a_index f1))%nat
    /\ count is_close t
       = match o with Exit _ => count (opened lib) t | _ => 0%nat end.
Proof.
  intros lib fuel argv H Hfew.
  pose proof (main_scan_count lib (opened lib) (scan_only_opened lib)
                fuel argv H) as Hop.
  rewrite (open_input_scan_count lib (opened lib) (scan_only_opened lib)) in Hop.
  pose proof (open_input_state lib (nth_error argv 1) inputFile_init) as Hst.
  pose proof (main_count is_close lib fuel argv H) as Hc.
  pose proof (main_outcome lib fuel argv H) as Hout.
  pose proof (open_input_selected lib (nth_error argv 1) inputFile_init Hfew)
    as Hsel.
  pose proof (open_input_few lib (nth_error argv 1) inputFile_init) as Hn.
  assert (Hs : count is_close
                 (snd (open_input lib (nth_error argv 1) inputFile_init))
               = 0%nat) by class_zero setup_event open_input_actions.
  assert (Hl : forall f frame,
             count is_close (fst (decode_loop lib fuel 0 f frame)) = 0%nat)
    by (intros; class_zero loop_event decode_loop_actions).
  cbv zeta in Hsel.
  destruct (open_input lib (nth_error argv 1) inputFile_init)
    as [[r f1] t1] eqn:Eo.
  cbn [fst snd] in *. cbv zeta in Hc.
  destruct (main lib fuel argv) as [[t f] o] eqn:Em. cbn [fst snd] in *.
  destruct Hsel as (Hv & Ha & _).
  assert (Hopened : count (opened lib) t
                    = (filled (v_index f1) + filled (a_index f1))%nat).
  { rewrite Hop, Hst. unfold few_streams in Hfew.
    destruct (avformat_open_input lib (nth_error argv 1)) as [c|];
      [|reflexivity].
    specialize (Hfew c eq_refl).
    destruct (avformat_find_stream_info lib c) as [r' c']. cbn [snd] in Hfew.
    destruct (r' <? 0); [reflexivity|].
    destruct (select_streams_counts lib (streams c') 0 (unselected (Some c')))
      as (_ & I2 & _); [lia | unfold nb_streams in Hfew; lia |].
    cbn [unselected v_index a_index] in I2.
    change (filled (-1)) with 0%nat in I2. lia. }
  assert (Hrel : count is_close (snd (release f1))
                 = (filled (v_index f1) + filled (a_index f1))%nat).
  { destruct (fmt_ctx f1) as [c|] eqn:Ec.
    - unfold streams_of in Hv, Ha. rewrite Ec in Hv, Ha.
      apply (release_close_count lib f1 c Ec); auto.
    - rewrite (release_null f1 Ec).
      destruct Hv as [->|[_ (s & Hs' & _)]];
        [|unfold streams_of in Hs'; rewrite Ec in Hs';
          now rewrite nth_error_nil in Hs'].
      destruct Ha as [->|[_ (s & Hs' & _)]];
        [|unfold streams_of in Hs'; rewrite Ec in Hs';
          now rewrite nth_error_nil in Hs'].
      reflexivity. }
  split; [exact Hopened|].
  rewrite Hc, Hout, Hopened, Hs, !count_cons, Hrel.
  cbn [is_close]. change (count is_close []) with 0%nat.
  destruct (r <? 0); [lia|].
  destruct (av_frame_alloc lib) as [frame|]; [|lia].
  rewrite Hl. destruct (snd (decode_loop lib fuel 0 f1 frame)); lia.
Qed.

(** The video-only container: the run fails in [open_input] after the
    video decoder was opened, and closes it before exiting. *)
Lemma decoders_closed_iff_opened_witness :
  (2 <= length sample_argv)%nat /\
  few_streams video_only_lib (nth_error sample_argv 1) /\
  let '(t, _, _) := main video_only_lib 10 sample_argv in
  count (opened video_only_lib) t = 1%nat /\ count is_close t = 1%nat.
Proof.
  assert (H2 : (2 <= length sample_argv)%nat) by (simpl; lia).
  assert (Hf : few_streams video_only_lib (nth_error sample_argv 1))
    by (apply few_streams_sample; vm_compute; discriminate).
  split; [exact H2|]. split; [exact Hf|].
  pose proof (decoders_closed_iff_opened video_only_lib 10 sample_argv H2 Hf)
    as H.
  destruct (open_input video_only_lib (nth_error sample_argv 1) inputFile_init)
    as [[r f1] t1] eqn:Eo.
  destruct (main video_only_lib 10 sample_argv) as [[t f] o] eqn:Em.
  assert (Hs : f1 = {| fmt_ctx := Some {| streams := [video_stream] |};
                       v_index := 0; a_index := -1 |})
    by (vm_compute in Eo; injection Eo as _ <- _; reflexivity).
  assert (Ho : o = Exit 0)
    by (vm_compute in Em; injection Em as _ _ <-; reflexivity).
  subst f1 o. destruct H as [H1 H3]. rewrite H3, H1. split; reflexivity.
Defined.

(** ** Packets and output of the decode loop *)

Lemma report_blocks_app t u :
  report_blocks (t ++ u) = (report_blocks t + report_blocks u)%nat.
Proof.
  unfold report_blocks, video_blocks, audio_blocks. rewrite !count_app. lia.
Qed.

(** One iteration: one read; the packet is released unless the read
    signalled the end of the stream (or the iteration faulted); three
    lines are printed per report and one at the end of the stream. *)
Lemma loop_body_balance lib n f frame :
  let t := fst (loop_body lib n f frame) in
  let st := snd (loop_body lib n f frame) in
  count is_read t = 1%nat
  /\ count is_free_packet t
     = match st with Continue _ => 1%nat | _ => 0%nat end
  /\ count is_printf t = (3 * report_blocks t + end_of_frame_lines t)%nat
  /\ count is_unref t = report_blocks t
  /\ separators t = report_blocks t
  /\ (report_blocks t <= count is_decode t)%nat
  /\ end_of_frame_lines t = match st with Break => 1%nat | _ => 0%nat end.
Proof.
  cbv zeta. unfold loop_body.
  destruct (av_read_frame lib n) as [ret pkt].
  destruct (ret =? AVERROR_EOF); [vm_compute; repeat split; lia|].
  destruct (negb _ && negb _); [vm_compute; repeat split; lia|].
  destruct (fmt_ctx f) as [c|]; [|vm_compute; repeat split; lia].
  destruct (stream_at c (stream_index pkt)) as [s|];
    [|vm_compute; repeat split; lia].
  unfold decode_packet, report.
  destruct (AVMediaType_eqb (codec_type (codec s)) AVMEDIA_TYPE_VIDEO);
    cbv beta iota zeta;
    match goal with
    | |- context [if ?c then _ else _] => destruct c
    end;
    vm_compute; repeat split; lia.
Qed.

(** Every packet read is released exactly once: while the loop runs it
    has made as many reads as iterations and released each packet; when
    it has stopped, the only read without a release is the last one
    (the read that signalled the end of the stream, or the one on which
    the iteration faulted). *)
Theorem packets_read_are_freed :
  forall lib fuel n f frame,
    let t := fst (decode_loop lib fuel n f frame) in
    (count is_read t <= fuel)%nat
    /\ match snd (decode_loop lib fuel n f frame) with
       | Looping =>
           count is_read t = fuel /\ count is_free_packet t = fuel
       | Finished | Faulted =>
           count is_read t = S (count is_free_packet t)
       end.
Proof.
  intros lib fuel n f. cbv zeta. revert n.
  induction fuel as [|fuel IH]; intros n frame.
  - vm_compute. repeat split; lia.
  - rewrite decode_loop_S.
    pose proof (loop_body_balance lib n f frame) as (Hr & Hf & _).
    destruct (loop_body lib n f frame) as [t [ | frame' | ]];
      cbn [fst snd] in *.
    + split; lia.
    + specialize (IH (S n) frame').
      destruct (decode_loop lib fuel (S n) f frame') as [t' p].
      cbn [fst snd] in *. rewrite !count_app, Hr, Hf.
      destruct IH as [I1 I2]. split; [lia|].
      destruct p; lia.
    + split; lia.
Qed.

Lemma loop_output_balance lib fuel n f frame :
  let t := fst (decode_loop lib fuel n f frame) in
  count is_printf t = (3 * report_blocks t + end_of_frame_lines t)%nat
  /\ count is_unref t = report_blocks t
  /\ separators t = report_blocks t
  /\ (report_blocks t <= count is_decode t)%nat
  /\ end_of_frame_lines t
     = match snd (decode_loop lib fuel n f frame) with
       | Finished => 1%nat
       | _ => 0%nat
       end.
Proof.
  cbv zeta. revert n frame.
  induction fuel as [|fuel IH]; intros n frame.
  - vm_compute. repeat split; lia.
  - rewrite decode_loop_S.
    pose proof (loop_body_balance lib n f frame)
      as (_ & _ & Hp & Hu & Hs & Hd & He).
    destruct (loop_body lib n f frame) as [t [ | frame' | ]];
      cbn [fst snd] in *.
    + repeat split; assumption.
    + specialize (IH (S n) frame').
      destruct (decode_loop lib fuel (S n) f frame') as [t' p].
      cbn [fst snd] in *. destruct IH as (Ip & Iu & Is & Id & Ie).
      unfold separators, end_of_frame_lines in *.
      rewrite !report_blocks_app, !count_app.
      repeat split; lia.
    + repeat split; assumption.
Qed.

Lemma loop_body_report_order lib n f frame :
  forall prev t',
    report_order prev (fst (loop_body lib n f frame) ++ t')
    = report_order false t'.
Proof.
  intros prev t'. unfold loop_body.
  destruct (av_read_frame lib n) as [ret pkt].
  destruct (ret =? AVERROR_EOF); [vm_compute; reflexivity|].
  destruct (negb _ && negb _); [vm_compute; reflexivity|].
  destruct (fmt_ctx f) as [c|]; [|vm_compute; reflexivity].
  destruct (stream_at c (stream_index pkt)) as [s|];
    [|vm_compute; reflexivity].
  unfold decode_packet, report.
  destruct (AVMediaType_eqb (codec_type (codec s)) AVMEDIA_TYPE_VIDEO);
    cbv beta iota zeta;
    match goal with
    | |- context [if ?c then _ else _] => destruct c
    end;
    vm_compute; reflexivity.
Qed.

Lemma decode_loop_report_order lib f fuel :
  forall n frame prev,
    report_order prev (fst (decode_loop lib fuel n f frame)) = true.
Proof.
  induction fuel as [|fuel IH]; intros n frame prev; [reflexivity|].
  rewrite decode_loop_S.
  pose proof (loop_body_report_order lib n f frame prev) as Hb.
  destruct (loop_body lib n f frame) as [t [ | frame' | ]];
    cbn [fst snd] in *.
  - specialize (Hb []). rewrite app_nil_r in Hb. rewrite Hb. reflexivity.
  - specialize (IH (S n) frame' false).
    destruct (decode_loop lib fuel (S n) f frame') as [t' p].
    cbn [fst] in *. rewrite Hb. exact IH.
  - specialize (Hb []). rewrite app_nil_r in Hb. rewrite Hb. reflexivity.
Qed.

(** What the loop prints: three lines for each report block (the
    separator and two lines of the kind) and the "End of frame" line,
    once, exactly when the loop has finished; there are at most as many
    reports as decode calls.  The actions of a report come in this
    order, each immediately after the other: the separator, the first
    line, the second line of the same kind, one [av_frame_unref], and
    the release of the packet; [av_frame_unref] is called nowhere else,
    so every report is followed by exactly one [av_frame_unref]. *)
Theorem loop_output_shape :
  forall lib fuel n f frame,
    let t := fst (decode_loop lib fuel n f frame) in
    count is_printf t = (3 * report_blocks t + end_of_frame_lines t)%nat
    /\ count is_unref t = report_blocks t
    /\ separators t = report_blocks t
    /\ (report_blocks t <= count is_decode t)%nat
    /\ end_of_frame_lines t
       = match snd (decode_loop lib fuel n f frame) with
         | Finished => 1%nat
         | _ => 0%nat
         end
    /\ followed_by is_separator first_line t = true
    /\ followed_by video_line1 video_line2 t = true
    /\ followed_by audio_line1 audio_line2 t = true
    /\ followed_by second_line is_unref t = true
    /\ followed_by is_unref is_free_packet t = true
    /\ preceded_by second_line is_unref t = true
    /\ preceded_by is_separator first_line t = true.
Proof.
  intros lib fuel n f frame. cbv zeta.
  pose proof (loop_output_balance lib fuel n f frame) as (H1 & H2 & H3 & H4 & H5).
  pose proof (decode_loop_report_order lib f fuel n frame false) as Ho.
  unfold report_order in Ho.
  repeat (apply andb_true_iff in Ho; destruct Ho as [Ho ?]).
  unfold preceded_by. repeat split; assumption.
Qed.

(** ** Dispatch by kind *)

Section Dispatch.

Variable lib : Library.
Variable f : FileContext.
Variable c : AVFormatContext.
Hypothesis handle : fmt_ctx f = Some c.
Hypothesis video_at_v :
  forall s, stream_at c (v_index f) = Some s ->
            codec_type (codec s) = AVMEDIA_TYPE_VIDEO.
Hypothesis audio_at_a :
  forall s, stream_at c (a_index f) = Some s ->
            codec_type (codec s) = AVMEDIA_TYPE_AUDIO.

Lemma loop_body_dispatch n frame :
  snd (loop_body lib n f frame) <> Fault ->
  let t := fst (loop_body lib n f frame) in
  let idx := stream_index (snd (av_read_frame lib n)) in
  count is_video_decode t
  = (if end_of_stream lib n then 0%nat
     else if idx =? v_index f then 1%nat else 0%nat)
  /\ count is_audio_decode t
     = (if end_of_stream lib n then 0%nat
        else if idx =? a_index f then 1%nat else 0%nat)
  /\ (video_blocks t <= count is_video_decode t)%nat
  /\ (audio_blocks t <= count is_audio_decode t)%nat.
Proof.
  cbv zeta. unfold loop_body, end_of_stream.
  destruct (av_read_frame lib n) as [ret pkt]. cbn [fst snd].
  destruct (ret =? AVERROR_EOF); [intros _; vm_compute; repeat split; lia|].
  destruct (stream_index pkt =? v_index f) eqn:E1;
    destruct (stream_index pkt =? a_index f) eqn:E2; cbn [negb andb];
    try (intros _; vm_compute; repeat split; lia);
    rewrite handle;
    destruct (stream_at c (stream_index pkt)) as [s|] eqn:Es;
    try (intros Hf; contradiction Hf; reflexivity);
    intros _;
    try (apply Z.eqb_eq in E1; pose proof (video_at_v s) as Tv;
         rewrite <- E1 in Tv; specialize (Tv Es));
    try (apply Z.eqb_eq in E2; pose proof (audio_at_a s) as Ta;
         rewrite <- E2 in Ta; specialize (Ta Es));
    try congruence;
    unfold decode_packet, report;
    rewrite ?Tv, ?Ta; cbn [AVMediaType_eqb]; cbv beta iota zeta;
    match goal with
    | |- context [if ?b then _ else _] => destruct b
    end;
    vm_compute; repeat split; lia.
Qed.

Lemma decode_loop_dispatch fuel :
  forall n frame,
    snd (decode_loop lib fuel n f frame) <> Faulted ->
    let t := fst (decode_loop lib fuel n f frame) in
    count is_video_decode t = packets_on lib fuel n (v_index f)
    /\ count is_audio_decode t = packets_on lib fuel n (a_index f)
    /\ (video_blocks t <= packets_on lib fuel n (v_index f))%nat
    /\ (audio_blocks t <= packets_on lib fuel n (a_index f))%nat.
Proof.
  cbv zeta. induction fuel as [|fuel IH]; intros n frame Hf.
  - vm_compute. repeat split; lia.
  - rewrite decode_loop_S in *. cbn [packets_on].
    pose proof (loop_body_dispatch n frame) as Hb.
    pose proof (loop_body_break lib n f frame) as Hbr.
    cbv zeta in Hb.
    destruct (loop_body lib n f frame) as [t [ | frame' | ]];
      cbn [fst snd] in *.
    + rewrite (proj1 Hbr eq_refl) in *.
      destruct Hb as (B1 & B2 & B3 & B4); [discriminate|].
      repeat split; lia.
    + destruct (end_of_stream lib n);
        [destruct Hbr as [_ Hbr]; discriminate (Hbr eq_refl)|].
      specialize (IH (S n) frame').
      destruct (decode_loop lib fuel (S n) f frame') as [t' p].
      cbn [fst snd] in *.
      destruct (IH Hf) as (I1 & I2 & I3 & I4).
      destruct Hb as (B1 & B2 & B3 & B4); [discriminate|].
      unfold video_blocks, audio_blocks in *.
      rewrite !count_app, I1, I2, B1, B2.
      repeat split; lia.
    + contradiction Hf. reflexivity.
Qed.

End Dispatch.

Lemma selected_ok_kind lib k c i s :
  selected_ok lib k (streams c) i -> stream_at c i = Some s ->
  codec_type (codec s) = k.
Proof.
  intros [->|(H0 & s0 & Hn & Hk & _)] Hs; [discriminate Hs|].
  unfold stream_at in Hs.
  replace (i <? 0) with false in Hs by (symmetry; now apply Z.ltb_ge).
  congruence.
Qed.

(** With the indices as [open_input] leaves them, the packets on
    [v_index] go to [avcodec_decode_video2] and those on [a_index] to
    [avcodec_decode_audio4], one call per packet; so there are at most
    as many "Video :" blocks as packets on the video index, and at most
    as many "Audio :" blocks as packets on the audio index. *)
Theorem packets_decoded_by_kind :
  forall lib fuel n f c frame,
    fmt_ctx f = Some c ->
    selected_ok lib AVMEDIA_TYPE_VIDEO (streams c) (v_index f) ->
    selected_ok lib AVMEDIA_TYPE_AUDIO (streams c) (a_index f) ->
    snd (decode_loop lib fuel n f frame) <> Faulted ->
    let t := fst (decode_loop lib fuel n f frame) in
    count is_video_decode t = packets_on lib fuel n (v_index f)
    /\ count is_audio_decode t = packets_on lib fuel n (a_index f)
    /\ (video_blocks t <= packets_on lib fuel n (v_index f))%nat
    /\ (audio_blocks t <= packets_on lib fuel n (a_index f))%nat.
Proof.
  intros lib fuel n f c frame Hc Hv Ha Hf.
  apply (decode_loop_dispatch lib f c Hc); [| |assumption].
  - intros s. now apply (selected_ok_kind lib).
  - intros s. now apply (selected_ok_kind lib).
Qed.

Lemma audio_video_file_selected :
  selected_ok audio_video_lib AVMEDIA_TYPE_VIDEO
    [audio_stream; video_stream; subtitle_stream] 1 /\
  selected_ok audio_video_lib AVMEDIA_TYPE_AUDIO
    [audio_stream; video_stream; subtitle_stream] 0.
Proof.
  pose proof (open_input_selected audio_video_lib (Some "input.mp4"%string)
                inputFile_init) as H.
  assert (E : snd (fst (open_input audio_video_lib (Some "input.mp4"%string)
                          inputFile_init)) = audio_video_file)
    by (vm_compute; reflexivity).
  cbv zeta in H. rewrite E in H.
  destruct H as (Hv & Ha & _);
    [apply few_streams_sample; vm_compute; discriminate|].
  split; assumption.
Qed.

(** Of the six packets of [audio_video_lib] two are video packets and
    two are audio packets. *)
Lemma packets_decoded_by_kind_witness :
  let t := fst (decode_loop audio_video_lib 10 0 audio_video_file blank_frame) in
  count is_video_decode t = 2%nat /\ count is_audio_decode t = 2%nat.
Proof.
  destruct audio_video_file_selected as [Hv Ha].
  destruct (packets_decoded_by_kind audio_video_lib 10 0 audio_video_file
              {| streams := [audio_stream; video_stream; subtitle_stream] |}
              blank_frame eq_refl Hv Ha) as (E1 & E2 & _).
  - vm_compute. discriminate.
  - cbv zeta. rewrite E1, E2. split; vm_compute; reflexivity.
Defined.

(** ** Array bounds *)

(** When one of the two indices is still -1, a packet that carries the
    stream index -1 passes the routing test of lines 200-201 and the
    iteration indexes [streams] at -1. *)
Theorem stray_packet_faults :
  forall lib fuel n f frame,
    end_of_stream lib n = false ->
    stream_index (snd (av_read_frame lib n)) = -1 ->
    v_index f = -1 \/ a_index f = -1 ->
    loop_body lib n f frame = ([Call_av_read_frame], Fault)
    /\ decode_loop lib (S fuel) n f frame = ([Call_av_read_frame], Faulted).
Proof.
  intros lib fuel n f frame He Hi Hs.
  assert (Hb : loop_body lib n f frame = ([Call_av_read_frame], Fault)).
  { unfold loop_body. unfold end_of_stream in He.
    destruct (av_read_frame lib n) as [ret pkt]. cbn [fst snd] in *.
    rewrite He, Hi.
    assert (E : negb (-1 =? v_index f) && negb (-1 =? a_index f) = false)
      by (destruct Hs as [-> | ->]; simpl; rewrite ?andb_false_r; reflexivity).
    rewrite E. destruct (fmt_ctx f); reflexivity. }
  split; [exact Hb|]. rewrite decode_loop_S, Hb. reflexivity.
Qed.

(** The second read of [stray_packet_lib] on an audio-only selection. *)
Lemma stray_packet_faults_witness :
  decode_loop stray_packet_lib 1 1 audio_only_file blank_frame
  = ([Call_av_read_frame], Faulted).
Proof.
  apply (stray_packet_faults stray_packet_lib 0 1 audio_only_file blank_frame).
  - vm_compute; reflexivity.
  - vm_compute; reflexivity.
  - left; reflexivity.
Defined.

(** With at most [INT_MAX] streams and packets that carry nonnegative
    stream indices, a run never indexes [streams] outside the array:
    its outcome is an exit or a loop still running. *)
Theorem main_stays_in_bounds :
  forall lib fuel argv,
    few_streams lib (nth_error argv 1) ->
    (forall j, 0 <= stream_index (snd (av_read_frame lib j))) ->
    snd (main lib fuel argv) <> Undefined.
Proof.
  intros lib fuel argv Hfew Hpkt.
  destruct (le_lt_dec 2 (length argv)) as [H|H];
    [|rewrite (main_usage lib fuel argv H); discriminate].
  pose proof (main_outcome lib fuel argv H) as Hout.
  pose proof (open_input_selected lib (nth_error argv 1) inputFile_init Hfew)
    as Hsel.
  pose proof (open_input_handle lib (nth_error argv 1) inputFile_init) as Hh.
  pose proof (open_input_open_failure lib (nth_error argv 1) inputFile_init)
    as Hnull.
  cbv zeta in Hsel.
  destruct (open_input lib (nth_error argv 1) inputFile_init)
    as [[r f1] t1] eqn:Eo.
  cbn [fst snd] in *. rewrite Hout.
  destruct (r <? 0) eqn:Er; [discriminate|]. apply Z.ltb_ge in Er.
  destruct (av_frame_alloc lib) as [frame|]; [|discriminate].
  destruct (fmt_ctx f1) as [c|] eqn:Ec.
  - destruct Hsel as (Hv & Ha & _).
    unfold streams_of in Hv, Ha. rewrite Ec in Hv, Ha.
    apply selected_ok_bounds in Hv, Ha.
    pose proof (decode_loop_no_fault lib f1 c fuel Ec) as Hnf.
    specialize (Hnf ltac:(unfold nb_streams; lia) ltac:(unfold nb_streams; lia)
                      Hpkt 0%nat frame).
    destruct (snd (decode_loop lib fuel 0 f1 frame)); congruence.
  - specialize (Hnull (proj1 Hh eq_refl)). injection Hnull as -> _ _. lia.
Qed.

Lemma main_stays_in_bounds_witness :
  few_streams audio_video_lib (nth_error sample_argv 1) /\
  (forall j, 0 <= stream_index (snd (av_read_frame audio_video_lib j))) /\
  snd (main audio_video_lib 3 sample_argv) <> Undefined.
Proof.
  assert (Hf : few_streams audio_video_lib (nth_error sample_argv 1))
    by (apply few_streams_sample; vm_compute; discriminate).
  assert (Hp : forall j,
             0 <= stream_index (snd (av_read_frame audio_video_lib j))).
  { intros j. simpl. destruct (j <? 6)%nat; simpl; lia. }
  split; [exact Hf|]. split; [exact Hp|].
  exact (main_stays_in_bounds audio_video_lib 3 sample_argv Hf Hp).
Defined.

(** ** Selection when every decoder opens *)

Section AllOpen.

Variable lib : Library.

Lemma select_streams_all_open rest :
  forall pre f,
    Z.of_nat (length (pre ++ rest)) <= INT_MAX ->
    (forall s, In s rest -> fst (open_decoder lib (codec s)) = 0) ->
    scanned lib AVMEDIA_TYPE_VIDEO pre (v_index f) ->
    scanned lib AVMEDIA_TYPE_AUDIO pre (a_index f) ->
    let f' := fst (select_streams lib (Z.of_nat (length pre)) rest f) in
    scanned lib AVMEDIA_TYPE_VIDEO (pre ++ rest) (v_index f') /\
    scanned lib AVMEDIA_TYPE_AUDIO (pre ++ rest) (a_index f').
Proof.
  induction rest as [|x rest IH]; intros pre f Hlen Hopen Hv Ha.
  - simpl. rewrite app_nil_r. split; assumption.
  - assert (Hnext : Z.of_nat (length pre) + 1 = Z.of_nat (length (pre ++ [x])))
      by (rewrite length_app; simpl; lia).
    assert (Happ : pre ++ x :: rest = (pre ++ [x]) ++ rest)
      by (rewrite <- app_assoc; reflexivity).
    assert (Hidx : to_int (Z.of_nat (length pre)) = Z.of_nat (length pre)).
    { apply to_int_small. rewrite length_app in Hlen. simpl in Hlen. lia. }
    assert (Hx : fst (open_decoder lib (codec x)) = 0)
      by (apply Hopen; left; reflexivity).
    assert (Hrest : forall s, In s rest -> fst (open_decoder lib (codec s)) = 0)
      by (intros s Hs; apply Hopen; right; exact Hs).
    cbn [select_streams]. cbv zeta.
    destruct (AVMediaType_eqb (codec_type (codec x)) AVMEDIA_TYPE_VIDEO
              && (v_index f <? 0)) eqn:Ev.
    { apply andb_true_iff in Ev. destruct Ev as [Ek Ei].
      apply AVMediaType_eqb_eq in Ek. apply Z.ltb_lt in Ei.
      destruct (open_decoder lib (codec x)) as [r t] eqn:Eo. cbn [fst] in Hx.
      subst r. cbn [Z.ltb Z.compare].
      rewrite let_pair_app. cbn [fst]. rewrite Hnext, Hidx, Happ.
      refine (IH (pre ++ [x]) _ _ Hrest _ _).
      + rewrite <- Happ. assumption.
      + simpl. apply scanned_select with (i := v_index f); auto.
        rewrite Eo. reflexivity.
      + simpl. apply scanned_skip; [assumption|]. intros _. rewrite Ek.
        discriminate. }
    destruct (AVMediaType_eqb (codec_type (codec x)) AVMEDIA_TYPE_AUDIO
              && (a_index f <? 0)) eqn:Ea.
    { apply andb_true_iff in Ea. destruct Ea as [Ek Ei].
      apply AVMediaType_eqb_eq in Ek. apply Z.ltb_lt in Ei.
      destruct (open_decoder lib (codec x)) as [r t] eqn:Eo. cbn [fst] in Hx.
      subst r. cbn [Z.ltb Z.compare].
      rewrite let_pair_app. cbn [fst]. rewrite Hnext, Hidx, Happ.
      refine (IH (pre ++ [x]) _ _ Hrest _ _).
      + rewrite <- Happ. assumption.
      + simpl. apply scanned_skip; [assumption|]. intros _. rewrite Ek.
        discriminate.
      + simpl. apply scanned_select with (i := a_index f); auto.
        rewrite Eo. reflexivity. }
    rewrite Hnext, Happ. apply IH; [rewrite <- Happ; assumption | assumption | |].
    + apply scanned_skip; [assumption|]. intros Hi Hk.
      apply Z.ltb_lt in Hi. apply AVMediaType_eqb_eq in Hk.
      rewrite Hi, Hk in Ev. discriminate.
    + apply scanned_skip; [assumption|]. intros Hi Hk.
      apply Z.ltb_lt in Hi. apply AVMediaType_eqb_eq in Hk.
      rewrite Hi, Hk in Ea. discriminate.
Qed.

Lemma scanned_minus_one k ss i :
  scanned lib k ss i ->
  (i = -1 <-> forall s, In s ss -> codec_type (codec s) <> k).
Proof.
  intros [[-> Hn]|(H0 & s & Hs & Hk & _)].
  - split; auto.
  - split; [lia|]. intros Hn. exfalso.
    apply (Hn s); [eapply nth_error_In; eassumption | assumption].
Qed.

End AllOpen.

(** When the decoder of every stream opens, the scan misses nothing:
    each index ends as -1 exactly when the container holds no stream of
    its kind, and otherwise names the first stream of its kind. *)
Theorem select_streams_complete :
  forall lib ss h,
    Z.of_nat (length ss) <= INT_MAX ->
    (forall s, In s ss -> fst (open_decoder lib (codec s)) = 0) ->
    let f := fst (select_streams lib 0 ss (unselected h)) in
    (v_index f = -1 <->
     forall s, In s ss -> codec_type (codec s) <> AVMEDIA_TYPE_VIDEO)
    /\ (a_index f = -1 <->
        forall s, In s ss -> codec_type (codec s) <> AVMEDIA_TYPE_AUDIO)
    /\ selected_ok lib AVMEDIA_TYPE_VIDEO ss (v_index f)
    /\ selected_ok lib AVMEDIA_TYPE_AUDIO ss (a_index f).
Proof.
  intros lib ss h Hlen Hopen. cbv zeta.
  destruct (select_streams_all_open lib ss [] (unselected h)) as [Hv Ha];
    try assumption;
    try (left; split; [reflexivity | intros s []]).
  cbn [length app Z.of_nat] in Hv, Ha.
  split; [now apply (scanned_minus_one lib)|].
  split; [now apply (scanned_minus_one lib)|].
  split; [apply (scanned_selected_ok lib _ ss [] _) in Hv
         | apply (scanned_selected_ok lib _ ss [] _) in Ha];
    rewrite app_nil_r in *; assumption.
Qed.

(** The scan of [audio; video; subtitle] with every decoder at hand
    fills both indices. *)
Lemma select_streams_complete_witness :
  let f := fst (select_streams audio_video_lib 0
                  [audio_stream; video_stream; subtitle_stream]
                  (unselected None)) in
  v_index f <> -1 /\ a_index f <> -1.
Proof.
  destruct (select_streams_complete audio_video_lib
              [audio_stream; video_stream; subtitle_stream] None)
    as (Hv & Ha & _).
  - vm_compute. discriminate.
  - intros s Hs. simpl in Hs.
    destruct Hs as [<-|[<-|[<-|[]]]]; vm_compute; reflexivity.
  - cbv zeta. split.
    + intros E. apply (proj1 Hv E video_stream); [|reflexivity].
      right; left; reflexivity.
    + intros E. apply (proj1 Ha E audio_stream); [|reflexivity].
      left; reflexivity.
Defined.

(** ** Teardown *)

(** [release] twice is [release] once: the second call finds the
    handle [NULL] and performs no action, and no call changes the two
    indices. *)
Theorem release_idempotent :
  forall f,
    release (fst (release f)) = (fst (release f), [])
    /\ v_index (fst (release f)) = v_index f
    /\ a_index (fst (release f)) = a_index f.
Proof.
  intros f. destruct (release_indices f) as (Hv & Ha & Hn).
  split; [apply release_null; exact Hn | split; assumption].
Qed.

Lemma loop_body_break_trace lib n f frame :
  snd (loop_body lib n f frame) = Break ->
  fst (loop_body lib n f frame)
  = [Call_av_read_frame; Printf "End of frame\n" []].
Proof.
  unfold loop_body.
  destruct (av_read_frame lib n) as [ret pkt].
  destruct (ret =? AVERROR_EOF); [reflexivity|].
  destruct (negb _ && negb _); [discriminate|].
  destruct (fmt_ctx f) as [c|]; [|discriminate].
  destruct (stream_at c (stream_index pkt)) as [s|]; [|discriminate].
  cbv zeta.
  destruct (decode_packet lib n (codec s) _ frame) as [[[r g] fr] t1].
  break_if; discriminate.
Qed.

Lemma decode_loop_finished_trace lib f fuel :
  forall n frame,
    snd (decode_loop lib fuel n f frame) = Finished ->
    exists pre,
      fst (decode_loop lib fuel n f frame)
      = pre ++ [Call_av_read_frame; Printf "End of frame\n" []].
Proof.
  induction fuel as [|fuel IH]; intros n frame Hf; [discriminate|].
  rewrite decode_loop_S in *.
  pose proof (loop_body_break_trace lib n f frame) as Hb.
  destruct (loop_body lib n f frame) as [t [ | frame' | ]];
    cbn [fst snd] in *; try discriminate.
  - exists []. now rewrite Hb.
  - specialize (IH (S n) frame').
    destruct (decode_loop lib fuel (S n) f frame') as [t' p].
    cbn [fst snd] in *. destruct (IH Hf) as [pre ->].
    exists (t ++ pre). now rewrite app_assoc.
Qed.

(** The order of the teardown at the end of the stream: the last
    actions of the run are the read that returned [AVERROR_EOF], the
    "End of frame" line, [av_frame_free], and then [release], which
    closes decoders only and ends with [avformat_close_input]. *)
Theorem teardown_order :
  forall lib fuel argv frame,
    (2 <= length argv)%nat ->
    let '(r, f1, _) := open_input lib (nth_error argv 1) inputFile_init in
    0 <= r -> av_frame_alloc lib = Some frame ->
    snd (decode_loop lib fuel 0 f1 frame) = Finished ->
    exists pre cl,
      fst (fst (main lib fuel argv))
      = pre
        ++ [Call_av_read_frame; Printf "End of frame\n" [];
            Call_av_frame_free; Enter_release]
        ++ cl ++ [Call_avformat_close_input]
      /\ all_of is_close cl
      /\ snd (release f1) = cl ++ [Call_avformat_close_input].
Proof.
  intros lib fuel argv frame H.
  rewrite (main_run lib fuel argv H). cbv zeta.
  pose proof (open_input_handle lib (nth_error argv 1) inputFile_init) as Hh.
  pose proof (open_input_open_failure lib (nth_error argv 1) inputFile_init)
    as Hnull.
  destruct (open_input lib (nth_error argv 1) inputFile_init)
    as [[r f1] t1] eqn:Eo.
  cbn [fst snd] in *. intros Hr Ef Hl.
  replace (r <? 0) with false by (symmetry; now apply Z.ltb_ge).
  rewrite Ef.
  destruct (decode_loop_finished_trace lib f1 fuel 0 frame Hl) as [pre Ht].
  destruct (decode_loop lib fuel 0 f1 frame) as [t2 p]. cbn [fst snd] in *.
  subst p t2. rewrite main_end_eq. cbn [fst].
  destruct (fmt_ctx f1) as [c|] eqn:Ec.
  - exists ([Call_av_register_all; Call_av_log_set_level AV_LOG_DEBUG]
            ++ t1 ++ Call_av_frame_alloc :: pre),
      (close_decoders 0 (streams c) f1).
    unfold release. rewrite Ec. cbn [snd].
    split; [|split; [apply close_decoders_only_closes | reflexivity]].
    rewrite <- !app_assoc. cbn [app]. rewrite <- !app_assoc. reflexivity.
  - exfalso. specialize (Hnull (proj1 Hh eq_refl)).
    injection Hnull as -> _ _. lia.
Qed.

(** The run of [audio_video_lib] to the end of its stream. *)
Lemma teardown_order_witness :
  (2 <= length sample_argv)%nat /\
  exists pre cl,
    fst (fst (main audio_video_lib 10 sample_argv))
    = pre
      ++ [Call_av_read_frame; Printf "End of frame\n" [];
          Call_av_frame_free; Enter_release]
      ++ cl ++ [Call_avformat_close_input]
    /\ all_of is_close cl.
Proof.
  assert (H2 : (2 <= length sample_argv)%nat) by (simpl; lia).
  split; [exact H2|].
  pose proof (teardown_order audio_video_lib 10 sample_argv blank_frame H2)
    as H.
  destruct (open_input audio_video_lib (nth_error sample_argv 1) inputFile_init)
    as [[r f1] t1] eqn:Eo.
  assert (E : r = 0 /\ f1 = audio_video_file)
    by (vm_compute in Eo; injection Eo as <- <- _; split; reflexivity).
  destruct E as [-> ->].
  destruct H as (pre & cl & Ht & Hc & _);
    [lia | reflexivity | vm_compute; reflexivity |].
  exists pre, cl. split; assumption.
Defined.

(** Six packets, then the end of the stream at the seventh read. *)
Lemma main_exits_with_enough_fuel_witness :
  (2 <= length sample_argv)%nat /\
  few_streams audio_video_lib (nth_error sample_argv 1) /\
  fst (av_read_frame audio_video_lib 6) = AVERROR_EOF /\
  snd (main audio_video_lib 7 sample_argv) = Exit 0.
Proof.
  assert (H2 : (2 <= length sample_argv)%nat) by (simpl; lia).
  assert (Hf : few_streams audio_video_lib (nth_error sample_argv 1))
    by (apply few_streams_sample; vm_compute; discriminate).
  assert (Hp : forall j,
             0 <= stream_index (snd (av_read_frame audio_video_lib j))).
  { intros j. simpl. destruct (j <? 6)%nat; simpl; lia. }
  split; [exact H2|]. split; [exact Hf|]. split; [reflexivity|].
  apply (main_exits_with_enough_fuel audio_video_lib 7 sample_argv 6 H2 Hf Hp);
    [lia | reflexivity].
Defined.

(** ** Standard output of a run *)

Lemma open_input_prints lib filename f0 :
  let r := fst (fst (open_input lib filename f0)) in
  let t := snd (open_input lib filename f0) in
  count is_printf t = (if r <? 0 then 1%nat else 0%nat)
  /\ report_blocks t = 0%nat /\ end_of_frame_lines t = 0%nat.
Proof.
  cbv zeta. unfold open_input.
  destruct (avformat_open_input lib filename) as [c|];
    [|vm_compute; repeat split].
  destruct (avformat_find_stream_info lib c) as [r c'].
  destruct (r <? 0); [vm_compute; repeat split|].
  match goal with
  | |- context [select_streams lib 0 ?ss ?g] =>
      pose proof (select_streams_scan_actions lib ss 0 g) as Hs;
      destruct (select_streams lib 0 ss g) as [f t]
  end.
  cbn [snd] in Hs.
  assert (Hz : forall p, (forall e, scan_event e = true -> p e = false) ->
                         count p t = 0%nat)
    by (intros p Hp; now apply (all_of_count_zero scan_event)).
  assert (Hp : count is_printf t = 0%nat)
    by (apply Hz; intros []; simpl; congruence).
  assert (Hf : forall fmt, count (prints fmt) t = 0%nat)
    by (intros fmt; apply Hz; intros []; simpl; congruence).
  unfold report_blocks, video_blocks, audio_blocks, end_of_frame_lines.
  break_if; cbn [fst snd app];
    rewrite ?count_cons, ?count_app, ?count_cons, ?Hp, ?Hf;
    vm_compute; repeat split.
Qed.

Section Output.

Variable lib : Library.
Variable p : event -> bool.
Hypothesis p_printf : forall e, is_printf e = false -> p e = false.

(** Lines are printed by [open_input] and by the loop only. *)
Lemma main_printf_count fuel argv :
  (2 <= length argv)%nat ->
  let '(r, f1, t1) := open_input lib (nth_error argv 1) inputFile_init in
  count p (fst (fst (main lib fuel argv)))
  = (count p t1
     + if Z.ltb r 0 then 0
       else match av_frame_alloc lib with
            | None => 0
            | Some frame => count p (fst (decode_loop lib fuel 0 f1 frame))
            end)%nat.
Proof.
  intros H. pose proof (main_count p lib fuel argv H) as Hc.
  assert (Hr : forall f, count p (snd (release f)) = 0%nat).
  { intros f. apply (all_of_count_zero teardown_event);
      [apply release_actions | intros [] E; apply p_printf; try reflexivity;
                               discriminate E]. }
  destruct (open_input lib (nth_error argv 1) inputFile_init) as [[r f1] t1].
  cbv zeta in Hc. rewrite Hc, !count_cons, Hr, !p_printf by reflexivity.
  change (count p []) with 0%nat.
  destruct (r <? 0); [lia|].
  destruct (av_frame_alloc lib) as [frame|]; [|lia].
  destruct (snd (decode_loop lib fuel 0 f1 frame)); lia.
Qed.

End Output.

Lemma printf_only_printf e : is_printf e = false -> is_printf e = false.
Proof. auto. Qed.

Lemma prints_only_printf fmt e : is_printf e = false -> prints fmt e = false.
Proof. destruct e; simpl; congruence. Qed.

(** The standard output of a run that was given its argument: one line
    if [open_input] failed, and nothing else in that case; otherwise
    three lines per report block and at most one "End of frame" line;
    no other line is ever printed.  A failed frame allocation prints
    nothing: after a successful [open_input] the run then prints no
    line at all, and in any case no report and no "End of frame"
    line. *)
Theorem run_output_shape :
  forall lib fuel argv,
    (2 <= length argv)%nat ->
    let '(r, _, _) := open_input lib (nth_error argv 1) inputFile_init in
    let t := fst (fst (main lib fuel argv)) in
    count is_printf t
    = ((if Z.ltb r 0 then 1 else 0)
       + 3 * report_blocks t + end_of_frame_lines t)%nat
    /\ (end_of_frame_lines t <= 1)%nat
    /\ (r < 0 -> report_blocks t = 0%nat /\ end_of_frame_lines t = 0%nat)
    /\ (av_frame_alloc lib = None ->
        count is_printf t = (if Z.ltb r 0 then 1 else 0)%nat
        /\ report_blocks t = 0%nat /\ end_of_frame_lines t = 0%nat)
    /\ (0 <= r -> av_frame_alloc lib = None -> count is_printf t = 0%nat).
Proof.
  intros lib fuel argv H.
  pose proof (main_printf_count lib is_printf printf_only_printf fuel argv H)
    as Hp.
  pose proof (fun fmt => main_printf_count lib (prints fmt)
                           (prints_only_printf fmt) fuel argv H) as Hf.
  pose proof (open_input_prints lib (nth_error argv 1) inputFile_init)
    as (Op & Ob & Oe).
  destruct (open_input lib (nth_error argv 1) inputFile_init)
    as [[r f1] t1] eqn:Eo.
  cbn [fst snd] in *. cbv zeta.
  unfold report_blocks, video_blocks, audio_blocks, end_of_frame_lines in *.
  rewrite Hp, !Hf, Op. clear Hp Hf.
  destruct (r <? 0) eqn:Er.
  - apply Z.ltb_lt in Er. repeat split; lia.
  - apply Z.ltb_ge in Er.
    destruct (av_frame_alloc lib) as [frame|]; [|repeat split; lia].
    pose proof (loop_output_balance lib fuel 0 f1 frame)
      as (Lp & _ & _ & _ & Le).
    unfold report_blocks, video_blocks, audio_blocks, end_of_frame_lines in *.
    repeat split; try lia; try discriminate.
    destruct (snd (decode_loop lib fuel 0 f1 frame)); lia.
Qed.

(** The run of [audio_video_lib]: four reports and the "End of frame"
    line, thirteen lines in all. *)
Lemma run_output_shape_witness :
  (2 <= length sample_argv)%nat /\
  let t := fst (fst (main audio_video_lib 10 sample_argv)) in
  count is_printf t = 13%nat /\ report_blocks t = 4%nat /\
  end_of_frame_lines t = 1%nat.
Proof.
  assert (H2 : (2 <= length sample_argv)%nat) by (simpl; lia).
  split; [exact H2|].
  pose proof (run_output_shape audio_video_lib 10 sample_argv H2) as H.
  destruct (open_input audio_video_lib (nth_error sample_argv 1) inputFile_init)
    as [[r f1] t1] eqn:Eo.
  assert (E : r = 0)
    by (vm_compute in Eo; injection Eo as <- _ _; reflexivity).
  subst r. cbv zeta in H |- *. destruct H as (Hp & _).
  assert (Hb : report_blocks (fst (fst (main audio_video_lib 10 sample_argv)))
               = 4%nat) by (vm_compute; reflexivity).
  assert (He : end_of_frame_lines
                 (fst (fst (main audio_video_lib 10 sample_argv))) = 1%nat)
    by (vm_compute; reflexivity).
  rewrite Hp, Hb, He. repeat split.
Defined.

(** * Setup errors and the exit status (C7) *)






